(** * The vanilla shell: client-side router and microfrontend loader

    A shallow embedding of [shell-vanilla/src/router.js],
    [shell-vanilla/src/mfe-loader.js] and [shell-vanilla/src/error-boundary.js].

    JavaScript objects with mutable fields become records that are threaded
    through every call; a call that may throw returns a [Completion]
    together with the state it leaves behind (JavaScript keeps the side
    effects made before a throw).  An [await]ed promise is modelled by the
    completion it settles with: fulfilled is [Normal], rejected is [Throw];
    what is thrown is an [Error] object.

    The router calls [navigate] without [await] in three places, so its
    [async] functions are split where they wait: a call runs to its
    [await], a call that nobody awaits is left suspended in the window,
    and the suspended calls are resumed afterwards, oldest first.  The
    loader awaits every call it makes; there one call runs at a time.

    Code that the shell calls but does not own is a parameter: route
    handlers are functions on the page, a remote's mount and teardown and
    the federation library are functions on the world outside the loader,
    and [document.querySelector] and the answer of [history.pushState]
    to a URL are given by the browser.  None of them can reach the
    private fields of the router or of the loader. *)

From Stdlib Require Import Ascii.
From stdpp Require Import gmap strings list.

Local Open Scope string_scope.
Local Open Scope list_scope.

(** ** JavaScript basics shared by both modules *)

Module Js.

(** An [Error] object: [error.name], [error.message], [error.stack]. *)
Record JsError := mkJsError {
  err_name : string;
  err_message : string;
  err_stack : string
}.

(** How a call ends: it returns (a promise fulfils) or throws (rejects). *)
Inductive Completion (A : Type) : Type :=
| Normal (a : A)
| Throw (e : JsError).
Global Arguments Normal {A} a.
Global Arguments Throw {A} e.

(** One line written to the console. *)
Inductive LogEntry :=
| ConsoleLog (msg : string)
| ConsoleWarn (msg : string)
| ConsoleError (msg : string) (detail : JsError).

(** The double-quote character used inside the source's template strings. *)
Definition dq : string := String (Ascii.ascii_of_nat 34) EmptyString.

Definition quoted (s : string) : string := dq +:+ s +:+ dq.

End Js.
Import Js.

(** ** router.js *)

Module Router.

(** What the browser decides about a URL handed to [history.pushState]:
    [resolve base url] is the pathname the location gets when [url],
    resolved against the current location, stays on the page's origin,
    and [None] when it does not (or does not parse); [pushState] then
    throws [pushStateError url], a SecurityError.  ['/'] always resolves
    to the root of the page's own origin. *)
Record Browser := mkBrowser {
  resolve : string -> string -> option string;
  pushStateError : string -> JsError;
  resolve_root : forall base, resolve base "/" = Some "/"
}.

Section WithPage.

(** What the route handlers act upon (the document, the loader, ...);
    the router itself never looks inside. *)
Context {Page : Type} (browser : Browser).

(** What is left of a handler after the call [handler(path)] has handed
    control back: the promise it returned settles later, with further
    effects on the page. *)
Definition Rest : Type := Page -> Completion unit * Page.

(** The call [handler(path)] itself.  A plain function may throw on the
    spot; otherwise the call returns, after the effects the handler has
    up to its first [await] (all of them, for a plain function), a value
    or a promise that [await] waits for. *)
Inductive Started :=
| Threw (error : JsError) (p : Page)
| Returned (p : Page) (rest : Rest).

(** A route handler, called as [await handler(path)]. *)
Definition Handler : Type := string -> Page -> Started.

(** What [await handler(path)] amounts to when nothing else runs before
    the handler's promise has settled. *)
Definition awaited (st : Started) : Completion unit * Page :=
  match st with
  | Threw error p => (Throw error, p)
  | Returned p rest => rest p
  end.

(** A call of [navigate] suspended at [await handler(path)]. *)
Record Job := mkJob { job_path : string; job_rest : Rest }.

(** [class Router]: the fields set by the constructor. *)
Record Router := mkRouter {
  routes : gmap string Handler;
  currentRoute : option string;
  isInitialized : bool
}.

Definition new_Router : Router :=
  {| routes := ∅; currentRoute := None; isInitialized := false |}.

(** The part of [window] the router touches. *)
Record Window := mkWindow {
  history : list string;            (* paths recorded by pushState, oldest first *)
  location_pathname : string;
  popstate_listeners : nat;         (* listeners added by init *)
  console : list LogEntry;          (* oldest first *)
  unhandled : list JsError;         (* rejections of promises nobody awaits *)
  suspended : list Job;             (* calls of navigate nobody awaits, oldest first *)
  page : Page
}.

Record St := mkSt { router : Router; window : Window }.

Definition log (l : LogEntry) (s : St) : St :=
  let w := window s in
  {| router := router s;
     window := {| history := history w;
                  location_pathname := location_pathname w;
                  popstate_listeners := popstate_listeners w;
                  console := console w ++ [l];
                  unhandled := unhandled w;
                  suspended := suspended w;
                  page := page w |} |}.

(** The effect of a [pushState] that the browser accepts. *)
Definition pushed (path pathname : string) (s : St) : St :=
  let w := window s in
  {| router := router s;
     window := {| history := history w ++ [path];
                  location_pathname := pathname;
                  popstate_listeners := popstate_listeners w;
                  console := console w;
                  unhandled := unhandled w;
                  suspended := suspended w;
                  page := page w |} |}.

(** [window.history.pushState({ path }, '', path)] *)
Definition pushState (path : string) (s : St) : Completion unit * St :=
  match resolve browser (location_pathname (window s)) path with
  | Some pathname => (Normal tt, pushed path pathname s)
  | None => (Throw (pushStateError browser path), s)
  end.

Definition addPopstateListener (s : St) : St :=
  let w := window s in
  {| router := router s;
     window := {| history := history w;
                  location_pathname := location_pathname w;
                  popstate_listeners := S (popstate_listeners w);
                  console := console w;
                  unhandled := unhandled w;
                  suspended := suspended w;
                  page := page w |} |}.

(** A rejected promise that nobody awaits reaches the process-wide
    [unhandledrejection] listener. *)
Definition reportUnhandled (e : JsError) (s : St) : St :=
  let w := window s in
  {| router := router s;
     window := {| history := history w;
                  location_pathname := location_pathname w;
                  popstate_listeners := popstate_listeners w;
                  console := console w;
                  unhandled := unhandled w ++ [e];
                  suspended := suspended w;
                  page := page w |} |}.

Definition set_suspended (js : list Job) (s : St) : St :=
  let w := window s in
  {| router := router s;
     window := {| history := history w;
                  location_pathname := location_pathname w;
                  popstate_listeners := popstate_listeners w;
                  console := console w;
                  unhandled := unhandled w;
                  suspended := js;
                  page := page w |} |}.

Definition set_page (p : Page) (s : St) : St :=
  let w := window s in
  {| router := router s;
     window := {| history := history w;
                  location_pathname := location_pathname w;
                  popstate_listeners := popstate_listeners w;
                  console := console w;
                  unhandled := unhandled w;
                  suspended := suspended w;
                  page := p |} |}.

Definition set_currentRoute (path : string) (s : St) : St :=
  {| router := {| routes := routes (router s);
                  currentRoute := Some path;
                  isInitialized := isInitialized (router s) |};
     window := window s |}.

Definition set_isInitialized (s : St) : St :=
  {| router := {| routes := routes (router s);
                  currentRoute := currentRoute (router s);
                  isInitialized := true |};
     window := window s |}.

(** The second argument of [register]: a function or anything else. *)
Inductive JsValue :=
| JsFunction (h : Handler)
| JsNotAFunction.

(** [register(path, handler)] *)
Definition register (path : string) (handler : JsValue) (s : St)
  : Completion unit * St :=
  match handler with
  | JsNotAFunction =>
      (Throw (mkJsError "Error"
                ("Handler for route " +:+ quoted path +:+ " must be a function")
                EmptyString), s)
  | JsFunction h =>
      (Normal tt,
       {| router := {| routes := <[path := h]> (routes (router s));
                       currentRoute := currentRoute (router s);
                       isInitialized := isInitialized (router s) |};
          window := window s |})
  end.

(** [this.routes.has(path)] *)
Definition has (path : string) (s : St) : bool :=
  bool_decide (is_Some (routes (router s) !! path)).

(** [getCurrentRoute()] and [hasRoute(path)] *)
Definition getCurrentRoute (s : St) : option string := currentRoute (router s).

(** Calling [undefined] raises a TypeError. *)
Definition notAFunction : JsError :=
  mkJsError "TypeError" "handler is not a function" EmptyString.

(** Where an [async] call stands when it hands control back to its
    caller: settled already, or suspended at its [await]. *)
Inductive Async :=
| Settled (c : Completion unit)
| Awaiting (j : Job).

(** What becomes of a call whose promise nobody awaits: a suspended call
    waits to be resumed, a rejection goes to the process-wide listener. *)
Definition detach (a : Async) (s : St) : St :=
  match a with
  | Settled (Normal _) => s
  | Settled (Throw e) => reportUnhandled e s
  | Awaiting j => set_suspended (suspended (window s) ++ [j]) s
  end.

(** The inner [catch (error)] block of [navigate]; [recover] is the call
    [this.navigate('/')], which is not awaited. *)
Definition handlerFailed (recover : St -> option St) (path : string)
    (error : JsError) (s : St) : option (Completion unit * St) :=
  let s := log (ConsoleError ("Error executing handler for route " +:+
                              quoted path +:+ ":") error) s in
  if negb (String.eqb path "/") && negb (String.eqb path "/home") then
    let s := log (ConsoleLog "Attempting to recover by navigating to home") s in
    match recover s with
    | None => None
    | Some s => Some (Normal tt, s)
    end
  else Some (Throw error, s).

(** The outer [catch (error)] block of [navigate]. *)
Definition criticalError (r : Completion unit * St) : Completion unit * St :=
  match r with
  | (Normal _, s) => (Normal tt, s)
  | (Throw error, s) =>
      (Normal tt, log (ConsoleError "Critical navigation error:" error) s)
  end.

(** [async navigate(path, skipPushState = false)], from the call to the
    point where it hands control back: at [await handler(path)], or at
    its end when something threw before.  The function calls itself
    from its own error handler, so the model carries fuel; [None] means
    the fuel ran out. *)
Fixpoint navigate_start (fuel : nat) (path : string) (skipPushState : bool) (s : St)
  : option (Async * St) :=
  match fuel with
  | O => None
  | S fuel' =>
      let recover (s : St) : option St :=
        match navigate_start fuel' "/" false s with
        | None => None
        | Some (a, s) => Some (detach a s)
        end in
      (* try { *)
      let '(path, s) :=
        if has path s then (path, s)
        else ("/", log (ConsoleWarn ("Route " +:+ quoted path +:+
                                     " not found, redirecting to home")) s) in
      let body : option (Async * St) :=
        match (if skipPushState then (Normal tt, s) else pushState path s) with
        | (Throw error, s) => Some (Settled (Throw error), s)
        | (Normal _, s) =>
            let s := set_currentRoute path s in
            (* try { await handler(path) } catch (error) { ... } *)
            match routes (router s) !! path with
            | None =>
                match handlerFailed recover path notAFunction s with
                | None => None
                | Some (c, s) => Some (Settled c, s)
                end
            | Some handler =>
                match handler path (page (window s)) with
                | Threw error p =>
                    match handlerFailed recover path error (set_page p s) with
                    | None => None
                    | Some (c, s) => Some (Settled c, s)
                    end
                | Returned p rest =>
                    Some (Awaiting {| job_path := path; job_rest := rest |},
                          set_page p s)
                end
            end
        end in
      (* } catch (error) { console.error(...) } *)
      match body with
      | None => None
      | Some (Settled c, s) =>
          let '(c, s) := criticalError (c, s) in Some (Settled c, s)
      | Some (Awaiting j, s) => Some (Awaiting j, s)
      end
  end.

(** [navigate] from its [await] on, once the handler's promise has
    settled. *)
Definition navigate_resume (fuel : nat) (j : Job) (s : St)
  : option (Completion unit * St) :=
  let recover (s : St) : option St :=
    match navigate_start fuel "/" false s with
    | None => None
    | Some (a, s) => Some (detach a s)
    end in
  let body : option (Completion unit * St) :=
    match job_rest j (page (window s)) with
    | (Normal _, p) => Some (Normal tt, set_page p s)
    | (Throw error, p) => handlerFailed recover (job_path j) error (set_page p s)
    end in
  match body with
  | None => None
  | Some r => Some (criticalError r)
  end.

(** [await router.navigate(path, skipPushState)]: the call runs to its
    end, nothing else running while it waits for the handler. *)
Definition navigate_fuel (fuel : nat) (path : string) (skipPushState : bool) (s : St)
  : option (Completion unit * St) :=
  match navigate_start fuel path skipPushState s with
  | None => None
  | Some (Settled c, s) => Some (c, s)
  | Some (Awaiting j, s) => navigate_resume fuel j s
  end.

(** Two levels always suffice (see [navigate_fuel_enough]). *)
Definition navigate (path : string) (skipPushState : bool) (s : St)
  : Completion unit * St :=
  match navigate_fuel 2 path skipPushState s with
  | Some r => r
  | None => (Normal tt, s)
  end.

(** [router.navigate(path, skipPushState)] as the shell itself calls it,
    without [await]: the caller goes on as soon as the call has reached
    its [await]. *)
Definition spawn (path : string) (skipPushState : bool) (s : St) : St :=
  match navigate_start 2 path skipPushState s with
  | Some (a, s') => detach a s'
  | None => s
  end.

(** The suspended calls are resumed one at a time, oldest first, each
    when its handler has settled; [None] means the fuel ran out. *)
Fixpoint settle_fuel (fuel : nat) (s : St) : option St :=
  match suspended (window s) with
  | [] => Some s
  | j :: js =>
      match fuel with
      | O => None
      | S fuel' =>
          match navigate_resume fuel j (set_suspended js s) with
          | None => None
          | Some (c, s') => settle_fuel fuel' (detach (Settled c) s')
          end
      end
  end.

(** How many resumptions a suspended call can cause: its own, and that
    of the recovery it may start. *)
Definition rounds (j : Job) : nat :=
  if negb (String.eqb (job_path j) "/") && negb (String.eqb (job_path j) "/home")
  then 2 else 1.

(** The state once every suspended call has run to its end (the fuel
    suffices, see [settle_spec]). *)
Definition settle (s : St) : St :=
  match settle_fuel (sum_list_with rounds (suspended (window s))) s with
  | Some s' => s'
  | None => s
  end.

(** [init()]: the call [this.navigate(initialPath, true)] is not awaited. *)
Definition init (s : St) : Completion unit * St :=
  if isInitialized (router s) then
    (Normal tt, log (ConsoleWarn "Router already initialized") s)
  else
    let s := addPopstateListener s in
    let initialPath := location_pathname (window s) in
    let s := spawn initialPath true s in
    (Normal tt, set_isInitialized s).

(** What the listener installed by [init] does when the browser fires
    [popstate] with the recorded path ([event.state?.path], or the
    location when the entry has no state): [this.navigate(path, true)],
    not awaited. *)
Definition onPopstate (statePath : option string) (s : St) : St :=
  let path := match statePath with
              | Some p => if String.eqb p EmptyString
                          then location_pathname (window s) else p
              | None => location_pathname (window s)
              end in
  spawn path true s.

End WithPage.

Global Arguments Router : clear implicits.
Global Arguments Window : clear implicits.
Global Arguments St : clear implicits.
Global Arguments Handler : clear implicits.
Global Arguments JsValue : clear implicits.
Global Arguments Started : clear implicits.
Global Arguments Job : clear implicits.
Global Arguments Rest : clear implicits.
Global Arguments Async : clear implicits.

End Router.

(** ** The document, as far as the loader and the error boundary use it *)

Module Dom.

(** Identity of an element object. *)
Definition ElemId := nat.

(** The first argument the callers give for a container:
    a selector string, an element, or [null]. *)
Inductive ContainerArg :=
| Selector (s : string)
| ElementRef (e : ElemId)
| Null.

(** The closures the shell hands to the error boundary, by what they do
    when called:
    - [RetryLoad n c]: [this.loadMFE(n, c).catch(err => console.error(...))];
    - [GoHomeRouter]: [window.router.navigate('/')], or
      [window.location.href = '/'] when there is no [window.router];
    - [GoHomeLocation]: [window.location.href = '/']. *)
Inductive Callback :=
| RetryLoad (mfeName : string) (containerSelector : ContainerArg)
| GoHomeRouter
| GoHomeLocation.

(** A detached tree of nodes.  [onclick] holds the callback that the
    button runs inside its own try/catch. *)
#[warnings="-register-all"]
Inductive Node :=
| Text (s : string)
| RawHtml (markup : string)
| Element (tag className : string) (attrs : list (string * string))
          (onclick : option Callback) (children : list Node).

(** An element the shell holds a reference to. *)
Record DomElement := mkDomElement {
  elem_id : string;                (* the id attribute *)
  parentNode : bool;               (* does it have a parent? *)
  children : list Node
}.

Definition blank : DomElement :=
  {| elem_id := EmptyString; parentNode := false; children := [] |}.

Record Document := mkDocument {
  elements : gmap ElemId DomElement
}.

Definition getElement (e : ElemId) (d : Document) : DomElement :=
  default blank (elements d !! e).

(** [e.innerHTML = markup] (the empty markup removes every child) *)
Definition set_innerHTML (e : ElemId) (cs : list Node) (d : Document) : Document :=
  let el := getElement e d in
  {| elements := <[e := {| elem_id := elem_id el;
                           parentNode := parentNode el;
                           children := cs |}]> (elements d) |}.

(** [e.appendChild(n)] for a detached tree [n] *)
Definition appendChild (e : ElemId) (n : Node) (d : Document) : Document :=
  let el := getElement e d in
  {| elements := <[e := {| elem_id := elem_id el;
                           parentNode := parentNode el;
                           children := children el ++ [n] |}]> (elements d) |}.

(** [c = document.createElement('div'); c.id = id; document.body.appendChild(c)] *)
Definition createInBody (id : string) (d : Document) : ElemId * Document :=
  let e := fresh (dom (elements d)) in
  (e, {| elements := <[e := {| elem_id := id; parentNode := true;
                               children := [] |}]> (elements d) |}).

(** The elements of the document that carry the id [name], which the
    browser also exposes as [window[name]]. *)
Definition elementsWithId (name : string) (d : Document) : list ElemId :=
  (filter (λ p : ElemId * DomElement,
             String.eqb (elem_id p.2) name && parentNode p.2 = true)
          (map_to_list (elements d))).*1.

(** [s.replace('#', '')]: drops the first ['#'] only. *)
Fixpoint dropFirstHash (s : string) : string :=
  match s with
  | EmptyString => EmptyString
  | String a rest =>
      if Ascii.eqb a "#"%char then rest else String a (dropFirstHash rest)
  end.

End Dom.
Import Dom.

(** ** error-boundary.js *)

Module ErrorBoundary.

(** The [options] object of [createErrorDisplay]; [None] is [undefined],
    for which the destructuring defaults apply. *)
Record Options := mkOptions {
  opt_title : option string;
  opt_message : option string;
  opt_error : option JsError;
  opt_context : option string;
  opt_onRetry : option Callback;
  opt_onGoHome : option Callback
}.

Definition el (tag className : string) (cs : list Node) : Node :=
  Element tag className [] None cs.

Definition button (className label : string) (cb : Callback) : Node :=
  Element "button" className [] (Some cb) [Text label].

(** [createErrorDisplay(options)] *)
Definition createErrorDisplay (options : Options) : Node :=
  let title := default "Something Went Wrong" (opt_title options) in
  let message := default "An unexpected error occurred." (opt_message options) in
  let context := default "Application" (opt_context options) in
  let icon := el "div" "error-icon" [RawHtml "⚠️"] in
  let titleElement := el "h2" "error-title" [Text title] in
  let messageElement := el "p" "error-description" [Text message] in
  let detailsElement : option Node :=
    match opt_error options with
    | None => None
    | Some error =>
        let summary := el "summary" EmptyString [Text "Technical Details"] in
        let errorMessage :=
          el "p" "error-message"
             [Text (if String.eqb (err_message error) EmptyString
                    then "Unknown error" else err_message error)] in
        let errorContext := el "p" "error-context" [Text ("Context: " +:+ context)] in
        let detailsContent :=
          el "div" "error-details-content"
             (if String.eqb (err_stack error) EmptyString
              then [errorMessage; errorContext]
              else [errorMessage; errorContext;
                    el "pre" "error-stack" [Text (err_stack error)]]) in
        Some (el "details" "error-details" [summary; detailsContent])
    end in
  let retryButton :=
    match opt_onRetry options with
    | Some cb => [button "error-button error-button-primary" "Try Again" cb]
    | None => []
    end in
  let homeButton :=
    match opt_onGoHome options with
    | Some cb => [button "error-button error-button-secondary" "Go to Home" cb]
    | None => []
    end in
  let actions := retryButton ++ homeButton in
  let actionsContainer := el "div" "error-actions" actions in
  Element "div" "error-boundary" [("role", "alert"); ("aria-live", "assertive")] None
    ([icon; titleElement; messageElement]
       ++ match detailsElement with Some d => [d] | None => [] end
       ++ if bool_decide (0 < length actions) then [actionsContainer] else []).

(** [createMFEFallback(mfeName, error, onRetry, onGoHome)] *)
Definition createMFEFallback (mfeName : string) (error : JsError)
    (onRetry onGoHome : option Callback) : Node :=
  createErrorDisplay
    {| opt_title := Some ("Unable to Load " +:+ mfeName);
       opt_message := Some ("The microfrontend " +:+ quoted mfeName +:+
                        " could not be loaded. This might be because the service is not running or there's a network issue.");
       opt_error := Some error;
       opt_context := Some "MFE Loading";
       opt_onRetry := onRetry;
       opt_onGoHome := onGoHome |}.

(** [createGenericFallback(error, context = 'Application')] *)
Definition createGenericFallback (error : JsError) (context : option string) : Node :=
  createErrorDisplay
    {| opt_title := Some "Unexpected Error";
       opt_message := Some "An unexpected error occurred. The application should still be functional.";
       opt_error := Some error;
       opt_context := Some (default "Application" context);
       opt_onRetry := None;
       opt_onGoHome := Some GoHomeLocation |}.

End ErrorBoundary.

(** ** mfe-loader.js *)

Module MfeLoader.

Section WithRuntime.

(** Everything outside the document that a remote or the network can
    depend on or change. *)
Context {Ext : Type}.

Record World := mkWorld { document : Document; outside : Ext }.

(** The [options] object handed through to the remote. *)
Definition MountOptions : Type := list (string * string).

(** A remote's no-argument teardown; it may throw. *)
Definition Teardown : Type := World -> Completion unit * World.

(** A property read from a foreign object, as the loader tests it:
    falsy ([undefined], [null]), truthy but not a function, or a function. *)
Inductive Member (A : Type) : Type :=
| Missing
| NotCallable
| Callable (f : A).
Global Arguments Missing {A}.
Global Arguments NotCallable {A}.
Global Arguments Callable {A} f.

(** A truthy value a mount function resolved to. *)
Record RemoteObject := mkRemoteObject {
  obj_unmount : Member Teardown;
  obj_destroy : Member Teardown
}.

(** [mountFn(container, options)]; [None] is a falsy result. *)
Definition MountFn : Type :=
  ElemId -> MountOptions -> World -> Completion (option RemoteObject) * World.

(** The module namespace the federation runtime delivers:
    [.mount], [.bootstrap] and [.default?.mount]. *)
Record RemoteModule := mkRemoteModule {
  mod_mount : Member MountFn;
  mod_bootstrap : Member MountFn;
  mod_default_mount : Member MountFn
}.

(** [loadRemoteModule(remoteName, exposedModule)] as returned by
    [initFederation]. *)
Definition LoadRemoteModule : Type :=
  string -> string -> World -> Completion RemoteModule * World.

(** The browser and the vanilla-native-federation library.
    [document.querySelector(s)] raises a SyntaxError when [s] is not a
    selector and otherwise returns the first match, if any. *)
Record Runtime := mkRuntime {
  selector_valid : string -> bool;
  select : string -> Document -> option ElemId;
  stack_trace : string -> string;
  now : World -> nat;
  initFederation : list (string * string) -> World ->
                   Completion LoadRemoteModule * World
}.

Context (rt : Runtime).

(** What [_bootstrapMFE] returns: the remote's own object, or the
    loader's substitute [{ unmount: () => { console.warn(...);
    container.innerHTML = '' } }], a closure over [container]. *)
Inductive Instance :=
| FromRemote (o : RemoteObject)
| DefaultTeardown (container : ElemId).

Record MFEMetadata := mkMFEMetadata {
  md_name : string;
  md_container : ElemId;
  md_instance : Instance;
  md_loadedAt : nat;
  md_options : MountOptions
}.

(** [class MFELoader].  The JavaScript [Map] in [this.loadedMFEs] is kept
    as its entries ([loadedMFEs]) and its keys in the order in which
    they were inserted ([loadedKeys]), which is the order in which the
    [Map] is iterated. *)
Record MFELoader := mkMFELoader {
  loadedMFEs : gmap string MFEMetadata;
  loadedKeys : list string;
  currentMFE : option string;
  federationInitialized : bool;
  loadRemoteModule : option LoadRemoteModule
}.

Definition new_MFELoader : MFELoader :=
  {| loadedMFEs := ∅; loadedKeys := []; currentMFE := None;
     federationInitialized := false; loadRemoteModule := None |}.

Record Sys := mkSys {
  loader : MFELoader;
  console : list LogEntry;
  world : World
}.

(** *** State and exceptions *)

Definition M (A : Type) : Type := Sys -> Completion A * Sys.

Definition ret {A} (a : A) : M A := λ s, (Normal a, s).

Definition bind {A B} (m : M A) (f : A -> M B) : M B := λ s,
  match m s with
  | (Normal a, s') => f a s'
  | (Throw e, s') => (Throw e, s')
  end.

Notation "x <- m ;; k" := (bind m (fun x => k))
  (at level 100, m at next level, k at level 200, right associativity).
Notation "m ;; k" := (bind m (fun _ => k))
  (at level 100, k at level 200, right associativity).

Definition throw {A} (e : JsError) : M A := λ s, (Throw e, s).

(** [try { body } catch (e) { handler }] *)
Definition try_catch {A} (body : M A) (handler : JsError -> M A) : M A := λ s,
  match body s with
  | (Normal a, s') => (Normal a, s')
  | (Throw e, s') => handler e s'
  end.

Definition gets {A} (f : Sys -> A) : M A := λ s, (Normal (f s), s).

(** [console.log], [console.warn], [console.error] *)
Definition say (l : LogEntry) (s : Sys) : Sys :=
  {| loader := loader s; console := console s ++ [l]; world := world s |}.

Definition log (l : LogEntry) : M unit := λ s, (Normal tt, say l s).

Definition set_loader (f : MFELoader -> MFELoader) : M unit := λ s,
  (Normal tt, {| loader := f (loader s); console := console s; world := world s |}).

Definition set_document (f : Document -> Document) : M unit := λ s,
  (Normal tt, {| loader := loader s; console := console s;
                 world := {| document := f (document (world s));
                             outside := outside (world s) |} |}).

(** [await f(...)] for a function of a remote or of the library. *)
Definition call {A} (f : World -> Completion A * World) : M A := λ s,
  let '(c, w) := f (world s) in
  (c, {| loader := loader s; console := console s; world := w |}).

(** [new Error(msg)] *)
Definition new_Error (msg : string) : JsError :=
  mkJsError "Error" msg (stack_trace rt msg).

(** [document.querySelector(s)] *)
Definition querySelector (s : string) : M (option ElemId) :=
  if selector_valid rt s then gets (λ st : Sys, select rt s (document (world st)))
  else throw (mkJsError "SyntaxError"
                ("Failed to execute 'querySelector' on 'Document': '" +:+ s +:+
                 "' is not a valid selector.")
                (stack_trace rt s)).

(** *** Reads *)

(** [this.loadedMFEs.has(name)], [isLoaded(name)] *)
Definition isLoaded (name : string) (s : Sys) : bool :=
  bool_decide (is_Some (loadedMFEs (loader s) !! name)).

(** [getCurrentMFE()] *)
Definition getCurrentMFE (s : Sys) : option string := currentMFE (loader s).

(** [getMFEMetadata(name)] *)
Definition getMFEMetadata (name : string) (s : Sys) : option MFEMetadata :=
  loadedMFEs (loader s) !! name.

(** [getLoadedMFEs()]: [Array.from(this.loadedMFEs.keys())], the keys in
    insertion order *)
Definition getLoadedMFEs (s : Sys) : list string := loadedKeys (loader s).

(** *** Writes to the loader's fields *)

(** [this.loadedMFEs.delete(name)] *)
Definition map_delete (name : string) (l : MFELoader) : MFELoader :=
  {| loadedMFEs := delete name (loadedMFEs l);
     loadedKeys := filter (λ k, k ≠ name) (loadedKeys l);
     currentMFE := currentMFE l;
     federationInitialized := federationInitialized l;
     loadRemoteModule := loadRemoteModule l |}.

(** [this.loadedMFEs.set(name, md)]: a key that is there keeps its
    place, a new key goes to the end. *)
Definition map_set (name : string) (md : MFEMetadata) (l : MFELoader) : MFELoader :=
  {| loadedMFEs := <[name := md]> (loadedMFEs l);
     loadedKeys := if bool_decide (is_Some (loadedMFEs l !! name))
                   then loadedKeys l else loadedKeys l ++ [name];
     currentMFE := currentMFE l;
     federationInitialized := federationInitialized l;
     loadRemoteModule := loadRemoteModule l |}.

Definition set_currentMFE (c : option string) (l : MFELoader) : MFELoader :=
  {| loadedMFEs := loadedMFEs l;
     loadedKeys := loadedKeys l;
     currentMFE := c;
     federationInitialized := federationInitialized l;
     loadRemoteModule := loadRemoteModule l |}.

Definition set_federation (f : LoadRemoteModule) (l : MFELoader) : MFELoader :=
  {| loadedMFEs := loadedMFEs l;
     loadedKeys := loadedKeys l;
     currentMFE := currentMFE l;
     federationInitialized := true;
     loadRemoteModule := Some f |}.

(** *** unloadMFE *)

(** [instance && typeof instance.unmount === 'function'] *)
Definition hasUnmount (i : Instance) : bool :=
  match i with
  | DefaultTeardown _ => true
  | FromRemote o => match obj_unmount o with Callable _ => true | _ => false end
  end.

(** [if (container && container.parentNode) container.innerHTML = ''] *)
Definition clearIfAttached (container : ElemId) (d : Document) : Document :=
  if parentNode (getElement container d) then set_innerHTML container [] d else d.

Definition undefinedRead (what : string) : JsError :=
  mkJsError "TypeError"
    ("Cannot read properties of undefined (reading '" +:+ what +:+ "')")
    (stack_trace rt what).

(** [await mfeMetadata.instance.unmount()], else [.destroy()], else nothing *)
Definition teardown (i : Instance) : M unit :=
  match i with
  | DefaultTeardown container =>
      log (ConsoleWarn "No unmount method available, clearing container manually");;
      set_document (set_innerHTML container [])
  | FromRemote o =>
      match obj_unmount o with
      | Callable unmount => call unmount
      | _ =>
          match obj_destroy o with
          | Callable destroy => call destroy
          | _ => ret tt
          end
      end
  end.

(** [async unloadMFE(name)] *)
Definition unloadMFE (name : string) : M bool :=
  loaded <- gets (isLoaded name);;
  if negb loaded then
    log (ConsoleWarn ("MFE " +:+ quoted name +:+ " is not loaded"));;
    ret false
  else
    try_catch
      (log (ConsoleLog ("Unloading MFE: " +:+ name));;
       mfeMetadata <- gets (getMFEMetadata name);;
       match mfeMetadata with
       | None => throw (undefinedRead "instance")
       | Some mfeMetadata =>
           teardown (md_instance mfeMetadata);;
           set_document (clearIfAttached (md_container mfeMetadata));;
           set_loader (map_delete name);;
           current <- gets getCurrentMFE;;
           (if bool_decide (current = Some name)
            then set_loader (set_currentMFE None)
            else ret tt);;
           log (ConsoleLog ("MFE " +:+ quoted name +:+ " unloaded successfully"));;
           ret true
       end)
      (λ error,
         log (ConsoleError ("Error unloading MFE " +:+ quoted name +:+ ":") error);;
         set_loader (map_delete name);;
         ret false).

(** *** Importing and mounting the remote *)

Definition manifest : list (string * string) :=
  [("mfe1", "http://localhost:4201/remoteEntry.json")].

(** [async _initFederation()] *)
Definition _initFederation : M (option LoadRemoteModule) :=
  initialized <- gets (λ s : Sys, federationInitialized (loader s));;
  if initialized then gets (λ s : Sys, loadRemoteModule (loader s))
  else
    try_catch
      (log (ConsoleLog "Initializing vanilla-native-federation...");;
       loadRemoteModule <- call (initFederation rt manifest);;
       set_loader (set_federation loadRemoteModule);;
       log (ConsoleLog "vanilla-native-federation initialized successfully");;
       ret (Some loadRemoteModule))
      (λ error,
         log (ConsoleError "Failed to initialize vanilla-native-federation:" error);;
         throw error).

(** [async _importRemoteModule(name)] *)
Definition _importRemoteModule (name : string) : M RemoteModule :=
  try_catch
    (log (ConsoleLog ("Loading remote module " +:+ quoted name +:+
                      " via vanilla-native-federation..."));;
     loadRemoteModule <- _initFederation;;
     log (ConsoleLog ("Loading module: " +:+ name +:+ "/./bootstrap"));;
     module <- match loadRemoteModule with
               | Some loadRemoteModule => call (loadRemoteModule name "./bootstrap")
               | None => throw (mkJsError "TypeError"
                                  "loadRemoteModule is not a function"
                                  (stack_trace rt "loadRemoteModule"))
               end;;
     log (ConsoleLog ("Successfully loaded module from " +:+ name));;
     ret module)
    (λ error,
       log (ConsoleError ("Failed to load remote module " +:+ quoted name +:+ ":")
                         error);;
       throw (new_Error ("Failed to import remote module " +:+ quoted name +:+
                         ": " +:+ err_message error))).

(** [a || b]: the left operand unless it is falsy *)
Definition or_else {A} (a b : Member A) : Member A :=
  match a with Missing => b | _ => a end.

(** [!result || typeof result.unmount !== 'function'] *)
Definition lacksUnmount (result : option RemoteObject) : bool :=
  match result with
  | None => true
  | Some o => match obj_unmount o with Callable _ => false | _ => true end
  end.

(** [async _bootstrapMFE(remoteModule, container, options)] *)
Definition _bootstrapMFE (remoteModule : RemoteModule) (container : ElemId)
    (options : MountOptions) : M Instance :=
  match or_else (mod_mount remoteModule)
          (or_else (mod_bootstrap remoteModule) (mod_default_mount remoteModule)) with
  | Callable mountFn =>
      log (ConsoleLog "Calling MFE mount function...");;
      result <- call (mountFn container options);;
      log (ConsoleLog "MFE mounted successfully");;
      match result with
      | Some o =>
          if lacksUnmount result then
            log (ConsoleWarn "MFE mount function did not return a valid unmount method");;
            ret (DefaultTeardown container)
          else ret (FromRemote o)
      | None =>
          log (ConsoleWarn "MFE mount function did not return a valid unmount method");;
          ret (DefaultTeardown container)
      end
  | _ => throw (new_Error "Remote module does not export a mount or bootstrap function")
  end.

(** [_getOrCreateContainer(containerSelector)]; [None] is [null] *)
Definition _getOrCreateContainer (containerSelector : ContainerArg)
  : M (option ElemId) :=
  match containerSelector with
  | ElementRef e => ret (Some e)
  | Selector sel =>
      container <- querySelector sel;;
      match container with
      | Some c => ret (Some c)
      | None =>
          c <- (λ s : Sys,
                  let '(c, d) := createInBody (dropFirstHash sel)
                                   (document (world s)) in
                  (Normal c, {| loader := loader s; console := console s;
                                world := {| document := d;
                                            outside := outside (world s) |} |}));;
          ret (Some c)
      end
  | Null => ret None
  end.

(** The markup the loader writes when the error boundary itself fails. *)
Definition minimalMessage (mfeName : string) : Node :=
  RawHtml ("<div class=" +:+ quoted "mfe-error" +:+ ">" +:+
           "<h2>Failed to Load Module</h2>" +:+
           "<p>Unable to load the microfrontend: <strong>" +:+ mfeName +:+
           "</strong></p>" +:+
           "<p>Please refresh the page or contact support.</p></div>").

(** Reading an identifier that nothing declares is a ReferenceError. *)
Definition containerNotDefined : JsError :=
  mkJsError "ReferenceError" "container is not defined"
    (stack_trace rt "container").

(** What the identifier [container] stands for where no declaration of
    it is in scope (the shell defines no global of that name): the
    browser looks it up on [window], where the elements of the document
    are found under their ids (one element, or a collection of several),
    and reading it is a ReferenceError when there is none. *)
Inductive GlobalValue :=
| NamedElement (e : ElemId)
| NamedCollection.

Definition readGlobalContainer : M GlobalValue := λ s,
  match elementsWithId "container" (document (world s)) with
  | [] => (Throw containerNotDefined, s)
  | [e] => (Normal (NamedElement e), s)
  | _ => (Normal NamedCollection, s)
  end.

(** [_displayError(containerSelector, mfeName, error)].  [const container]
    is declared inside the [try] block, so the [if (container)] of the
    [catch] block reads an identifier that is not in scope there.
    Setting [innerHTML] on a collection changes no element. *)
Definition _displayError (containerSelector : ContainerArg) (mfeName : string)
    (error : JsError) : M unit :=
  try_catch
    (container <- match containerSelector with
                  | Selector sel => querySelector sel
                  | ElementRef e => ret (Some e)
                  | Null => ret None
                  end;;
     match container with
     | Some container =>
         set_document (set_innerHTML container []);;
         let errorFallback :=
           ErrorBoundary.createMFEFallback mfeName error
             (Some (RetryLoad mfeName containerSelector)) (Some GoHomeRouter) in
         set_document (appendChild container errorFallback)
     | None => ret tt
     end)
    (λ displayError,
       log (ConsoleError "Failed to display error message:" displayError);;
       container <- readGlobalContainer;;
       match container with
       | NamedElement container =>
           set_document (set_innerHTML container [minimalMessage mfeName])
       | NamedCollection => ret tt
       end).

(** *** loadMFE *)

(** [`${containerSelector}`] *)
Definition showContainerArg (c : ContainerArg) : string :=
  match c with
  | Selector s => s
  | ElementRef _ => "[object HTMLElement]"
  | Null => "null"
  end.

(** What [loadMFE] resolves to: [unmount] is [() => this.unloadMFE(name)]. *)
Record LoadResult := mkLoadResult {
  res_unmount : string;
  res_metadata : MFEMetadata
}.

Definition store (name : string) (md : MFEMetadata) (l : MFELoader) : MFELoader :=
  set_currentMFE (Some name) (map_set name md l).

(** [if (this.loadedMFEs.has(name)) { console.warn(...);
    await this.unloadMFE(name); }] *)
Definition unloadIfLoaded (name : string) : M unit :=
  loaded <- gets (isLoaded name);;
  if loaded
  then log (ConsoleWarn ("MFE " +:+ quoted name +:+
                         " is already loaded. Unloading first."));;
       _ <- unloadMFE name;; ret tt
  else ret tt.

(** The [catch (error)] block of [loadMFE] *)
Definition loadFailed (name : string) (containerSelector : ContainerArg)
    (error : JsError) : M LoadResult :=
  log (ConsoleError ("Failed to load MFE " +:+ quoted name +:+ ":") error);;
  _displayError containerSelector name error;;
  throw (new_Error ("MFE load failed: " +:+ name +:+ " - " +:+
                    err_message error)).

(** [async loadMFE(name, containerSelector, options = {})] *)
Definition loadMFE (name : string) (containerSelector : ContainerArg)
    (options : MountOptions) : M LoadResult :=
  try_catch
    (log (ConsoleLog ("Loading MFE: " +:+ name));;
     container <- _getOrCreateContainer containerSelector;;
     match container with
     | None => throw (new_Error ("Container not found: " +:+
                                 showContainerArg containerSelector))
     | Some container =>
         unloadIfLoaded name;;
         remoteModule <- _importRemoteModule name;;
         mfeInstance <- _bootstrapMFE remoteModule container options;;
         loadedAt <- gets (λ s : Sys, now rt (world s));;
         let mfeMetadata :=
           {| md_name := name; md_container := container;
              md_instance := mfeInstance; md_loadedAt := loadedAt;
              md_options := options |} in
         set_loader (store name mfeMetadata);;
         log (ConsoleLog ("MFE " +:+ quoted name +:+ " loaded successfully"));;
         ret {| res_unmount := name; res_metadata := mfeMetadata |}
     end)
    (loadFailed name containerSelector).

End WithRuntime.

Global Arguments World : clear implicits.
Global Arguments Runtime : clear implicits.
Global Arguments Sys : clear implicits.
Global Arguments MFELoader : clear implicits.
Global Arguments M : clear implicits.

End MfeLoader.

(** ** Concrete handlers, remotes and a small browser to run the code on *)

Module Demo.

(** *** Router *)

(** The page is the list of views rendered so far. *)
Definition Page : Type := list string.

(** [() => { view is rendered }], a plain function *)
Definition renders (view : string) : Router.Handler Page :=
  λ _ p, Router.Returned (p ++ [view]) (λ p, (Normal tt, p)).

(** [async () => { await something; view is rendered }] *)
Definition rendersLater (view : string) : Router.Handler Page :=
  λ _ p, Router.Returned p (λ p, (Normal tt, p ++ [view])).

Definition boom : JsError := mkJsError "Error" "boom" EmptyString.

(** [() => { throw new Error('boom') }], a plain function *)
Definition fails : Router.Handler Page := λ _ p, Router.Threw boom p.

(** [async () => { throw new Error('boom') }] *)
Definition failsLater : Router.Handler Page :=
  λ _ p, Router.Returned p (λ p, (Throw boom, p)).

(** A small browser.  A URL that starts with two slashes or has a colon
    names another origin here; one that starts with a slash is its own
    pathname; anything else is resolved against the directory of the
    current pathname.  Query, fragment and dot segments are not looked
    at. *)
Fixpoint hasChar (c : ascii) (s : string) : bool :=
  match s with
  | EmptyString => false
  | String a rest => Ascii.eqb a c || hasChar c rest
  end.

Fixpoint directory (s : string) : string :=
  match s with
  | EmptyString => EmptyString
  | String a rest =>
      if hasChar "/" rest then String a (directory rest)
      else if Ascii.eqb a "/" then "/" else EmptyString
  end.

Definition resolveSimple (base url : string) : option string :=
  match url with
  | EmptyString => Some base
  | String a rest =>
      if Ascii.eqb a "/" then
        match rest with
        | String b _ => if Ascii.eqb b "/" then None else Some url
        | EmptyString => Some url
        end
      else if hasChar ":" url then None
      else Some (directory base +:+ url)
  end.

Definition browser : Router.Browser :=
  {| Router.resolve := resolveSimple;
     Router.pushStateError := λ url,
       mkJsError "SecurityError"
         ("Failed to execute 'pushState' on 'History': " +:+ url) EmptyString;
     Router.resolve_root := λ _, eq_refl |}.

Definition startAt (path : string) (rs : list (string * Router.Handler Page))
  : Router.St Page :=
  {| Router.router := {| Router.routes := list_to_map rs;
                         Router.currentRoute := None;
                         Router.isInitialized := false |};
     Router.window := {| Router.history := [];
                         Router.location_pathname := path;
                         Router.popstate_listeners := 0;
                         Router.console := [];
                         Router.unhandled := [];
                         Router.suspended := [];
                         Router.page := [] |} |}.

(** The routes registered by [main.js], with a home alias that fails. *)
Definition homeAliasFails : Router.St Page :=
  startAt "/" [("/", renders "home"); ("/home", fails); ("/mfe1", renders "mfe1")].

Definition brokenRoute : Router.St Page :=
  startAt "/" [("/", renders "home"); ("/x", fails)].

Definition brokenHome : Router.St Page :=
  startAt "/" [("/", fails); ("/mfe1", renders "mfe1")].

Definition templateRoute : Router.St Page :=
  startAt "/" [("/", renders "home"); ("/users/:id", renders "user")].

(** *** Loader *)

(** The first of some elements in document order: elements are numbered
    as they are created, and these pages append them in that order. *)
Definition firstOf (l : list ElemId) : option ElemId :=
  match l with
  | [] => None
  | e :: rest => Some (foldr Nat.min e rest)
  end.

(** A browser that understands id selectors only: ["#x"] with a
    non-empty [x] is valid and selects the first attached element whose
    id is [x]; every other string is rejected as the browser rejects
    [''] or ['#']. *)
Definition idSelectorValid (s : string) : bool :=
  match s with
  | String c (String _ _) => Ascii.eqb c "#"%char
  | _ => false
  end.

Definition idSelect (s : string) (d : Document) : option ElemId :=
  match s with
  | String _ id => firstOf (elementsWithId id d)
  | EmptyString => None
  end.

(** A federation runtime whose [loadRemoteModule] settles with [fetched]. *)
Definition runtime (fetched : Completion (@MfeLoader.RemoteModule unit))
  : MfeLoader.Runtime unit :=
  {| MfeLoader.selector_valid := idSelectorValid;
     MfeLoader.select := idSelect;
     MfeLoader.stack_trace := λ _, EmptyString;
     MfeLoader.now := λ _, 0;
     MfeLoader.initFederation := λ _ w, (Normal (λ _ _ w', (fetched, w')), w) |}.

(** A remote module exporting only [mount]. *)
Definition exporting (mount : @MfeLoader.MountFn unit) : @MfeLoader.RemoteModule unit :=
  {| MfeLoader.mod_mount := MfeLoader.Callable mount;
     MfeLoader.mod_bootstrap := MfeLoader.Missing;
     MfeLoader.mod_default_mount := MfeLoader.Missing |}.

(** [mount] appends a view and resolves to [result]. *)
Definition mounting (result : option (@MfeLoader.RemoteObject unit))
  : @MfeLoader.MountFn unit :=
  λ container _ w,
    (Normal result,
     {| MfeLoader.document := appendChild container (Text "dashboard")
                                (MfeLoader.document w);
        MfeLoader.outside := MfeLoader.outside w |}).

(** [{ unmount() {} }] *)
Definition quietObject : @MfeLoader.RemoteObject unit :=
  {| MfeLoader.obj_unmount := MfeLoader.Callable (λ w, (Normal tt, w));
     MfeLoader.obj_destroy := MfeLoader.Missing |}.

(** [{ unmount() { throw new Error('boom') } }] *)
Definition throwingObject : @MfeLoader.RemoteObject unit :=
  {| MfeLoader.obj_unmount := MfeLoader.Callable (λ w, (Throw boom, w));
     MfeLoader.obj_destroy := MfeLoader.Missing |}.

(** [{}] *)
Definition emptyObject : @MfeLoader.RemoteObject unit :=
  {| MfeLoader.obj_unmount := MfeLoader.Missing;
     MfeLoader.obj_destroy := MfeLoader.Missing |}.

Definition online (result : option (@MfeLoader.RemoteObject unit))
  : MfeLoader.Runtime unit :=
  runtime (Normal (exporting (mounting result))).

Definition offline : MfeLoader.Runtime unit :=
  runtime (Throw (mkJsError "TypeError" "Failed to fetch" EmptyString)).

(** A page with one attached, empty [<div id="mfe-container">], element 0. *)
Definition freshPage : MfeLoader.Sys unit :=
  {| MfeLoader.loader := MfeLoader.new_MFELoader;
     MfeLoader.console := [];
     MfeLoader.world :=
       {| MfeLoader.document :=
            {| elements := {[ 0 := {| elem_id := "mfe-container";
                                      parentNode := true;
                                      children := [] |} ]} |};
          MfeLoader.outside := tt |} |}.

(** What a call resolved to (a placeholder if it was rejected). *)
Definition noResult : @MfeLoader.LoadResult unit :=
  {| MfeLoader.res_unmount := EmptyString;
     MfeLoader.res_metadata :=
       {| MfeLoader.md_name := EmptyString; MfeLoader.md_container := 0;
          MfeLoader.md_instance := MfeLoader.DefaultTeardown 0;
          MfeLoader.md_loadedAt := 0; MfeLoader.md_options := [] |} |}.

Definition resolved (x : Completion (@MfeLoader.LoadResult unit) * MfeLoader.Sys unit)
  : @MfeLoader.LoadResult unit :=
  match x.1 with Normal r => r | Throw _ => noResult end.

(** The error a call was rejected with (a placeholder if it resolved). *)
Definition rejected {A} (x : Completion A * MfeLoader.Sys unit) : JsError :=
  match x.1 with Normal _ => mkJsError EmptyString EmptyString EmptyString
               | Throw e => e end.

(** [await mfeLoader.loadMFE('mfe1', div)], twice, the remote returning
    [{ unmount() {} }] *)
Definition firstLoad :=
  MfeLoader.loadMFE (online (Some quietObject)) "mfe1" (ElementRef 0) [] freshPage.

Definition secondLoad :=
  MfeLoader.loadMFE (online (Some quietObject)) "mfe1" (ElementRef 0) [] firstLoad.2.


(** [await mfeLoader.loadMFE('a', div)] with a remote whose mount
    resolves to [{ unmount() { throw ... } }], then to [{}] *)
Definition loadThrowing :=
  MfeLoader.loadMFE (online (Some throwingObject)) "a" (ElementRef 0) [] freshPage.

Definition loadEmpty :=
  MfeLoader.loadMFE (online (Some emptyObject)) "a" (ElementRef 0) [] freshPage.



(** *** A remote that leaves a trace *)

(** The world outside the document as the list of calls made so far. *)
Definition traced (event : string) (w : MfeLoader.World (list string))
  : MfeLoader.World (list string) :=
  {| MfeLoader.document := MfeLoader.document w;
     MfeLoader.outside := MfeLoader.outside w ++ [event] |}.

(** [{ unmount() { ... } }] of the traced remote *)
Definition tracedObject : @MfeLoader.RemoteObject (list string) :=
  {| MfeLoader.obj_unmount := MfeLoader.Callable (λ w, (Normal tt, traced "unmount" w));
     MfeLoader.obj_destroy := MfeLoader.Missing |}.

Definition tracedModule : @MfeLoader.RemoteModule (list string) :=
  {| MfeLoader.mod_mount :=
       MfeLoader.Callable
         (λ container _ w,
            (Normal (Some tracedObject),
             traced "mount"
               {| MfeLoader.document := appendChild container (Text "dashboard")
                                          (MfeLoader.document w);
                  MfeLoader.outside := MfeLoader.outside w |}));
     MfeLoader.mod_bootstrap := MfeLoader.Missing;
     MfeLoader.mod_default_mount := MfeLoader.Missing |}.

Definition tracing : MfeLoader.Runtime (list string) :=
  {| MfeLoader.selector_valid := idSelectorValid;
     MfeLoader.select := idSelect;
     MfeLoader.stack_trace := λ _, EmptyString;
     MfeLoader.now := λ w, length (MfeLoader.outside w);
     MfeLoader.initFederation :=
       λ _ w, (Normal (λ name _ w', (Normal tracedModule,
                                     traced ("import " +:+ name) w')),
               traced "initFederation" w) |}.

Definition tracedPage : MfeLoader.Sys (list string) :=
  {| MfeLoader.loader := MfeLoader.new_MFELoader;
     MfeLoader.console := [];
     MfeLoader.world :=
       {| MfeLoader.document :=
            {| elements := {[ 0 := {| elem_id := "mfe-container";
                                      parentNode := true;
                                      children := [] |} ]} |};
          MfeLoader.outside := [] |} |}.

(** What a call on the traced page resolved to (a placeholder if it
    was rejected). *)
Definition tracedResult
    (x : Completion (@MfeLoader.LoadResult (list string)) * MfeLoader.Sys (list string))
  : @MfeLoader.LoadResult (list string) :=
  match x.1 with
  | Normal r => r
  | Throw _ =>
      {| MfeLoader.res_unmount := EmptyString;
         MfeLoader.res_metadata :=
           {| MfeLoader.md_name := EmptyString; MfeLoader.md_container := 0;
              MfeLoader.md_instance := MfeLoader.DefaultTeardown 0;
              MfeLoader.md_loadedAt := 0; MfeLoader.md_options := [] |} |}
  end.

(** [await mfeLoader.loadMFE('mfe1', div)], then
    [await mfeLoader.loadMFE('mfe1', div, { theme: 'dark' })] *)
Definition firstTraced :=
  MfeLoader.loadMFE tracing "mfe1" (ElementRef 0) [] tracedPage.

Definition secondTraced :=
  MfeLoader.loadMFE tracing "mfe1" (ElementRef 0) [("theme", "dark")] firstTraced.2.

(** *** A browser that also understands type selectors *)








End Demo.

(** ** error-boundary.js: the wrapper, and what a view offers *)

Module Boundary.
Import MfeLoader.

Local Notation "x <- m ;; k" := (bind m (fun x => k))
  (at level 100, m at next level, k at level 200, right associativity).
Local Notation "m ;; k" := (bind m (fun _ => k))
  (at level 100, k at level 200, right associativity).

(** The callbacks wired to the buttons of a view, in document order. *)
Fixpoint callbacks (n : Node) : list Callback :=
  match n with
  | Element _ _ _ onclick children =>
      match onclick with Some cb => [cb] | None => [] end
        ++ concat (List.map callbacks children)
  | _ => []
  end.

(** Is there an element with this [className] in the tree? *)
Fixpoint hasClassName (cls : string) (n : Node) : bool :=
  match n with
  | Element _ className _ _ children =>
      String.eqb className cls || existsb (hasClassName cls) children
  | _ => false
  end.

Section WithRuntime.

Context {Ext : Type} (rt : Runtime Ext).

(** [withErrorBoundary(fn, { context, onError, fallbackContainer })],
    applied to its arguments: [fn] stands for [fn.apply(this, args)]. *)
Definition withErrorBoundary {A} (fn : M Ext A) (context : option string)
    (onError : option (JsError -> M Ext unit)) (fallbackContainer : option ElemId)
  : M Ext A :=
  let context := default "Function" context in
  try_catch fn
    (λ error,
       log (ConsoleError ("Error in " +:+ context +:+ ":") error);;
       match onError with
       | Some onError =>
           try_catch (onError error)
             (λ handlerError,
                log (ConsoleError "Error in error handler:" handlerError))
       | None => ret tt
       end;;
       match fallbackContainer with
       | Some fallbackContainer =>
           let fallback := ErrorBoundary.createGenericFallback error (Some context) in
           set_document (set_innerHTML fallbackContainer []);;
           set_document (appendChild fallbackContainer fallback)
       | None => ret tt
       end;;
       throw error).

(** The retry closure that [_displayError] hands to the error boundary:
    [this.loadMFE(mfeName, containerSelector).catch(err => console.error(...))] *)
Definition retry (mfeName : string) (containerSelector : ContainerArg) : M Ext unit :=
  try_catch
    (_ <- loadMFE rt mfeName containerSelector [];; ret tt)
    (λ err, log (ConsoleError "Retry failed:" err)).

(** *** An earlier revision of the loader: the manifest file *)

(** What [fetch] resolves to: [response.ok], [response.statusText] and
    [response.json()]. *)
Record Response := mkResponse {
  ok : bool;
  statusText : string;
  json : World Ext -> Completion (list (string * string)) * World Ext
}.

(** [fetch(url)], given by the browser and the network. *)
Context (fetch : string -> World Ext -> Completion Response * World Ext).

(** [async _loadManifest()] *)
Definition _loadManifest : M Ext (list (string * string)) :=
  try_catch
    (response <- call (fetch "/federation.manifest.json");;
     if negb (ok response)
     then throw (new_Error rt ("Failed to fetch manifest: " +:+ statusText response))
     else call (json response))
    (λ error,
       log (ConsoleError "Error loading manifest:" error);;
       log (ConsoleWarn "Using default federation manifest");;
       ret manifest).

End WithRuntime.

End Boundary.

(** ** navigation.js *)

Module Navigation.

(** An [<a class="nav-link">] of the document: [href], its text,
    [dataset.path], and whether its class list holds ['active']. *)
Record NavLink := mkNavLink {
  href : string;
  label : string;
  data_path : string;
  active : bool
}.

(** [const navLinks] *)
Definition navLinks : list (string * string) :=
  [("/", "Home"); ("/mfe1", "MFE1 Dashboard")].

(** The links [createNavigation] builds, one per entry. *)
Definition buildLinks (config : list (string * string)) : list NavLink :=
  List.map (λ '(path, label),
              {| href := path; label := label; data_path := path; active := false |})
           config.

(** [link.classList.remove('active')] and [link.classList.add('active')] *)
Definition setActive (b : bool) (l : NavLink) : NavLink :=
  {| href := href l; label := label l; data_path := data_path l; active := b |}.

(** Characters that keep their meaning inside the double-quoted string of
    an attribute selector: anything but the quote, the backslash, the
    line breaks and NUL. *)
Definition plainChar (a : ascii) : bool :=
  negb (bool_decide (nat_of_ascii a ∈ [34; 92; 10; 12; 13; 0])).

Fixpoint plain (s : string) : bool :=
  match s with
  | EmptyString => true
  | String a rest => plainChar a && plain rest
  end.

(** Position of the first link whose [data-path] is [path]. *)
Fixpoint findPath (path : string) (links : list NavLink) : option nat :=
  match links with
  | [] => None
  | l :: rest =>
      if String.eqb (data_path l) path then Some 0
      else S <$> findPath path rest
  end.

Section WithBrowser.

(** What [document.querySelector] does with [.nav-link[data-path="p"]]
    when [p] is not plain (it may throw a SyntaxError or match some link). *)
Context (oddSelector : string -> list NavLink -> Completion (option nat)).

(** [document.querySelector(`.nav-link[data-path="${path}"]`)] over the
    links of the document, in document order *)
Definition queryDataPath (path : string) (links : list NavLink)
  : Completion (option nat) :=
  if plain path then Normal (findPath path links) else oddSelector path links.

(** [updateActiveLink(path)] *)
Definition updateActiveLink (path : string) (links : list NavLink)
  : Completion unit * list NavLink :=
  let links := List.map (setActive false) links in
  match queryDataPath path links with
  | Throw e => (Throw e, links)
  | Normal (Some i) => (Normal tt, alter (setActive true) i links)
  | Normal None =>
      if String.eqb path "/" || String.eqb path "/home" then
        match queryDataPath "/" links with
        | Throw e => (Throw e, links)
        | Normal (Some i) => (Normal tt, alter (setActive true) i links)
        | Normal None => (Normal tt, links)
        end
      else (Normal tt, links)
  end.

End WithBrowser.

End Navigation.

(** ** More remotes and pages to run the code on *)

Module Samples.
Import Demo.

(** Two routes, both fine. *)
Definition twoRoutes : Router.St Page :=
  startAt "/mfe1" [("/", renders "home"); ("/mfe1", renders "mfe1")].

(** A home view that renders after waiting and a route that is
    rejected after waiting. *)
Definition slowRoutes : Router.St Page :=
  startAt "/mfe1" [("/", rendersLater "home"); ("/mfe1", failsLater)].

(** The navigation bar of the shell, mounted. *)
Definition mountedLinks : list Navigation.NavLink :=
  Navigation.buildLinks Navigation.navLinks.

(** A browser that rejects every selector that is not plain. *)
Definition strictSelector (path : string) (links : list Navigation.NavLink)
  : Completion (option nat) :=
  Throw (mkJsError "SyntaxError" "not a valid selector" EmptyString).

(** A module whose [mount] is a string and whose [bootstrap] is a function. *)
Definition shadowed : @MfeLoader.RemoteModule unit :=
  {| MfeLoader.mod_mount := MfeLoader.NotCallable;
     MfeLoader.mod_bootstrap := MfeLoader.Callable (mounting (Some quietObject));
     MfeLoader.mod_default_mount := MfeLoader.Missing |}.

(** A federation library that cannot initialize. *)
Definition unreachable : MfeLoader.Runtime unit :=
  {| MfeLoader.selector_valid := idSelectorValid;
     MfeLoader.select := idSelect;
     MfeLoader.stack_trace := λ _, EmptyString;
     MfeLoader.now := λ _, 0;
     MfeLoader.initFederation :=
       λ _ w, (Throw (mkJsError "TypeError" "Failed to fetch" EmptyString), w) |}.

(** A manifest request answered with 404, and one answered with a file. *)
Definition notFound (url : string) (w : MfeLoader.World unit)
  : Completion (@Boundary.Response unit) * MfeLoader.World unit :=
  (Normal {| Boundary.ok := false; Boundary.statusText := "Not Found";
             Boundary.json := λ w, (Normal [], w) |}, w).

Definition served (url : string) (w : MfeLoader.World unit)
  : Completion (@Boundary.Response unit) * MfeLoader.World unit :=
  (Normal {| Boundary.ok := true; Boundary.statusText := "OK";
             Boundary.json := λ w, (Normal [("mfe2", "http://localhost:4202/remoteEntry.json")], w) |}, w).

(** A page function that fails. *)
Definition failing : MfeLoader.M unit unit := λ s, (Throw boom, s).

(** An [async] function whose body does not wait for anything: all its
    effects are there when the call returns, the promise it returned
    settles with its outcome. *)
Definition asyncBody {P : Type} (body : P -> Completion unit * P) : Router.Handler P :=
  λ _ p, let '(c, p') := body p in Router.Returned p' (λ p'', (c, p'')).

(** The shell as [main.js] sets it up, with a home view that does nothing
    and an MFE view that fails inside its error boundary. *)
Definition guarded : Router.Handler (MfeLoader.Sys unit) :=
  asyncBody (Boundary.withErrorBoundary failing (Some "MFE1 Loading") None (Some 0)).

Definition shell : Router.St (MfeLoader.Sys unit) :=
  {| Router.router :=
       {| Router.routes := {[ "/" := asyncBody (λ s, (Normal tt, s));
                              "/mfe1" := guarded ]};
          Router.currentRoute := None;
          Router.isInitialized := false |};
     Router.window :=
       {| Router.history := [];
          Router.location_pathname := "/";
          Router.popstate_listeners := 0;
          Router.console := [];
          Router.unhandled := [];
          Router.suspended := [];
          Router.page := freshPage |} |}.

End Samples.

(** * Properties of the router *)

Module RouterSpec.
Import Router.

Section WithPage.
Context {Page : Type} (browser : Browser).
Implicit Types (s : St Page) (path : string) (skip : bool) (j : Job Page).

Local Abbreviation pushState := (Router.pushState browser).
Local Abbreviation navigate_start := (Router.navigate_start browser).
Local Abbreviation navigate_resume := (Router.navigate_resume browser).
Local Abbreviation navigate_fuel := (Router.navigate_fuel browser).
Local Abbreviation navigate := (Router.navigate browser).
Local Abbreviation spawn := (Router.spawn browser).
Local Abbreviation settle_fuel := (Router.settle_fuel browser).
Local Abbreviation settle := (Router.settle browser).
Local Abbreviation init := (Router.init browser).
Local Abbreviation onPopstate := (Router.onPopstate browser).

(** The state in which the handler of [path] is called, [pathname] being
    what the location becomes when the path is pushed. *)
Local Abbreviation entering path pathname skip s :=
  (set_currentRoute path (if skip then s else pushed path pathname s)).

(** [pushState] accepts [path]: the browser resolves it to [pathname]
    on the page's origin. *)
Local Abbreviation accepted path pathname s :=
  (resolve browser (location_pathname (window s)) path = Some pathname).

(** [this.navigate('/')] without [await], with [n] levels of fuel. *)
Local Abbreviation recovery n :=
  (λ s, match navigate_start n "/" false s with
        | None => None
        | Some (a, s) => Some (detach a s)
        end).

Lemma has_true path s :
  has path s = true <-> is_Some (routes (router s) !! path).
Proof. unfold has. apply bool_decide_eq_true. Qed.

Lemma has_false path s :
  has path s = false <-> routes (router s) !! path = None.
Proof.
  unfold has. rewrite bool_decide_eq_false. symmetry. apply eq_None_not_Some.
Qed.

Lemma pushState_root s : pushState "/" s = (Normal tt, pushed "/" "/" s).
Proof. unfold Router.pushState. rewrite resolve_root. reflexivity. Qed.

Lemma pushState_accepted path pathname s :
  accepted path pathname s -> pushState path s = (Normal tt, pushed path pathname s).
Proof. unfold Router.pushState. intros ->. reflexivity. Qed.

(** On ['/'] and ['/home'] the inner [catch] block throws the error
    again, whatever the recovery would do. *)
Lemma handlerFailed_home (recover : St Page -> option (St Page)) path e s :
  path = "/" \/ path = "/home" ->
  handlerFailed recover path e s =
    Some (Throw e, log (ConsoleError ("Error executing handler for route " +:+
                                      quoted path +:+ ":") e) s).
Proof.
  unfold handlerFailed. intros [-> | ->]; reflexivity.
Qed.

Lemma handlerFailed_other (recover : St Page -> option (St Page)) path e s :
  path <> "/" -> path <> "/home" ->
  handlerFailed recover path e s =
    match recover (log (ConsoleLog "Attempting to recover by navigating to home")
                     (log (ConsoleError ("Error executing handler for route " +:+
                                         quoted path +:+ ":") e) s)) with
    | None => None
    | Some s' => Some (Normal tt, s')
    end.
Proof.
  unfold handlerFailed. intros H1 H2.
  apply String.eqb_neq in H1, H2. rewrite H1, H2. reflexivity.
Qed.

(** [navigate] up to its [await], one level unfolded, for a path that
    is in the table. *)
Lemma navigate_start_registered n path skip s h :
  routes (router s) !! path = Some h ->
  navigate_start (S n) path skip s =
    match (if skip then (Normal tt, s) else pushState path s) with
    | (Throw error, s1) =>
        Some (Settled (Normal tt),
              log (ConsoleError "Critical navigation error:" error) s1)
    | (Normal _, s1) =>
        let s2 := set_currentRoute path s1 in
        match h path (page (window s1)) with
        | Threw error p =>
            match handlerFailed (recovery n) path error (set_page p s2) with
            | None => None
            | Some r => Some (Settled (criticalError r).1, (criticalError r).2)
            end
        | Returned p rest =>
            Some (Awaiting {| job_path := path; job_rest := rest |}, set_page p s2)
        end
    end.
Proof.
  intros Hh. cbn [Router.navigate_start].
  assert (has path s = true) as -> by (apply has_true; eauto).
  destruct skip.
  - cbn [set_currentRoute router routes window page]. rewrite Hh.
    destruct (h path _) as [e p|p rest]; [|reflexivity].
    destruct (handlerFailed _ path e _) as [[[[]|e'] s']|]; reflexivity.
  - unfold Router.pushState.
    destruct (resolve browser _ path) as [pathname|]; [|reflexivity].
    cbn [set_currentRoute pushed router routes window page]. rewrite Hh.
    destruct (h path _) as [e p|p rest]; [|reflexivity].
    destruct (handlerFailed _ path e _) as [[[[]|e'] s']|]; reflexivity.
Qed.

(** The same for a path that is not in the table: it is replaced by
    ['/'], which the browser always accepts. *)
Lemma navigate_start_unregistered n path skip s home :
  routes (router s) !! path = None ->
  routes (router s) !! "/" = home ->
  let warned :=
    log (ConsoleWarn ("Route " +:+ quoted path +:+
                      " not found, redirecting to home")) s in
  let s2 := entering "/" "/" skip warned in
  navigate_start (S n) path skip s =
    match home with
    | None =>
        Some (Settled (Normal tt),
              log (ConsoleError "Critical navigation error:" notAFunction)
                (log (ConsoleError ("Error executing handler for route " +:+
                                    quoted "/" +:+ ":") notAFunction) s2))
    | Some h =>
        match h "/" (page (window s)) with
        | Threw error p =>
            Some (Settled (Normal tt),
                  log (ConsoleError "Critical navigation error:" error)
                    (log (ConsoleError ("Error executing handler for route " +:+
                                        quoted "/" +:+ ":") error)
                       (set_page p s2)))
        | Returned p rest =>
            Some (Awaiting {| job_path := "/"; job_rest := rest |}, set_page p s2)
        end
    end.
Proof.
  intros Hnone Hhome warned s2. cbn [Router.navigate_start].
  assert (has path s = false) as -> by (by apply has_false).
  rewrite pushState_root. subst s2 warned.
  destruct skip; cbn [set_currentRoute pushed log router routes window page];
    rewrite Hhome;
    (destruct home as [h|]; [destruct (h "/" _) as [e p|p rest]|]);
    rewrite ?handlerFailed_home by (by left); reflexivity.
Qed.

(** Navigating to ['/'] never re-enters [navigate]: one level is enough. *)
Lemma navigate_start_root n skip s :
  navigate_start (S n) "/" skip s = navigate_start 1 "/" skip s.
Proof.
  destruct (routes (router s) !! "/") as [h|] eqn:Hh.
  - rewrite !(navigate_start_registered _ "/" skip s h Hh).
    destruct (if skip then _ else _) as [[[]|e] s1]; [|reflexivity].
    cbn zeta. destruct (h "/" _) as [e p|p rest]; [|reflexivity].
    rewrite !handlerFailed_home by (by left). reflexivity.
  - rewrite !(navigate_start_unregistered _ "/" skip s None Hh Hh). reflexivity.
Qed.

(** What [navigate] never touches: the route table, the initialized
    flag, the listeners and the rejections reported so far. *)
Local Abbreviation kept s s' :=
  (routes (router s') = routes (router s)
   /\ isInitialized (router s') = isInitialized (router s)
   /\ popstate_listeners (window s') = popstate_listeners (window s)
   /\ unhandled (window s') = unhandled (window s)).

(** What a call that has got past its handler leaves besides: the
    history has [k] more entries ['/'] and [new] calls are suspended,
    both only when a recovery was started. *)
Local Abbreviation after path s s' :=
  (kept s s'
   /\ exists k new,
        history (window s') = history (window s) ++ replicate k "/"
        /\ suspended (window s') = suspended (window s) ++ new
        /\ (k = 0 /\ new = []
            \/ path <> "/" /\ path <> "/home" /\ k = 1
               /\ (new = [] \/ exists rest, new = [mkJob "/" rest]))).

Ltac frame := repeat split; cbn in *; (reflexivity || congruence).

(** What [navigate('/')] leaves when it hands control back: it is
    suspended at the handler registered for ['/'] or has ended normally;
    no call is suspended by it. *)
Lemma navigate_start_root_spec skip s :
  exists a s',
    navigate_start 1 "/" skip s = Some (a, s')
    /\ (a = Settled (Normal tt) \/ exists rest, a = Awaiting (mkJob "/" rest))
    /\ kept s s'
    /\ suspended (window s') = suspended (window s)
    /\ history (window s') =
         (if skip then history (window s) else history (window s) ++ ["/"]).
Proof.
  destruct (routes (router s) !! "/") as [h|] eqn:Hh.
  - rewrite (navigate_start_registered _ "/" skip s h Hh).
    assert (Hp : exists s1, (if skip then (Normal tt, s) else pushState "/" s)
                            = (Normal tt, s1)
                            /\ s1 = (if skip then s else pushed "/" "/" s)).
    { destruct skip; [eauto|]. rewrite pushState_root. eauto. }
    destruct Hp as (s1 & -> & ->). cbn zeta.
    destruct (h "/" _) as [e p|p rest].
    + rewrite handlerFailed_home by (by left).
      do 2 eexists. split; [reflexivity|]. split; [by left|].
      destruct skip; frame.
    + do 2 eexists. split; [reflexivity|]. split; [right; eauto|].
      destruct skip; frame.
  - rewrite (navigate_start_unregistered _ "/" skip s None Hh Hh).
    do 2 eexists. split; [reflexivity|]. split; [by left|].
    destruct skip; frame.
Qed.

(** The recovery [this.navigate('/')]: it pushes ['/'] and is left
    suspended at the home handler, unless that handler threw at once. *)
Lemma recovery_spec s :
  exists s',
    (forall n, recovery (S n) s = Some s')
    /\ spawn "/" false s = s'
    /\ kept s s'
    /\ history (window s') = history (window s) ++ ["/"]
    /\ (suspended (window s') = suspended (window s)
        \/ exists rest, suspended (window s')
                        = suspended (window s) ++ [mkJob "/" rest]).
Proof.
  destruct (navigate_start_root_spec false s) as (a & s' & Hs & Ha & Hk & Hq & Hh).
  exists (detach a s').
  split. { intros n. cbn beta. rewrite navigate_start_root, Hs. reflexivity. }
  split. { unfold Router.spawn. rewrite (navigate_start_root 1), Hs. reflexivity. }
  destruct Hk as (K1 & K2 & K3 & K4).
  destruct Ha as [-> | [rest ->]]; cbn [detach].
  - split; [frame|]. split; [exact Hh|]. by left.
  - split; [frame|]. split; [exact Hh|]. right. exists rest. cbn. by rewrite Hq.
Qed.

(** The two [catch] blocks together never let an error out. *)
Lemma caught_spec path e s :
  exists s',
    (forall n,
       match handlerFailed (recovery (S n)) path e s with
       | None => None
       | Some r => Some (criticalError r)
       end = Some (Normal tt, s'))
    /\ after path s s'.
Proof.
  destruct (decide (path = "/" \/ path = "/home")) as [Hhome|Hother].
  - eexists. split.
    + intros n. rewrite (handlerFailed_home _ path e s Hhome). reflexivity.
    + split; [frame|]. exists 0, []. cbn. rewrite !app_nil_r. auto.
  - assert (H1 : path <> "/") by tauto. assert (H2 : path <> "/home") by tauto.
    set (s1 := log (ConsoleLog "Attempting to recover by navigating to home")
                 (log (ConsoleError ("Error executing handler for route " +:+
                                     quoted path +:+ ":") e) s)).
    destruct (recovery_spec s1) as (s' & Hr & _ & Hk & Hh & Hq).
    exists s'. split.
    + intros n. rewrite (handlerFailed_other _ path e s H1 H2). fold s1.
      pose proof (Hr n) as Hn. cbn beta in Hn. rewrite Hn. reflexivity.
    + destruct Hk as (K1 & K2 & K3 & K4). subst s1. cbn in K1, K2, K3, K4, Hh, Hq.
      split; [frame|].
      exists 1. destruct Hq as [Hq | [rest Hq]].
      * exists []. rewrite app_nil_r. split; [exact Hh|]. split; [exact Hq|].
        right. auto.
      * exists [mkJob "/" rest]. split; [exact Hh|]. split; [exact Hq|].
        right. repeat split; eauto.
Qed.

(** A suspended call, resumed, is always fulfilled. *)
Lemma navigate_resume_spec j s :
  exists s',
    (forall n, navigate_resume (S n) j s = Some (Normal tt, s'))
    /\ after (job_path j) s s'.
Proof.
  unfold Router.navigate_resume.
  destruct (job_rest j (page (window s))) as [[[]|e] p].
  - eexists. split; [intros n; reflexivity|].
    split; [frame|]. exists 0, []. cbn. rewrite !app_nil_r. auto.
  - destruct (caught_spec (job_path j) e (set_page p s)) as (s' & Hc & Ha).
    exists s'. split; [exact Hc|]. exact Ha.
Qed.

(** [navigate] up to its [await] always hands control back: suspended
    at a handler, or ended normally. *)
Lemma navigate_start_spec path skip s :
  exists a s',
    (forall n, navigate_start (S (S n)) path skip s = Some (a, s'))
    /\ kept s s'
    /\ (a = Settled (Normal tt) \/ exists j, a = Awaiting j)
    /\ (skip = true ->
        exists k new,
          history (window s') = history (window s) ++ replicate k "/"
          /\ suspended (window s') = suspended (window s) ++ new
          /\ (k = 0 /\ new = []
              \/ a = Settled (Normal tt) /\ k = 1
                 /\ (new = [] \/ exists rest, new = [mkJob "/" rest]))).
Proof.
  destruct (routes (router s) !! path) as [h|] eqn:Hh.
  - destruct (if skip then (Normal tt, s) else pushState path s)
      as [[[]|e0] s1] eqn:Hpush.
    + assert (Hs1 : kept s s1 /\ suspended (window s1) = suspended (window s)
                    /\ (skip = true -> s1 = s)).
      { destruct skip; [injection Hpush as <-; split; [frame|auto]|].
        unfold Router.pushState in Hpush.
        destruct (resolve browser _ path); [|discriminate].
        injection Hpush as <-. split; [frame|]. split; [reflexivity|discriminate]. }
      destruct Hs1 as ((K1 & K2 & K3 & K4) & Hq1 & Hskip).
      destruct (h path (page (window s1))) as [e p|p rest] eqn:Hcall.
      * destruct (caught_spec path e (set_page p (set_currentRoute path s1)))
          as (s' & Hc & (L1 & L2 & L3 & L4) & k & new & Hk & Hn & Hcase).
        exists (Settled (Normal tt)), s'. split.
        { intros n. rewrite (navigate_start_registered _ path skip s h Hh), Hpush.
          cbn zeta. rewrite Hcall.
          pose proof (Hc n) as Hc'.
          destruct (handlerFailed _ path e _) as [r|]; [|discriminate].
          injection Hc' as Hc'. rewrite Hc'. reflexivity. }
        split; [frame|]. split; [by left|].
        intros Hs. rewrite (Hskip Hs) in Hk, Hn. exists k, new.
        split; [exact Hk|]. split; [exact Hn|].
        destruct Hcase as [?|(_ & _ & ? & ?)]; [by left|right; auto].
      * eexists _, _. split.
        { intros n. rewrite (navigate_start_registered _ path skip s h Hh), Hpush.
          cbn zeta. rewrite Hcall. reflexivity. }
        split; [frame|]. split; [right; eauto|].
        intros Hs. rewrite (Hskip Hs). exists 0, []. cbn. rewrite !app_nil_r. auto.
    + assert (Hs1 : s1 = s /\ skip = false).
      { destruct skip; [discriminate|]. unfold Router.pushState in Hpush.
        destruct (resolve browser _ path); [discriminate|].
        injection Hpush as _ <-. auto. }
      destruct Hs1 as [-> Hskip].
      eexists _, _. split.
      { intros n. rewrite (navigate_start_registered _ path skip s h Hh), Hpush.
        reflexivity. }
      split; [frame|]. split; [by left|]. intros Hs. congruence.
  - destruct (routes (router s) !! "/") as [home|] eqn:Hhome.
    + destruct (home "/" (page (window s))) as [e p|p rest] eqn:Hcall.
      all: eexists _, _; split;
        [intros n;
         rewrite (navigate_start_unregistered _ path skip s (Some home) Hh Hhome);
         cbn zeta; rewrite Hcall; reflexivity|].
      all: split; [destruct skip; frame|].
      all: split; [(by left) || (right; eauto)|].
      all: intros ->; exists 0, []; cbn; rewrite !app_nil_r; auto.
    + eexists _, _. split.
      { intros n.
        rewrite (navigate_start_unregistered _ path skip s None Hh Hhome).
        reflexivity. }
      split; [destruct skip; frame|]. split; [by left|].
      intros ->. exists 0, []. cbn. rewrite !app_nil_r. auto.
Qed.

(** With two levels of fuel or more the awaited call is fulfilled, and
    the fuel beyond two levels is never used. *)
Lemma navigate_fuel_spec path skip s :
  exists s',
    (forall n, navigate_fuel (S (S n)) path skip s = Some (Normal tt, s'))
    /\ kept s s'.
Proof.
  destruct (navigate_start_spec path skip s) as (a & s1 & Hs & Hk & Ha & _).
  destruct Ha as [-> | [j ->]].
  - exists s1. split; [|exact Hk].
    intros n. unfold Router.navigate_fuel. rewrite Hs. reflexivity.
  - destruct (navigate_resume_spec j s1) as (s' & Hr & (K & _)).
    exists s'. split.
    + intros n. unfold Router.navigate_fuel. rewrite Hs. apply Hr.
    + destruct Hk as (? & ? & ? & ?), K as (? & ? & ? & ?). frame.
Qed.

Lemma navigate_fuel_enough n path skip s :
  navigate_fuel (S (S n)) path skip s = Some (navigate path skip s).
Proof.
  destruct (navigate_fuel_spec path skip s) as (s' & H & _).
  unfold Router.navigate. rewrite (H 0), (H n). reflexivity.
Qed.

Lemma navigate_resolves path skip s : (navigate path skip s).1 = Normal tt.
Proof.
  destruct (navigate_fuel_spec path skip s) as (s' & H & _).
  unfold Router.navigate. rewrite (H 0). reflexivity.
Qed.

Lemma navigate_kept path skip s : kept s (navigate path skip s).2.
Proof.
  destruct (navigate_fuel_spec path skip s) as (s' & H & K).
  unfold Router.navigate. rewrite (H 0). exact K.
Qed.

(** The awaited [navigate] on a path that is in the table and that the
    browser accepts, by what its handler does. *)
Lemma navigate_registered path pathname skip s h :
  routes (router s) !! path = Some h ->
  (skip = false -> accepted path pathname s) ->
  navigate path skip s =
    let s1 := entering path pathname skip s in
    match awaited (h path (page (window s))) with
    | (Normal _, p) => (Normal tt, set_page p s1)
    | (Throw e, p) =>
        let caught :=
          log (ConsoleError ("Error executing handler for route " +:+
                             quoted path +:+ ":") e) (set_page p s1) in
        if negb (String.eqb path "/") && negb (String.eqb path "/home")
        then (Normal tt,
              spawn "/" false
                (log (ConsoleLog "Attempting to recover by navigating to home")
                   caught))
        else (Normal tt, log (ConsoleError "Critical navigation error:" e) caught)
    end.
Proof.
  intros Hh Hacc. unfold Router.navigate, Router.navigate_fuel.
  rewrite (navigate_start_registered _ path skip s h Hh).
  assert (Hpush : (if skip then (Normal tt, s) else pushState path s)
                  = (Normal tt, if skip then s else pushed path pathname s)).
  { destruct skip; [reflexivity|]. apply pushState_accepted. auto. }
  rewrite Hpush. cbn zeta.
  assert (Hpage : page (window (if skip then s else pushed path pathname s))
                  = page (window s)) by (destruct skip; reflexivity).
  rewrite Hpage.
  set (s2 := set_currentRoute path (if skip then s else pushed path pathname s)).
  assert (Hcatch : forall n e p,
            match handlerFailed (recovery (S n)) path e (set_page p s2) with
            | None => None
            | Some r => Some (criticalError r)
            end =
            Some (let caught :=
                    log (ConsoleError ("Error executing handler for route " +:+
                                       quoted path +:+ ":") e) (set_page p s2) in
                  if negb (String.eqb path "/") && negb (String.eqb path "/home")
                  then (Normal tt,
                        spawn "/" false
                          (log (ConsoleLog "Attempting to recover by navigating to home")
                             caught))
                  else (Normal tt,
                        log (ConsoleError "Critical navigation error:" e) caught))).
  { intros n e p. cbn zeta. unfold handlerFailed.
    destruct (negb (String.eqb path "/") && negb (String.eqb path "/home"));
      [|reflexivity].
    match goal with |- context [spawn "/" false ?x] =>
      destruct (recovery_spec x) as (s' & Hr & <- & _) end.
    pose proof (Hr n) as Hn. cbn beta in Hn. rewrite Hn. reflexivity. }
  destruct (h path (page (window s))) as [e p|p0 rest]; cbn [awaited].
  - pose proof (Hcatch 0 e p) as Hc.
    destruct (handlerFailed _ path e _) as [r|]; [|discriminate].
    injection Hc as ->. cbn zeta.
    destruct (negb (String.eqb path "/") && negb (String.eqb path "/home"));
      reflexivity.
  - unfold Router.navigate_resume. cbn [job_rest job_path set_page window page].
    destruct (rest p0) as [[[]|e] p]; [reflexivity|].
    pose proof (Hcatch 1 e p) as Hc. cbn zeta in Hc.
    change (set_page p (set_page p0 s2)) with (set_page p s2).
    destruct (handlerFailed _ path e _) as [r|]; [|discriminate].
    injection Hc as ->.
    destruct (negb (String.eqb path "/") && negb (String.eqb path "/home"));
      reflexivity.
Qed.

(** The awaited [navigate] when the browser refuses the path. *)
Lemma navigate_refused path s :
  is_Some (routes (router s) !! path) ->
  resolve browser (location_pathname (window s)) path = None ->
  navigate path false s =
    (Normal tt,
     log (ConsoleError "Critical navigation error:" (pushStateError browser path)) s).
Proof.
  intros [h Hh] Hres. unfold Router.navigate, Router.navigate_fuel.
  rewrite (navigate_start_registered _ path false s h Hh).
  unfold Router.pushState. rewrite Hres. reflexivity.
Qed.

(** The suspended calls always run to their end: the fuel bounded by
    [rounds] suffices, every call is fulfilled, and all that is added to
    the history is one ['/'] per recovery. *)
Lemma settle_fuel_spec fuel : forall s,
  sum_list_with rounds (suspended (window s)) <= fuel ->
  exists s',
    settle_fuel fuel s = Some s'
    /\ suspended (window s') = []
    /\ kept s s'
    /\ exists k,
         history (window s') = history (window s) ++ replicate k "/"
         /\ k + length (suspended (window s))
            <= sum_list_with rounds (suspended (window s)).
Proof.
  induction fuel as [|fuel IH]; intros s Hfuel.
  - destruct (suspended (window s)) as [|j js] eqn:Hq.
    + exists s. cbn [Router.settle_fuel]. rewrite Hq.
      split; [reflexivity|]. split; [reflexivity|]. split; [frame|].
      exists 0. cbn. rewrite app_nil_r. split; [reflexivity|lia].
    + cbn in Hfuel. unfold rounds in Hfuel. destruct (_ && _); lia.
  - destruct (suspended (window s)) as [|j js] eqn:Hq.
    + exists s. cbn [Router.settle_fuel]. rewrite Hq.
      split; [reflexivity|]. split; [reflexivity|]. split; [frame|].
      exists 0. cbn. rewrite app_nil_r. split; [reflexivity|lia].
    + destruct (navigate_resume_spec j (set_suspended js s))
        as (s1 & Hr & (K1 & K2 & K3 & K4) & k1 & new & Hh1 & Hq1 & Hcase).
      cbn [set_suspended window suspended history router] in *.
      assert (Hnew : sum_list_with rounds new < rounds j
                     /\ k1 + 1 + sum_list_with rounds new <= rounds j + length new).
      { destruct Hcase as [[-> ->]|(H1 & H2 & -> & Hn)].
        - cbn. unfold rounds. destruct (_ && _); lia.
        - apply String.eqb_neq in H1, H2.
          assert (rounds j = 2) as -> by (unfold rounds; rewrite H1, H2; reflexivity).
          destruct Hn as [-> | [rest ->]]; cbn; lia. }
      destruct (IH s1) as (s' & Hs & Hempty & (L1 & L2 & L3 & L4) & k2 & Hh2 & Hk2).
      { rewrite Hq1, sum_list_with_app. cbn in Hfuel. lia. }
      exists s'. split.
      { cbn [Router.settle_fuel]. rewrite Hq, (Hr fuel). cbn [detach]. exact Hs. }
      split; [exact Hempty|]. split; [frame|].
      exists (k1 + k2). split.
      { rewrite Hh2, Hh1, <- app_assoc, <- replicate_add. reflexivity. }
      rewrite Hq1, sum_list_with_app, length_app in Hk2. cbn. lia.
Qed.

Lemma settle_spec s :
  exists s',
    settle_fuel (sum_list_with rounds (suspended (window s))) s = Some s'
    /\ settle s = s'
    /\ suspended (window s') = []
    /\ kept s s'
    /\ exists k,
         history (window s') = history (window s) ++ replicate k "/"
         /\ k + length (suspended (window s))
            <= sum_list_with rounds (suspended (window s)).
Proof.
  destruct (settle_fuel_spec _ s (le_n _)) as (s' & H & Hrest).
  exists s'. split; [exact H|]. split; [|exact Hrest].
  unfold Router.settle. rewrite H. reflexivity.
Qed.

Lemma settle_quiet s : suspended (window s) = [] -> settle s = s.
Proof.
  intros H. unfold Router.settle. rewrite H.
  cbn. rewrite H. reflexivity.
Qed.

(** The awaited [navigate] on a path that is not in the table. *)
Lemma navigate_unregistered_eq path skip s home :
  routes (router s) !! path = None ->
  routes (router s) !! "/" = home ->
  let s2 :=
    entering "/" "/" skip
      (log (ConsoleWarn ("Route " +:+ quoted path +:+
                         " not found, redirecting to home")) s) in
  let failed e s' :=
    log (ConsoleError "Critical navigation error:" e)
      (log (ConsoleError ("Error executing handler for route " +:+
                          quoted "/" +:+ ":") e) s') in
  navigate path skip s =
    match home with
    | None => (Normal tt, failed notAFunction s2)
    | Some h =>
        match awaited (h "/" (page (window s))) with
        | (Normal _, p) => (Normal tt, set_page p s2)
        | (Throw e, p) => (Normal tt, failed e (set_page p s2))
        end
    end.
Proof.
  intros Hnone Hhome s2 failed. unfold Router.navigate, Router.navigate_fuel.
  rewrite (navigate_start_unregistered _ path skip s home Hnone Hhome).
  destruct home as [h|]; [|reflexivity].
  destruct (h "/" (page (window s))) as [e p|p0 rest]; cbn [awaited]; [reflexivity|].
  unfold Router.navigate_resume. cbn [job_rest job_path set_page window page].
  destruct (rest p0) as [[[]|e] p]; reflexivity.
Qed.

(** ** The claims *)

(** C10.  Whatever the path, the flag, the route table and the handlers
    do, [navigate] returns, and the promise it returns is fulfilled: no
    error leaves it.  The recovery call it does not await leaves no
    rejection behind either: once the calls it left suspended have run
    to their end, nothing has reached the process-wide listener.
    Stated on the fuelled functions: every amount of fuel from two on
    yields a normal completion. *)
Theorem navigate_never_rejects (n : nat) path skip s :
  exists s', navigate_fuel (S (S n)) path skip s = Some (Normal tt, s')
             /\ unhandled (window s') = unhandled (window s)
             /\ exists s'',
                  settle_fuel (sum_list_with rounds (suspended (window s'))) s'
                    = Some s''
                  /\ suspended (window s'') = []
                  /\ unhandled (window s'') = unhandled (window s).
Proof.
  destruct (navigate_fuel_spec path skip s) as (s' & H & (_ & _ & _ & Hu)).
  exists s'. split; [apply H|]. split; [exact Hu|].
  destruct (settle_spec s') as (s'' & Hs & _ & Hq & (_ & _ & _ & Hu') & _).
  exists s''. split; [exact Hs|]. split; [exact Hq|]. congruence.
Qed.

(** C4.  For a path that is not in the route table, [navigate] does not
    throw; it warns, replaces the path by ['/'], records ['/'] as the
    current route (and pushes ['/'], not the requested path) and runs
    the handler registered for ['/'] with argument ['/'].  The table is
    consulted with the requested string as it stands. *)
Theorem navigate_unregistered path skip s :
  routes (router s) !! path = None ->
  let warned :=
    log (ConsoleWarn ("Route " +:+ quoted path +:+
                      " not found, redirecting to home")) s in
  (navigate path skip s).1 = Normal tt
  /\ getCurrentRoute (navigate path skip s).2 = Some "/"
  /\ history (window (navigate path skip s).2) =
       (if skip then history (window s) else history (window s) ++ ["/"])
  /\ forall home, routes (router s) !! "/" = Some home ->
       navigate path skip s = navigate "/" skip warned
       /\ page (window (navigate path skip s).2)
          = (awaited (home "/" (page (window s)))).2.
Proof.
  intros Hnone warned.
  split; [apply navigate_resolves|].
  rewrite (navigate_unregistered_eq path skip s _ Hnone eq_refl). fold warned.
  destruct (routes (router s) !! "/") as [h|] eqn:Hh.
  - assert (Hroot : navigate "/" skip warned =
              match awaited (h "/" (page (window s))) with
              | (Normal _, p) => (Normal tt, set_page p (entering "/" "/" skip warned))
              | (Throw e, p) =>
                  (Normal tt,
                   log (ConsoleError "Critical navigation error:" e)
                     (log (ConsoleError ("Error executing handler for route " +:+
                                         quoted "/" +:+ ":") e)
                        (set_page p (entering "/" "/" skip warned))))
              end).
    { rewrite (navigate_registered "/" "/" skip warned h);
        [|exact Hh|intros _; apply resolve_root].
      cbn zeta. cbn [negb andb String.eqb Ascii.eqb Bool.eqb].
      change (page (window warned)) with (page (window s)).
      destruct (awaited _) as [[[]|e] p]; reflexivity. }
    destruct (awaited (h "/" (page (window s)))) as [[[]|e] p] eqn:Hcall.
    all: split; [destruct skip; reflexivity|].
    all: split; [destruct skip; reflexivity|].
    all: intros home [= <-]; rewrite Hroot, Hcall; split; reflexivity.
  - split; [destruct skip; reflexivity|].
    split; [destruct skip; reflexivity|].
    intros home [=].
Qed.

(** C3 on the code.  When the handler registered for [path] throws (at
    once, or when the promise it returned is rejected) [navigate]
    catches and logs the error.  Unless [path] is ['/'] or ['/home'] it
    then calls [navigate('/')], without waiting for it, and is
    fulfilled.  For ['/'] and ['/home'] the error is thrown again,
    caught by the outer [catch] block, logged a second time and
    dropped: the call is fulfilled, nothing reaches the process-wide
    listener, no recovery is started and the current route stays
    [path]. *)
Theorem navigate_handler_throws path pathname skip s h e p :
  routes (router s) !! path = Some h ->
  awaited (h path (page (window s))) = (Throw e, p) ->
  (skip = false -> accepted path pathname s) ->
  let caught :=
    log (ConsoleError ("Error executing handler for route " +:+
                       quoted path +:+ ":") e)
      (set_page p (entering path pathname skip s)) in
  (path <> "/" -> path <> "/home" ->
     navigate path skip s =
       (Normal tt,
        spawn "/" false
          (log (ConsoleLog "Attempting to recover by navigating to home") caught)))
  /\ (path = "/" \/ path = "/home" ->
       navigate path skip s =
         (Normal tt, log (ConsoleError "Critical navigation error:" e) caught)
       /\ unhandled (window (navigate path skip s).2) = unhandled (window s)
       /\ suspended (window (navigate path skip s).2) = suspended (window s)
       /\ getCurrentRoute (navigate path skip s).2 = Some path
       /\ history (window (navigate path skip s).2) =
            (if skip then history (window s) else history (window s) ++ [path])
       /\ page (window (navigate path skip s).2) = p).
Proof.
  intros Hh Hcall Hacc caught.
  rewrite (navigate_registered path pathname skip s h Hh Hacc), Hcall.
  cbn zeta. fold caught. split.
  - intros H1 H2. apply String.eqb_neq in H1, H2. rewrite H1, H2. reflexivity.
  - intros Hp.
    assert (negb (path =? "/")%string && negb (path =? "/home")%string = false)
      as -> by (destruct Hp; subst path; reflexivity).
    subst caught. destruct skip; repeat split.
Qed.

(** C8.  Calling [init()] on a router that is already initialized only
    writes a warning: no listener is added, no navigation is made, and
    the router's fields, the history and the page stay as they were. *)
Theorem init_already_initialized s :
  isInitialized (router s) = true ->
  init s = (Normal tt, log (ConsoleWarn "Router already initialized") s)
  /\ router (init s).2 = router s
  /\ popstate_listeners (window (init s).2) = popstate_listeners (window s)
  /\ history (window (init s).2) = history (window s)
  /\ location_pathname (window (init s).2) = location_pathname (window s)
  /\ unhandled (window (init s).2) = unhandled (window s)
  /\ suspended (window (init s).2) = suspended (window s)
  /\ page (window (init s).2) = page (window s).
Proof.
  intros H. unfold Router.init. rewrite H. repeat split.
Qed.

(** What a call of [navigate] that nobody awaits leaves of the router's
    own fields. *)
Lemma spawn_kept path skip s : kept s (spawn path skip s).
Proof.
  unfold Router.spawn.
  destruct (navigate_start_spec path skip s) as (a & s' & H & K & Ha & _).
  rewrite (H 0). destruct K as (? & ? & ? & ?).
  destruct Ha as [-> | [j ->]]; frame.
Qed.

(** The first [init()] always marks the router as initialized. *)
Lemma init_initializes s : isInitialized (router (init s).2) = true.
Proof.
  unfold Router.init. destruct (isInitialized (router s)) eqn:H; [exact H|].
  reflexivity.
Qed.

End WithPage.

Import Demo.

(** On a table without any route the call to the missing handler fails
    inside [navigate], and the call still completes normally. *)
Example navigate_no_routes :
  (navigate browser "/nope" false (startAt "/" [])).1 = Normal tt.
Proof. reflexivity. Qed.

Lemma navigate_unregistered_witness :
  routes (router templateRoute) !! "/users/42" = None
  /\ (navigate browser "/users/42" false templateRoute).1 = Normal tt
  /\ getCurrentRoute (navigate browser "/users/42" false templateRoute).2 = Some "/"
  /\ history (window (navigate browser "/users/42" false templateRoute).2) = ["/"]
  /\ page (window (navigate browser "/users/42" false templateRoute).2) = ["home"].
Proof.
  assert (H : routes (router templateRoute) !! "/users/42" = None) by reflexivity.
  destruct (navigate_unregistered browser "/users/42" false templateRoute H)
    as (H1 & H2 & H3 & H4).
  destruct (H4 (renders "home") eq_refl) as [_ H5].
  repeat split; assumption.
Defined.

(** The failing input of C3, [navigate('/')] with a home handler that
    throws, and a recovery from a route that is not home. *)
Lemma navigate_handler_throws_witness :
  routes (router brokenHome) !! "/" = Some fails
  /\ awaited (fails "/" (page (window brokenHome))) = (Throw boom, [])
  /\ (navigate browser "/" false brokenHome).1 = Normal tt
  /\ unhandled (window (navigate browser "/" false brokenHome).2) = []
  /\ console (window (navigate browser "/" false brokenHome).2) =
       [ConsoleError ("Error executing handler for route " +:+ quoted "/" +:+ ":") boom;
        ConsoleError "Critical navigation error:" boom]
  /\ routes (router brokenRoute) !! "/x" = Some fails
  /\ getCurrentRoute (navigate browser "/x" false brokenRoute).2 = Some "/"
  /\ page (window (navigate browser "/x" false brokenRoute).2) = ["home"].
Proof.
  assert (G1 : routes (router brokenHome) !! "/" = Some fails) by reflexivity.
  assert (G2 : awaited (fails "/" (page (window brokenHome))) = (Throw boom, []))
    by reflexivity.
  assert (G3 : false = false -> resolve browser (location_pathname (window brokenHome))
                                  "/" = Some "/") by reflexivity.
  assert (H1 : routes (router brokenRoute) !! "/x" = Some fails) by reflexivity.
  assert (H2 : awaited (fails "/x" (page (window brokenRoute))) = (Throw boom, []))
    by reflexivity.
  assert (H3 : false = false -> resolve browser (location_pathname (window brokenRoute))
                                  "/x" = Some "/x") by reflexivity.
  destruct (navigate_handler_throws browser "/" "/" false brokenHome fails boom []
              G1 G2 G3) as [_ Hhome].
  destruct (Hhome (or_introl eq_refl)) as (K1 & K2 & _).
  destruct (navigate_handler_throws browser "/x" "/x" false brokenRoute fails boom []
              H1 H2 H3) as [Hrec _].
  split; [exact G1|]. split; [exact G2|].
  split; [rewrite K1; reflexivity|]. split; [exact K2|].
  split; [rewrite K1; reflexivity|]. split; [exact H1|].
  rewrite (Hrec ltac:(discriminate) ltac:(discriminate)).
  split; reflexivity.
Defined.

(** ['/home'] is treated like ['/']: its handler throws, and [navigate]
    neither goes to ['/'] (the home view is never rendered, the current
    route stays ['/home']) nor lets the error out (the call completes
    normally and nothing is left for the process-wide listener). *)
Example navigate_home_alias_swallows :
  let r := navigate browser "/home" false homeAliasFails in
  routes (router homeAliasFails) !! "/home" = Some fails
  /\ ~ (getCurrentRoute r.2 = Some "/"
        \/ page (window r.2) = ["home"]
        \/ (exists e, r.1 = Throw e)
        \/ unhandled (window r.2) <> [])
  /\ r.1 = Normal tt
  /\ getCurrentRoute r.2 = Some "/home"
  /\ history (window r.2) = ["/home"]
  /\ page (window r.2) = [].
Proof.
  cbv zeta. repeat split.
  intros [H|[H|[[e H]|H]]]; try discriminate H.
  apply H. reflexivity.
Qed.

Lemma init_already_initialized_witness :
  let s := (init browser brokenRoute).2 in
  isInitialized (router s) = true
  /\ init browser s = (Normal tt, log (ConsoleWarn "Router already initialized") s)
  /\ popstate_listeners (window (init browser s).2) = 1
  /\ history (window (init browser s).2) = history (window s).
Proof.
  cbv zeta.
  assert (H : isInitialized (router (init browser brokenRoute).2) = true) by reflexivity.
  destruct (init_already_initialized browser _ H) as (H1 & _ & H3 & H4 & _).
  split; [exact H|]. split; [exact H1|]. split; [|exact H4].
  rewrite H3. reflexivity.
Defined.

End RouterSpec.

(** * Properties of the loader *)

Module LoaderSpec.
Import MfeLoader.

Section WithRuntime.
Context {Ext : Type} (rt : Runtime Ext).
Implicit Types (s : Sys Ext) (name : string) (md : @MFEMetadata Ext).

Ltac run :=
  unfold bind, ret, gets, log, set_loader, set_document, throw, try_catch.

Ltac step := cbn -[String.append quoted manifest] in *.

Lemma isLoaded_true name s :
  isLoaded name s = true <-> is_Some (loadedMFEs (loader s) !! name).
Proof. unfold isLoaded. apply bool_decide_eq_true. Qed.

Lemma isLoaded_false name s :
  isLoaded name s = false <-> loadedMFEs (loader s) !! name = None.
Proof.
  unfold isLoaded. rewrite bool_decide_eq_false. symmetry. apply eq_None_not_Some.
Qed.

(** A teardown, the remote's or the substitute, leaves the loader's own
    fields alone. *)
Lemma teardown_loader (i : @Instance Ext) s :
  loader (teardown i s).2 = loader s.
Proof.
  destruct i as [o|c]; cbn [teardown]; [|reflexivity].
  destruct (obj_unmount o) as [| |u]; [destruct (obj_destroy o) as [| |d]..|];
    try reflexivity; unfold call.
  - destruct (d (world s)); reflexivity.
  - destruct (d (world s)); reflexivity.
  - destruct (u (world s)); reflexivity.
Qed.

(** [unloadMFE] on a name that is not in the map. *)
Lemma unloadMFE_not_loaded name s :
  loadedMFEs (loader s) !! name = None ->
  unloadMFE rt name s =
    (Normal false, say (ConsoleWarn ("MFE " +:+ quoted name +:+ " is not loaded")) s).
Proof.
  intros H. unfold unloadMFE. run.
  apply isLoaded_false in H. rewrite H. reflexivity.
Qed.

(** [unloadMFE] on a loaded name, by the outcome of the teardown. *)
Lemma unloadMFE_loaded name s md :
  loadedMFEs (loader s) !! name = Some md ->
  unloadMFE rt name s =
    match teardown (md_instance md) (say (ConsoleLog ("Unloading MFE: " +:+ name)) s) with
    | (Normal _, s1) =>
        let d' := clearIfAttached (md_container md) (document (world s1)) in
        let l := map_delete name (loader s1) in
        let l' := if bool_decide (currentMFE l = Some name)
                  then set_currentMFE None l else l in
        (Normal true,
         {| loader := l';
            console := console s1 ++
              [ConsoleLog ("MFE " +:+ quoted name +:+ " unloaded successfully")];
            world := {| document := d'; outside := outside (world s1) |} |})
    | (Throw e, s1) =>
        (Normal false,
         {| loader := map_delete name (loader s1);
            console := console s1 ++
              [ConsoleError ("Error unloading MFE " +:+ quoted name +:+ ":") e];
            world := world s1 |})
    end.
Proof.
  intros H. unfold unloadMFE. run.
  assert (isLoaded name s = true) as -> by (apply isLoaded_true; eauto).
  cbn [negb]. unfold getMFEMetadata. cbn [say loader]. rewrite H.
  destruct (teardown _ _) as [[[]|e] s1]; [|reflexivity].
  cbn [getCurrentMFE loader map_delete currentMFE].
  destruct (bool_decide _); reflexivity.
Qed.

Lemma unloadMFE_normal name s : exists b, (unloadMFE rt name s).1 = Normal b.
Proof.
  destruct (loadedMFEs (loader s) !! name) as [md|] eqn:H.
  - rewrite (unloadMFE_loaded name s md H).
    destruct (teardown _ _) as [[[]|e] s1]; cbn; eauto.
  - rewrite (unloadMFE_not_loaded name s H). eauto.
Qed.

(** Whatever the teardown does, the entry is gone afterwards and every
    other entry is kept. *)
Lemma unloadMFE_map name s :
  loadedMFEs (loader (unloadMFE rt name s).2) = delete name (loadedMFEs (loader s)).
Proof.
  destruct (loadedMFEs (loader s) !! name) as [md|] eqn:H.
  - rewrite (unloadMFE_loaded name s md H).
    pose proof (teardown_loader (md_instance md)
                  (say (ConsoleLog ("Unloading MFE: " +:+ name)) s)) as Hl.
    destruct (teardown _ _) as [[[]|e] s1]; cbn in Hl |- *.
    + destruct (bool_decide _); cbn; rewrite Hl; reflexivity.
    + rewrite Hl. reflexivity.
  - rewrite (unloadMFE_not_loaded name s H). cbn. symmetry. by apply delete_id.
Qed.

Lemma unloadMFE_isLoaded name s : isLoaded name (unloadMFE rt name s).2 = false.
Proof. apply isLoaded_false. rewrite unloadMFE_map. apply lookup_delete_eq. Qed.

(** The keys after [unloadMFE]: [name] is taken out. *)
Lemma unloadMFE_keys name s :
  getLoadedMFEs (unloadMFE rt name s).2 =
    if isLoaded name s then filter (λ k, k ≠ name) (getLoadedMFEs s)
    else getLoadedMFEs s.
Proof.
  unfold getLoadedMFEs.
  destruct (loadedMFEs (loader s) !! name) as [md|] eqn:H.
  - assert (isLoaded name s = true) as -> by (apply isLoaded_true; eauto).
    rewrite (unloadMFE_loaded name s md H).
    pose proof (teardown_loader (md_instance md)
                  (say (ConsoleLog ("Unloading MFE: " +:+ name)) s)) as Hl.
    destruct (teardown _ _) as [[[]|e] s1]; cbn in Hl |- *.
    + destruct (bool_decide _); cbn; rewrite Hl; reflexivity.
    + rewrite Hl. reflexivity.
  - assert (isLoaded name s = false) as -> by (by apply isLoaded_false).
    rewrite (unloadMFE_not_loaded name s H). reflexivity.
Qed.

(** [unloadMFE] leaves the federation fields alone. *)
Lemma unloadMFE_federation name s :
  federationInitialized (loader (unloadMFE rt name s).2) = federationInitialized (loader s)
  /\ loadRemoteModule (loader (unloadMFE rt name s).2) = loadRemoteModule (loader s).
Proof.
  destruct (loadedMFEs (loader s) !! name) as [md|] eqn:H.
  - rewrite (unloadMFE_loaded name s md H).
    pose proof (teardown_loader (md_instance md)
                  (say (ConsoleLog ("Unloading MFE: " +:+ name)) s)) as Hl.
    destruct (teardown _ _) as [[[]|e] s1]; cbn in Hl |- *.
    + destruct (bool_decide _); cbn; rewrite Hl; split; reflexivity.
    + rewrite Hl. split; reflexivity.
  - rewrite (unloadMFE_not_loaded name s H). split; reflexivity.
Qed.

(** The teardown of an instance with a callable [unmount] is the call of
    that function; the substitute empties its container. *)
Lemma teardown_unmount (i : @Instance Ext) s :
  hasUnmount i = true ->
  exists torn,
    match i with
    | FromRemote o =>
        exists unmount, obj_unmount o = Callable unmount /\ torn = unmount (world s)
    | DefaultTeardown c0 =>
        torn = (Normal tt,
                {| document := set_innerHTML c0 [] (document (world s));
                   outside := outside (world s) |})
    end
    /\ (teardown i s).1 = torn.1
    /\ world (teardown i s).2 = torn.2.
Proof.
  destruct i as [o|c0]; cbn [hasUnmount teardown].
  - destruct (obj_unmount o) as [| |unmount]; try discriminate. intros _.
    exists (unmount (world s)). split; [eauto|].
    unfold call. destruct (unmount (world s)); split; reflexivity.
  - intros _. eexists. split; [reflexivity|]. split; reflexivity.
Qed.

(** ** The claims about [unloadMFE] *)

(** C5.  [unloadMFE(name)] never throws.  When [name] is not loaded it
    resolves to [false] and touches neither the loader nor the document
    (it only writes a warning).  In every case, also when the teardown
    throws, the entry of [name] is removed and no other entry is, so
    [isLoaded(name)] is false afterwards. *)
Theorem unloadMFE_removes_entry name s :
  (exists b, (unloadMFE rt name s).1 = Normal b)
  /\ isLoaded name (unloadMFE rt name s).2 = false
  /\ loadedMFEs (loader (unloadMFE rt name s).2) = delete name (loadedMFEs (loader s))
  /\ (isLoaded name s = false ->
        (unloadMFE rt name s).1 = Normal false
        /\ loader (unloadMFE rt name s).2 = loader s
        /\ world (unloadMFE rt name s).2 = world s)
  /\ (forall md e s1,
        getMFEMetadata name s = Some md ->
        teardown (md_instance md) (say (ConsoleLog ("Unloading MFE: " +:+ name)) s)
          = (Throw e, s1) ->
        (unloadMFE rt name s).1 = Normal false
        /\ isLoaded name (unloadMFE rt name s).2 = false).
Proof.
  split; [apply unloadMFE_normal|].
  split; [apply unloadMFE_isLoaded|].
  split; [apply unloadMFE_map|].
  split.
  - intros H. apply isLoaded_false in H.
    rewrite (unloadMFE_not_loaded name s H). repeat split.
  - intros md e s1 Hmd Htd. split; [|apply unloadMFE_isLoaded].
    rewrite (unloadMFE_loaded name s md Hmd), Htd. reflexivity.
Qed.

(** ** The steps of [loadMFE] *)

Lemma getOrCreateContainer_loader sel s :
  loader (_getOrCreateContainer rt sel s).2 = loader s.
Proof.
  destruct sel as [q|e|]; cbn [_getOrCreateContainer]; try reflexivity.
  unfold querySelector. run.
  destruct (selector_valid rt q); [|reflexivity].
  destruct (select rt q _); [reflexivity|].
  destruct (createInBody _ _). reflexivity.
Qed.


(** Importing touches the federation fields of the loader only. *)
Lemma importRemoteModule_map name s :
  loadedMFEs (loader (_importRemoteModule rt name s).2) = loadedMFEs (loader s)
  /\ currentMFE (loader (_importRemoteModule rt name s).2) = currentMFE (loader s).
Proof.
  unfold _importRemoteModule, _initFederation. run. unfold call, say. step.
  destruct (federationInitialized (loader s)); step.
  - destruct (loadRemoteModule (loader s)) as [f|]; step; [|split; reflexivity].
    destruct (f name "./bootstrap" (world s)) as [[m|e] w]; split; reflexivity.
  - destruct (initFederation rt manifest (world s)) as [[f|e] w]; step;
      [|split; reflexivity].
    destruct (f name "./bootstrap" w) as [[m|e] w']; split; reflexivity.
Qed.

Lemma importRemoteModule_keys name s :
  getLoadedMFEs (_importRemoteModule rt name s).2 = getLoadedMFEs s.
Proof.
  unfold getLoadedMFEs, _importRemoteModule, _initFederation. run.
  unfold call, say. step.
  destruct (federationInitialized (loader s)); step.
  - destruct (loadRemoteModule (loader s)) as [f|]; step; [|reflexivity].
    destruct (f name "./bootstrap" (world s)) as [[m|e] w]; reflexivity.
  - destruct (initFederation rt manifest (world s)) as [[f|e] w]; step;
      [|reflexivity].
    destruct (f name "./bootstrap" w) as [[m|e] w']; reflexivity.
Qed.

(** After a fulfilled import the loader holds the library's function. *)
Lemma importRemoteModule_ready name s m s' :
  _importRemoteModule rt name s = (Normal m, s') ->
  federationInitialized (loader s') = true
  /\ exists f, loadRemoteModule (loader s') = Some f.
Proof.
  unfold _importRemoteModule, _initFederation. run. unfold call, say. step.
  destruct (federationInitialized (loader s)) eqn:Hi; step.
  - destruct (loadRemoteModule (loader s)) as [f|] eqn:Hf; step; [|discriminate].
    destruct (f name "./bootstrap" (world s)) as [[m'|e] w]; step; [|discriminate].
    intros [= <- <-]. cbn. rewrite Hi, Hf. eauto.
  - destruct (initFederation rt manifest (world s)) as [[f|e] w]; step;
      [|discriminate].
    destruct (f name "./bootstrap" w) as [[m'|e] w']; step; [|discriminate].
    intros [= <- <-]. cbn. eauto.
Qed.

(** An import on a loader that holds the library's function is a call of
    that function. *)
Lemma importRemoteModule_initialized name s f m s' :
  federationInitialized (loader s) = true ->
  loadRemoteModule (loader s) = Some f ->
  _importRemoteModule rt name s = (Normal m, s') ->
  f name "./bootstrap" (world s) = (Normal m, world s') /\ loader s' = loader s.
Proof.
  intros Hi Hf. unfold _importRemoteModule, _initFederation. run.
  unfold call, say. step. rewrite Hi. step. rewrite Hf. step.
  destruct (f name "./bootstrap" (world s)) as [[m'|e] w]; step; [|discriminate].
  intros [= <- <-]. split; reflexivity.
Qed.

Lemma bootstrapMFE_loader m c opts s :
  loader (_bootstrapMFE rt m c opts s).2 = loader s.
Proof.
  unfold _bootstrapMFE. run. unfold call.
  destruct (or_else _ _) as [| |mountFn]; try reflexivity.
  cbn [say world].
  destruct (mountFn c opts (world s)) as [[[o|]|e] w]; try reflexivity.
  destruct (lacksUnmount (Some o)); reflexivity.
Qed.

(** Every instance that [_bootstrapMFE] hands back can be torn down. *)
Lemma bootstrapMFE_hasUnmount m c opts s inst s' :
  _bootstrapMFE rt m c opts s = (Normal inst, s') -> hasUnmount inst = true.
Proof.
  unfold _bootstrapMFE. run. unfold call.
  destruct (or_else _ _) as [| |mountFn]; try discriminate.
  cbn [say world].
  destruct (mountFn c opts (world s)) as [[[o|]|e] w]; try discriminate.
  - destruct (lacksUnmount (Some o)) eqn:Hl; intros [= <- <-]; [reflexivity|].
    cbn in Hl |- *. destruct (obj_unmount o); [discriminate..|reflexivity].
  - intros [= <- <-]. reflexivity.
Qed.

(** A fulfilled [_bootstrapMFE] has called the module's mount function
    with the container and the options. *)
Lemma bootstrapMFE_fulfilled m c opts s inst s' :
  _bootstrapMFE rt m c opts s = (Normal inst, s') ->
  exists mountFn result,
    or_else (mod_mount m) (or_else (mod_bootstrap m) (mod_default_mount m))
      = Callable mountFn
    /\ mountFn c opts (world s) = (Normal result, world s')
    /\ inst = match result with
              | Some o => if lacksUnmount result then DefaultTeardown c
                          else FromRemote o
              | None => DefaultTeardown c
              end.
Proof.
  unfold _bootstrapMFE. run. unfold call.
  destruct (or_else _ _) as [| |mountFn]; try discriminate.
  cbn [say world].
  destruct (mountFn c opts (world s)) as [[[o|]|e] w] eqn:Hm; try discriminate.
  - destruct (lacksUnmount (Some o)) eqn:Hl; intros [= <- <-];
      exists mountFn, (Some o); rewrite Hl; repeat split; exact Hm.
  - intros [= <- <-]. exists mountFn, None. repeat split. exact Hm.
Qed.

Lemma unloadIfLoaded_normal name s : (unloadIfLoaded rt name s).1 = Normal tt.
Proof.
  unfold unloadIfLoaded. run. destruct (isLoaded name s); [|reflexivity].
  destruct (unloadMFE_normal name
              (say (ConsoleWarn ("MFE " +:+ quoted name +:+
                                 " is already loaded. Unloading first.")) s))
    as [b Hb].
  destruct (unloadMFE rt name _) as [c s']. cbn in Hb. subst c. reflexivity.
Qed.

Lemma unloadIfLoaded_state name s :
  (unloadIfLoaded rt name s).2 =
    if isLoaded name s
    then (unloadMFE rt name
            (say (ConsoleWarn ("MFE " +:+ quoted name +:+
                               " is already loaded. Unloading first.")) s)).2
    else s.
Proof.
  unfold unloadIfLoaded. run. destruct (isLoaded name s); [|reflexivity].
  destruct (unloadMFE_normal name
              (say (ConsoleWarn ("MFE " +:+ quoted name +:+
                                 " is already loaded. Unloading first.")) s))
    as [b Hb].
  destruct (unloadMFE rt name _) as [c s']. cbn in Hb. subst c. reflexivity.
Qed.

Lemma unloadIfLoaded_map name s :
  loadedMFEs (loader (unloadIfLoaded rt name s).2) = delete name (loadedMFEs (loader s)).
Proof.
  rewrite unloadIfLoaded_state. destruct (isLoaded name s) eqn:H.
  - rewrite unloadMFE_map. reflexivity.
  - symmetry. apply delete_id. by apply isLoaded_false.
Qed.

Lemma unloadIfLoaded_keys name s :
  getLoadedMFEs (unloadIfLoaded rt name s).2 =
    if isLoaded name s then filter (λ k, k ≠ name) (getLoadedMFEs s)
    else getLoadedMFEs s.
Proof.
  rewrite unloadIfLoaded_state. destruct (isLoaded name s) eqn:H; [|reflexivity].
  rewrite unloadMFE_keys. unfold isLoaded in *. cbn [say loader]. rewrite H.
  reflexivity.
Qed.

Lemma unloadIfLoaded_federation name s :
  federationInitialized (loader (unloadIfLoaded rt name s).2)
    = federationInitialized (loader s)
  /\ loadRemoteModule (loader (unloadIfLoaded rt name s).2)
     = loadRemoteModule (loader s).
Proof.
  rewrite unloadIfLoaded_state. destruct (isLoaded name s); [|split; reflexivity].
  destruct (unloadMFE_federation name
              (say (ConsoleWarn ("MFE " +:+ quoted name +:+
                                 " is already loaded. Unloading first.")) s))
    as [A B].
  split; [exact A|exact B].
Qed.

(** The [catch] block of [loadMFE] always ends in a throw. *)
Lemma loadFailed_throws name sel e s :
  exists e' s', loadFailed rt name sel e s = (Throw e', s').
Proof.
  unfold loadFailed. run.
  destruct (_displayError rt sel name e _) as [[[]|e'] s']; eauto.
Qed.

(** [loadMFE], step by step. *)
Lemma loadMFE_steps name sel opts s :
  loadMFE rt name sel opts s =
    match _getOrCreateContainer rt sel (say (ConsoleLog ("Loading MFE: " +:+ name)) s) with
    | (Throw e, s1) => loadFailed rt name sel e s1
    | (Normal None, s1) =>
        loadFailed rt name sel
          (new_Error rt ("Container not found: " +:+ showContainerArg sel)) s1
    | (Normal (Some c), s1) =>
        match _importRemoteModule rt name (unloadIfLoaded rt name s1).2 with
        | (Throw e, s3) => loadFailed rt name sel e s3
        | (Normal m, s3) =>
            match _bootstrapMFE rt m c opts s3 with
            | (Throw e, s4) => loadFailed rt name sel e s4
            | (Normal inst, s4) =>
                let md := {| md_name := name; md_container := c;
                             md_instance := inst;
                             md_loadedAt := now rt (world s4);
                             md_options := opts |} in
                (Normal {| res_unmount := name; res_metadata := md |},
                 say (ConsoleLog ("MFE " +:+ quoted name +:+ " loaded successfully"))
                   {| loader := store name md (loader s4);
                      console := console s4; world := world s4 |})
            end
        end
    end.
Proof.
  unfold loadMFE. run.
  destruct (_getOrCreateContainer rt sel _) as [[[c|]|e] s1]; try reflexivity.
  pose proof (unloadIfLoaded_normal name s1) as Hu.
  destruct (unloadIfLoaded rt name s1) as [cu s2]. cbn in Hu. subst cu. cbn [snd].
  destruct (_importRemoteModule rt name s2) as [[m|e] s3]; [|reflexivity].
  destruct (_bootstrapMFE rt m c opts s3) as [[inst|e] s4]; reflexivity.
Qed.

(** What a fulfilled [loadMFE] went through and left behind. *)
Lemma loadMFE_success name sel opts s r s' :
  loadMFE rt name sel opts s = (Normal r, s') ->
  exists c s1 m s3 s4,
    _getOrCreateContainer rt sel (say (ConsoleLog ("Loading MFE: " +:+ name)) s)
      = (Normal (Some c), s1)
    /\ _importRemoteModule rt name (unloadIfLoaded rt name s1).2 = (Normal m, s3)
    /\ _bootstrapMFE rt m c opts s3 = (Normal (md_instance (res_metadata r)), s4)
    /\ r = {| res_unmount := name;
              res_metadata := {| md_name := name; md_container := c;
                                 md_instance := md_instance (res_metadata r);
                                 md_loadedAt := now rt (world s4);
                                 md_options := opts |} |}
    /\ s' = say (ConsoleLog ("MFE " +:+ quoted name +:+ " loaded successfully"))
              {| loader := store name (res_metadata r) (loader s4);
                 console := console s4; world := world s4 |}.
Proof.
  rewrite loadMFE_steps. intros H.
  destruct (_getOrCreateContainer rt sel _) as [[[c|]|e] s1] eqn:Hc.
  2,3: match type of H with loadFailed _ _ _ ?e ?s = _ =>
         destruct (loadFailed_throws name sel e s) as (e' & s'' & Hf) end;
       rewrite Hf in H; discriminate.
  destruct (_importRemoteModule rt name _) as [[m|e] s3] eqn:Hm.
  2: destruct (loadFailed_throws name sel e s3) as (e' & s'' & Hf);
     rewrite Hf in H; discriminate.
  destruct (_bootstrapMFE rt m c opts s3) as [[inst|e] s4] eqn:Hb.
  2: destruct (loadFailed_throws name sel e s4) as (e' & s'' & Hf);
     rewrite Hf in H; discriminate.
  cbv zeta in H. injection H as <- <-.
  exists c, s1, m, s3, s4. repeat split; assumption.
Qed.

Lemma loadMFE_stores name sel opts s r s' :
  loadMFE rt name sel opts s = (Normal r, s') ->
  getMFEMetadata name s' = Some (res_metadata r)
  /\ getCurrentMFE s' = Some name
  /\ hasUnmount (md_instance (res_metadata r)) = true.
Proof.
  intros H. destruct (loadMFE_success _ _ _ _ _ _ H) as (c & s1 & m & s3 & s4 & _ & _ & Hb & _ & ->).
  split; [|split].
  - unfold getMFEMetadata. cbn. apply lookup_insert_eq.
  - reflexivity.
  - eapply bootstrapMFE_hasUnmount, Hb.
Qed.

(** After a fulfilled [loadMFE] the loader holds the library's function. *)
Lemma loadMFE_ready name sel opts s r s' :
  loadMFE rt name sel opts s = (Normal r, s') ->
  federationInitialized (loader s') = true
  /\ exists f, loadRemoteModule (loader s') = Some f.
Proof.
  intros H.
  destruct (loadMFE_success _ _ _ _ _ _ H)
    as (c & s1 & m & s3 & s4 & _ & Hm & Hb & _ & ->).
  destruct (importRemoteModule_ready _ _ _ _ Hm) as (Hi & f & Hf).
  pose proof (bootstrapMFE_loader m c opts s3) as Hl. rewrite Hb in Hl.
  cbn [snd] in Hl. cbn. rewrite Hl. eauto.
Qed.

(** The keys after a fulfilled [loadMFE]: [name] is last, whether it was
    there before or not. *)
Lemma loadMFE_keys name sel opts s r s' :
  loadMFE rt name sel opts s = (Normal r, s') ->
  getLoadedMFEs s' =
    (if isLoaded name s then filter (λ k, k ≠ name) (getLoadedMFEs s)
     else getLoadedMFEs s) ++ [name].
Proof.
  intros H.
  destruct (loadMFE_success _ _ _ _ _ _ H)
    as (c & s1 & m & s3 & s4 & Hc & Hm & Hb & _ & ->).
  pose proof (getOrCreateContainer_loader sel
                (say (ConsoleLog ("Loading MFE: " +:+ name)) s)) as Hl1.
  rewrite Hc in Hl1. cbn [snd say loader] in Hl1.
  pose proof (unloadIfLoaded_keys name s1) as Hk.
  pose proof (unloadIfLoaded_map name s1) as Hmap.
  pose proof (importRemoteModule_keys name (unloadIfLoaded rt name s1).2) as Hk3.
  pose proof (importRemoteModule_map name (unloadIfLoaded rt name s1).2) as [Hm3 _].
  rewrite Hm in Hk3, Hm3. cbn [snd] in Hk3, Hm3.
  pose proof (bootstrapMFE_loader m c opts s3) as Hl4. rewrite Hb in Hl4.
  cbn [snd] in Hl4.
  unfold getLoadedMFEs, isLoaded in *.
  cbn [say loader store set_currentMFE map_set loadedKeys loadedMFEs].
  rewrite Hl4, Hm3, Hmap, lookup_delete_eq.
  rewrite bool_decide_eq_false_2 by (intros [? [=]]).
  rewrite Hk3, Hk, Hl1. reflexivity.
Qed.

(** A name taken out of a list and put at its end is in it once. *)
Lemma filter_readded (x : string) (l : list string) :
  length (filter (λ y, y = x) (filter (λ k, k ≠ x) l ++ [x])) = 1.
Proof.
  rewrite filter_app, length_app.
  assert (filter (λ y, y = x) (filter (λ k, k ≠ x) l) = []) as ->.
  { induction l as [|a l IH]; [reflexivity|].
    rewrite (filter_cons (λ k, k ≠ x)). destruct (decide (a ≠ x)); [|exact IH].
    rewrite filter_cons. destruct (decide (a = x)); [congruence|exact IH]. }
  rewrite filter_cons. destruct (decide (x = x)); [reflexivity|congruence].
Qed.

(** ** The claims about [loadMFE] *)

(** C1.  When [loadMFE(name, c)] is fulfilled and is then called again
    and fulfilled again, the second call resolves its container, finds
    the first instance in the map and tears it down: the [unmount] that
    the remote handed back at the first mount is called (or, for the
    loader's substitute, the old container is emptied), and the entry is
    removed.  Only then is the remote imported, in the world the
    teardown left, and its mount function called with the new container
    and the new options; what that call leaves is what the load leaves.
    Afterwards the map is the old one with the entry of [name] replaced
    by the new one, [getLoadedMFEs()] lists [name] exactly once, in the
    last place, and [name] is the current MFE. *)
Theorem loadMFE_twice name sel opts1 opts2 s r1 s1 r2 s2 :
  loadMFE rt name sel opts1 s = (Normal r1, s1) ->
  loadMFE rt name sel opts2 s1 = (Normal r2, s2) ->
  let old := res_metadata r1 in
  let new := res_metadata r2 in
  getMFEMetadata name s1 = Some old
  /\ hasUnmount (md_instance old) = true
  /\ (exists c sc torn f m si mountFn result sm,
        _getOrCreateContainer rt sel (say (ConsoleLog ("Loading MFE: " +:+ name)) s1)
          = (Normal (Some c), sc)
        /\ match md_instance old with
           | FromRemote o =>
               exists unmount,
                 obj_unmount o = Callable unmount /\ torn = unmount (world sc)
           | DefaultTeardown c0 =>
               torn = (Normal tt,
                       {| document := set_innerHTML c0 [] (document (world sc));
                          outside := outside (world sc) |})
           end
        /\ world (unloadIfLoaded rt name sc).2 =
             match torn with
             | (Normal _, w) =>
                 {| document := clearIfAttached (md_container old) (document w);
                    outside := outside w |}
             | (Throw _, w) => w
             end
        /\ getMFEMetadata name (unloadIfLoaded rt name sc).2 = None
        /\ loadRemoteModule (loader s1) = Some f
        /\ f name "./bootstrap" (world (unloadIfLoaded rt name sc).2)
           = (Normal m, world si)
        /\ _importRemoteModule rt name (unloadIfLoaded rt name sc).2 = (Normal m, si)
        /\ getMFEMetadata name si = None
        /\ or_else (mod_mount m) (or_else (mod_bootstrap m) (mod_default_mount m))
           = Callable mountFn
        /\ mountFn c opts2 (world si) = (Normal result, world sm)
        /\ _bootstrapMFE rt m c opts2 si = (Normal (md_instance new), sm)
        /\ world s2 = world sm
        /\ md_container new = c
        /\ md_options new = opts2)
  /\ getMFEMetadata name s2 = Some new
  /\ loadedMFEs (loader s2) = <[name := new]> (loadedMFEs (loader s1))
  /\ getLoadedMFEs s2 = filter (λ k, k ≠ name) (getLoadedMFEs s1) ++ [name]
  /\ length (filter (λ n, n = name) (getLoadedMFEs s2)) = 1
  /\ getCurrentMFE s2 = Some name.
Proof.
  intros H1 H2 old new.
  destruct (loadMFE_stores _ _ _ _ _ _ H1) as (Hold & _ & Hun).
  destruct (loadMFE_stores _ _ _ _ _ _ H2) as (Hnew & Hcur & _).
  destruct (loadMFE_ready _ _ _ _ _ _ H1) as (Hinit & f & Hf).
  destruct (loadMFE_success _ _ _ _ _ _ H2)
    as (c & sc & m & si & sm & Hc & Hm & Hb & Hr & Hs2).
  pose proof (getOrCreateContainer_loader sel
                (say (ConsoleLog ("Loading MFE: " +:+ name)) s1)) as Hlc.
  rewrite Hc in Hlc. cbn [snd say loader] in Hlc.
  assert (Hsc : loadedMFEs (loader sc) !! name = Some old)
    by (rewrite Hlc; exact Hold).
  pose proof (unloadIfLoaded_map name sc) as Hmap.
  pose proof (unloadIfLoaded_state name sc) as Hst.
  destruct (unloadIfLoaded_federation name sc) as [Hfi Hfl].
  assert (isLoaded name sc = true) as Hl by (apply isLoaded_true; eauto).
  assert (isLoaded name s1 = true) as Hl1
    by (apply isLoaded_true; unfold getMFEMetadata in Hold; eauto).
  rewrite Hl in Hst.
  set (sw := say (ConsoleWarn ("MFE " +:+ quoted name +:+
                               " is already loaded. Unloading first.")) sc) in *.
  pose proof (unloadMFE_loaded name sw old Hsc) as Hun'.
  destruct (teardown_unmount (md_instance old)
              (say (ConsoleLog ("Unloading MFE: " +:+ name)) sw) Hun)
    as (torn & Htorn & Htc & Htw).
  destruct (importRemoteModule_initialized name (unloadIfLoaded rt name sc).2 f m si)
    as [Hcall Hli]; [by rewrite Hfi, Hlc|by rewrite Hfl, Hlc|exact Hm|].
  destruct (bootstrapMFE_fulfilled _ _ _ _ _ _ Hb) as (mountFn & result & Hpick & Hmount & _).
  pose proof (bootstrapMFE_loader m c opts2 si) as Hbl.
  rewrite Hb in Hbl. cbn [snd] in Hbl.
  split; [exact Hold|]. split; [exact Hun|].
  split; [|split; [|split; [|split; [|split]]]].
  - exists c, sc, torn, f, m, si, mountFn, result, sm.
    split; [exact Hc|]. split; [exact Htorn|]. split.
    { rewrite Hst, Hun'.
      destruct (teardown (md_instance old) _) as [ctd std].
      cbn [fst snd] in Htc, Htw. destruct torn as [ct wt]. cbn [fst snd] in Htc, Htw.
      subst ctd wt. destruct ct as [[]|e]; [|reflexivity].
      cbv zeta. match goal with |- context [bool_decide ?P] =>
        destruct (bool_decide P) end; reflexivity. }
    split. { unfold getMFEMetadata. rewrite Hmap. apply lookup_delete_eq. }
    split; [exact Hf|]. split; [exact Hcall|]. split; [exact Hm|].
    split. { unfold getMFEMetadata. rewrite Hli, Hmap. apply lookup_delete_eq. }
    split; [exact Hpick|]. split; [exact Hmount|]. split; [exact Hb|].
    split. { rewrite Hs2. reflexivity. }
    subst new. rewrite Hr. split; reflexivity.
  - exact Hnew.
  - rewrite Hs2. cbn [say loader store set_currentMFE map_set loadedMFEs].
    rewrite Hbl, Hli, Hmap, Hlc. apply insert_delete_eq.
  - rewrite (loadMFE_keys _ _ _ _ _ _ H2), Hl1. reflexivity.
  - rewrite (loadMFE_keys _ _ _ _ _ _ H2), Hl1. apply filter_readded.
  - exact Hcur.
Qed.

(** The element [_displayError] writes to: the one the selector finds
    at that moment, or the element that was passed. *)
Local Abbreviation displayTarget sel d :=
  (match sel with
   | Selector q => select rt q d
   | ElementRef el => Some el
   | Null => None
   end).

(** The [catch] block of [loadMFE] when the container argument is an
    element, [null] or a valid selector. *)
Lemma loadFailed_valid name sel e s :
  match sel with Selector q => selector_valid rt q = true | _ => True end ->
  let view := ErrorBoundary.createMFEFallback name e
                (Some (RetryLoad name sel)) (Some GoHomeRouter) in
  loadFailed rt name sel e s =
    (Throw (new_Error rt ("MFE load failed: " +:+ name +:+ " - " +:+ err_message e)),
     {| loader := loader s;
        console := console s ++
          [ConsoleError ("Failed to load MFE " +:+ quoted name +:+ ":") e];
        world := {| document :=
                      match displayTarget sel (document (world s)) with
                      | Some t => appendChild t view
                                    (set_innerHTML t [] (document (world s)))
                      | None => document (world s)
                      end;
                    outside := outside (world s) |} |}).
Proof.
  intros Hv view. unfold loadFailed, _displayError, querySelector. run.
  unfold say. step.
  destruct sel as [q|el|]; step.
  - rewrite Hv. step. destruct (select rt q _); step; [reflexivity|].
    destruct s as [l c [d o]]; reflexivity.
  - reflexivity.
  - destruct s as [l c [d o]]; reflexivity.
Qed.

Lemma children_appendChild t n d :
  children (getElement t (appendChild t n (set_innerHTML t [] d))) = [n].
Proof.
  unfold getElement at 1, appendChild. cbn [elements].
  rewrite lookup_insert_eq. cbn [default children].
  unfold getElement, set_innerHTML. cbn [elements].
  rewrite lookup_insert_eq. reflexivity.
Qed.


(** C6.  When the mount function resolves to a value without a callable
    [unmount], [_bootstrapMFE] warns and returns the substitute teardown
    for the container.  Whatever [loadMFE] tracks is what
    [_bootstrapMFE] returned and has a callable [unmount].  Unloading an
    entry that carries the substitute resolves to [true], leaves its
    container without children and removes the entry. *)
Theorem bootstrap_default_teardown m c opts s mountFn result w :
  or_else (mod_mount m) (or_else (mod_bootstrap m) (mod_default_mount m))
    = Callable mountFn ->
  mountFn c opts (world s) = (Normal result, w) ->
  lacksUnmount result = true ->
  (exists s',
      _bootstrapMFE rt m c opts s = (Normal (DefaultTeardown c), s')
      /\ loader s' = loader s /\ world s' = w
      /\ console s' = console s ++
           [ConsoleLog "Calling MFE mount function...";
            ConsoleLog "MFE mounted successfully";
            ConsoleWarn "MFE mount function did not return a valid unmount method"])
  /\ (forall name sel s0 r s1,
        loadMFE rt name sel opts s0 = (Normal r, s1) ->
        getMFEMetadata name s1 = Some (res_metadata r)
        /\ hasUnmount (md_instance (res_metadata r)) = true
        /\ exists m' s3 s4,
             _bootstrapMFE rt m' (md_container (res_metadata r)) opts s3
               = (Normal (md_instance (res_metadata r)), s4))
  /\ (forall name s0 md,
        getMFEMetadata name s0 = Some md ->
        md_instance md = DefaultTeardown (md_container md) ->
        (unloadMFE rt name s0).1 = Normal true
        /\ children (getElement (md_container md)
                       (document (world (unloadMFE rt name s0).2))) = []
        /\ isLoaded name (unloadMFE rt name s0).2 = false
        /\ ConsoleWarn "No unmount method available, clearing container manually"
             ∈ console (unloadMFE rt name s0).2).
Proof.
  intros Hpick Hmount Hlacks. split; [|split].
  - unfold _bootstrapMFE. rewrite Hpick. run. unfold call, say. step.
    rewrite Hmount. step.
    destruct result as [o|]; [rewrite Hlacks|]; step;
      (eexists; split; [reflexivity|]; cbn; repeat split;
       rewrite <- !app_assoc; reflexivity).
  - intros name sel s0 r s1 H.
    destruct (loadMFE_stores _ _ _ _ _ _ H) as (Hs & _ & Hu).
    destruct (loadMFE_success _ _ _ _ _ _ H) as (c' & s1' & m' & s3 & s4 & _ & _ & Hb & Hr & _).
    split; [exact Hs|]. split; [exact Hu|].
    exists m', s3, s4. rewrite Hr at 1. exact Hb.
  - intros name s0 md Hmd Hinst.
    split; [|split; [|split]]; [| |apply unloadMFE_isLoaded|];
      rewrite (unloadMFE_loaded name s0 md Hmd), Hinst; unfold teardown; run; step.
    + reflexivity.
    + unfold clearIfAttached.
      destruct (parentNode _); unfold getElement, set_innerHTML; cbn [elements];
        rewrite lookup_insert_eq; reflexivity.
    + rewrite !elem_of_app, !list_elem_of_singleton. left. right. reflexivity.
Qed.

(** [_displayError] with a string that is not a selector: the lookup
    throws, and the [catch] block that should write the minimal message
    reads an identifier that is not in scope.  It throws in turn unless
    the document happens to have an element with the id ['container'],
    which then gets the message, whatever it is there for. *)
Lemma displayError_invalid_selector q name e s :
  selector_valid rt q = false ->
  exists e',
    err_name e' = "SyntaxError"
    /\ _displayError rt (Selector q) name e s =
         let s1 := say (ConsoleError "Failed to display error message:" e') s in
         match elementsWithId "container" (document (world s)) with
         | [] => (Throw (containerNotDefined rt), s1)
         | [el] =>
             (Normal tt,
              {| loader := loader s; console := console s1;
                 world := {| document := set_innerHTML el [minimalMessage name]
                                           (document (world s));
                             outside := outside (world s) |} |})
         | _ => (Normal tt, s1)
         end.
Proof.
  intros H. unfold _displayError, querySelector. run. rewrite H.
  exists (mkJsError "SyntaxError"
            ("Failed to execute 'querySelector' on 'Document': '" +:+ q +:+
             "' is not a valid selector.")
            (stack_trace rt q)).
  split; [reflexivity|].
  unfold readGlobalContainer. cbn [say world]. cbv zeta.
  destruct (elementsWithId "container" (document (world s))) as [|el [|el' l]];
    reflexivity.
Qed.

(** The current-MFE pointer stays inside the map across an unload whose
    teardown returns. *)
Lemma unloadMFE_current_loaded name s :
  (forall n, getCurrentMFE s = Some n -> isLoaded n s = true) ->
  (unloadMFE rt name s).1 = Normal true ->
  forall n, getCurrentMFE (unloadMFE rt name s).2 = Some n ->
            isLoaded n (unloadMFE rt name s).2 = true.
Proof.
  intros Hinv Hok n.
  destruct (loadedMFEs (loader s) !! name) as [md|] eqn:Hmd.
  2: { rewrite (unloadMFE_not_loaded name s Hmd) in Hok. discriminate. }
  pose proof (unloadMFE_map name s) as Hmap. revert Hok Hmap.
  rewrite (unloadMFE_loaded name s md Hmd).
  pose proof (teardown_loader (md_instance md)
                (say (ConsoleLog ("Unloading MFE: " +:+ name)) s)) as Hl.
  destruct (teardown _ _) as [[[]|e] s1]; [|discriminate].
  cbn [snd say loader] in Hl. intros _ Hmap Hn.
  apply isLoaded_true. rewrite Hmap. cbn in Hn.
  case_bool_decide as Hc; cbn in Hn; [discriminate|].
  rewrite Hl in Hn, Hc.
  assert (n <> name) by congruence.
  rewrite lookup_delete_ne by congruence.
  apply isLoaded_true, Hinv, Hn.
Qed.

End WithRuntime.

Import Demo.

Lemma unloadMFE_removes_entry_witness :
  isLoaded "mfe1" freshPage = false
  /\ (unloadMFE (online None) "mfe1" freshPage).1 = Normal false
  /\ world (unloadMFE (online None) "mfe1" freshPage).2 = world freshPage
  /\ getMFEMetadata "a" loadThrowing.2 = Some (res_metadata (resolved loadThrowing))
  /\ (unloadMFE (online None) "a" loadThrowing.2).1 = Normal false
  /\ isLoaded "a" (unloadMFE (online None) "a" loadThrowing.2).2 = false.
Proof.
  assert (H0 : isLoaded "mfe1" freshPage = false) by reflexivity.
  destruct (unloadMFE_removes_entry (online None) "mfe1" freshPage)
    as (_ & _ & _ & Hnot & _).
  destruct (Hnot H0) as (Hfalse & _ & Hworld).
  assert (Hmd : getMFEMetadata "a" loadThrowing.2
                = Some (res_metadata (resolved loadThrowing)))
    by (vm_compute; reflexivity).
  destruct (unloadMFE_removes_entry (online None) "a" loadThrowing.2)
    as (_ & _ & _ & _ & Hthrow).
  destruct (Hthrow _ boom _ Hmd ltac:(vm_compute; reflexivity)) as [Hres Hgone].
  repeat split; assumption.
Defined.

(** Two loads of a remote that leaves a trace: the [unmount] handed back
    by the first mount is called before the second import. *)
Lemma loadMFE_twice_witness :
  firstTraced = (Normal (tracedResult firstTraced), firstTraced.2)
  /\ secondTraced = (Normal (tracedResult secondTraced), secondTraced.2)
  /\ outside (world firstTraced.2) = ["initFederation"; "import mfe1"; "mount"]
  /\ outside (world secondTraced.2) =
       ["initFederation"; "import mfe1"; "mount"; "unmount"; "import mfe1"; "mount"]
  /\ md_options (res_metadata (tracedResult secondTraced)) = [("theme", "dark")]
  /\ getMFEMetadata "mfe1" secondTraced.2 = Some (res_metadata (tracedResult secondTraced))
  /\ getLoadedMFEs secondTraced.2 = ["mfe1"]
  /\ length (filter (λ n, n = "mfe1") (getLoadedMFEs secondTraced.2)) = 1
  /\ getCurrentMFE secondTraced.2 = Some "mfe1".
Proof.
  assert (H1 : firstTraced = (Normal (tracedResult firstTraced), firstTraced.2))
    by (vm_compute; reflexivity).
  assert (H2 : secondTraced = (Normal (tracedResult secondTraced), secondTraced.2))
    by (vm_compute; reflexivity).
  destruct (loadMFE_twice tracing "mfe1" (ElementRef 0)
              [] [("theme", "dark")] tracedPage (tracedResult firstTraced) firstTraced.2
              (tracedResult secondTraced) secondTraced.2 H1 H2)
    as (_ & _ & _ & Hnew & _ & _ & Honce & Hcur).
  split; [exact H1|]. split; [exact H2|].
  split; [vm_compute; reflexivity|]. split; [vm_compute; reflexivity|].
  split; [vm_compute; reflexivity|]. split; [exact Hnew|].
  split; [vm_compute; reflexivity|]. split; [exact Honce|exact Hcur].
Defined.



Lemma bootstrap_default_teardown_witness :
  lacksUnmount (Some emptyObject) = true
  /\ loadEmpty = (Normal (resolved loadEmpty), loadEmpty.2)
  /\ md_instance (res_metadata (resolved loadEmpty)) = DefaultTeardown 0
  /\ (unloadMFE (online (Some emptyObject)) "a" loadEmpty.2).1 = Normal true
  /\ children (getElement 0
        (document (world (unloadMFE (online (Some emptyObject)) "a" loadEmpty.2).2))) = []
  /\ isLoaded "a" (unloadMFE (online (Some emptyObject)) "a" loadEmpty.2).2 = false.
Proof.
  assert (Hl : lacksUnmount (Some emptyObject) = true) by reflexivity.
  assert (H1 : loadEmpty = (Normal (resolved loadEmpty), loadEmpty.2))
    by (vm_compute; reflexivity).
  destruct (bootstrap_default_teardown (online (Some emptyObject))
              (exporting (mounting (Some emptyObject))) 0 [] freshPage
              (mounting (Some emptyObject)) (Some emptyObject) _
              eq_refl eq_refl Hl)
    as (_ & Hload & Hunload).
  destruct (Hload "a" (ElementRef 0) freshPage _ _ H1) as (Hmd & _ & _).
  assert (Hinst : md_instance (res_metadata (resolved loadEmpty)) = DefaultTeardown 0)
    by (vm_compute; reflexivity).
  destruct (Hunload "a" loadEmpty.2 _ Hmd Hinst) as (Hres & Hchildren & Hgone & _).
  repeat split; assumption.
Defined.

(** C7 on the failing input [loadMFE('mfe1', '')]: the empty string is not
    a selector, the lookup inside [_displayError] throws, and the [catch]
    block, instead of writing the minimal message, throws a
    ReferenceError; [_displayError] throws, nothing is written to the
    document, and [loadMFE] is rejected with that ReferenceError. *)
Theorem displayError_throws :
  (_displayError offline (Selector EmptyString) "mfe1" boom freshPage).1
    = Throw (containerNotDefined offline)
  /\ document (world (_displayError offline (Selector EmptyString) "mfe1" boom freshPage).2)
     = document (world freshPage)
  /\ (loadMFE offline "mfe1" (Selector EmptyString) [] freshPage).1
     = Throw (containerNotDefined offline)
  /\ document (world (loadMFE offline "mfe1" (Selector EmptyString) [] freshPage).2)
     = document (world freshPage).
Proof.
  repeat split; vm_compute; reflexivity.
Qed.

(** C9 on the failing input: load ["a"] from a remote whose [unmount]
    throws, then unload it.  The entry is removed and the current-MFE
    pointer still names ["a"]. *)
Theorem current_dangles_after_failed_teardown :
  loadThrowing = (Normal (resolved loadThrowing), loadThrowing.2)
  /\ getCurrentMFE loadThrowing.2 = Some "a"
  /\ isLoaded "a" loadThrowing.2 = true
  /\ (unloadMFE (online (Some throwingObject)) "a" loadThrowing.2).1 = Normal false
  /\ getCurrentMFE (unloadMFE (online (Some throwingObject)) "a" loadThrowing.2).2
     = Some "a"
  /\ isLoaded "a" (unloadMFE (online (Some throwingObject)) "a" loadThrowing.2).2
     = false.
Proof.
  repeat split; vm_compute; reflexivity.
Qed.

End LoaderSpec.

(** * More about the router *)

Module RouterMore.
Import Router RouterSpec.

Section WithPage.
Context {Page : Type} (browser : Browser).
Implicit Types (s : St Page) (path : string) (skip : bool) (j : Job Page).

Local Abbreviation navigate_start := (Router.navigate_start browser).
Local Abbreviation navigate_resume := (Router.navigate_resume browser).
Local Abbreviation navigate := (Router.navigate browser).
Local Abbreviation spawn := (Router.spawn browser).
Local Abbreviation settle_fuel := (Router.settle_fuel browser).
Local Abbreviation settle := (Router.settle browser).
Local Abbreviation init := (Router.init browser).
Local Abbreviation onPopstate := (Router.onPopstate browser).

Local Abbreviation entering path pathname skip s :=
  (set_currentRoute path (if skip then s else pushed path pathname s)).

Local Abbreviation accepted path pathname s :=
  (resolve browser (location_pathname (window s)) path = Some pathname).

Ltac frame := repeat split; cbn in *; (reflexivity || congruence).

(** X1.  For a registered path that the browser accepts and whose
    handler returns, [navigate] runs that handler once, on the page as
    it was, records the path as the current route, pushes it to the
    history unless told not to (the location becoming what the browser
    resolved the path to), writes nothing to the console, leaves no call
    suspended and completes normally. *)
Theorem navigate_registered_returns path pathname skip s h p :
  routes (router s) !! path = Some h ->
  awaited (h path (page (window s))) = (Normal tt, p) ->
  (skip = false -> accepted path pathname s) ->
  navigate path skip s = (Normal tt, set_page p (entering path pathname skip s))
  /\ getCurrentRoute (navigate path skip s).2 = Some path
  /\ page (window (navigate path skip s).2) = p
  /\ history (window (navigate path skip s).2) =
       (if skip then history (window s) else history (window s) ++ [path])
  /\ location_pathname (window (navigate path skip s).2) =
       (if skip then location_pathname (window s) else pathname)
  /\ console (window (navigate path skip s).2) = console (window s)
  /\ suspended (window (navigate path skip s).2) = suspended (window s).
Proof.
  intros Hh Hcall Hacc.
  rewrite (navigate_registered browser path pathname skip s h Hh Hacc), Hcall.
  cbn zeta. destruct skip; repeat split.
Qed.


(** The suspended calls of a state that has none. *)
Lemma settle_fuel_quiet fuel s :
  suspended (window s) = [] -> settle_fuel fuel s = Some s.
Proof. intros H. destruct fuel; cbn; rewrite H; reflexivity. Qed.

(** Taking a call off the list of a state that has no other. *)
Lemma set_suspended_quiet s (js : list (Job Page)) :
  suspended (window s) = [] -> set_suspended [] (set_suspended js s) = s.
Proof.
  destruct s as [r [h l n c u q p]]. cbn. intros ->. reflexivity.
Qed.

(** One suspended call whose handler returns. *)
Lemma settle_returns s j p :
  suspended (window s) = [j] ->
  job_rest j (page (window s)) = (Normal tt, p) ->
  settle s = set_page p (set_suspended [] s).
Proof.
  intros Hq Hrest. unfold Router.settle. rewrite Hq.
  assert (exists f, sum_list_with rounds [j] = S f) as [f ->]
    by (cbn; unfold rounds; destruct (_ && _); eauto).
  cbn [Router.settle_fuel]. rewrite Hq.
  unfold Router.navigate_resume. cbn [set_suspended window page].
  rewrite Hrest. cbn [criticalError detach].
  rewrite settle_fuel_quiet by reflexivity. reflexivity.
Qed.

(** One suspended call for ['/'] or ['/home']: no recovery follows. *)
Lemma settle_home s path rest :
  suspended (window s) = [mkJob path rest] ->
  path = "/" \/ path = "/home" ->
  settle s =
    match rest (page (window s)) with
    | (Normal _, p) => set_page p (set_suspended [] s)
    | (Throw e, p) =>
        log (ConsoleError "Critical navigation error:" e)
          (log (ConsoleError ("Error executing handler for route " +:+
                              quoted path +:+ ":") e)
             (set_page p (set_suspended [] s)))
    end.
Proof.
  intros Hq Hp. unfold Router.settle. rewrite Hq.
  assert (sum_list_with rounds [mkJob path rest] = 1) as ->
    by (destruct Hp; subst path; reflexivity).
  cbn [Router.settle_fuel]. rewrite Hq.
  unfold Router.navigate_resume. cbn [set_suspended window page job_rest job_path].
  destruct (rest (page (window s))) as [[[]|e] p].
  - reflexivity.
  - rewrite (handlerFailed_home _ path e _ Hp). reflexivity.
Qed.

(** X3.  Recovery.  The handler of [path] (neither ['/'] nor ['/home'])
    throws and there is a handler for ['/'].  Then [navigate(path)] is
    fulfilled as soon as the recovery has called the home handler: ['/']
    is the current route and has been pushed to the history, also when
    the failing navigation itself was told not to push, and the page
    shows what the home handler did before it first waited.  The
    recovery is left suspended; when it is resumed the page gets the
    rest of the home handler's effect, and nothing else changes if that
    handler returns. *)
Theorem navigate_recovers_home path pathname skip s h e p home p1 rest :
  routes (router s) !! path = Some h ->
  awaited (h path (page (window s))) = (Throw e, p) ->
  (skip = false -> accepted path pathname s) ->
  path <> "/" -> path <> "/home" ->
  routes (router s) !! "/" = Some home ->
  home "/" p = Returned p1 rest ->
  let s' := (navigate path skip s).2 in
  (navigate path skip s).1 = Normal tt
  /\ getCurrentRoute s' = Some "/"
  /\ history (window s') =
       (if skip then history (window s) else history (window s) ++ [path]) ++ ["/"]
  /\ location_pathname (window s') = "/"
  /\ page (window s') = p1
  /\ suspended (window s') = suspended (window s) ++ [mkJob "/" rest]
  /\ (suspended (window s) = [] ->
      page (window (settle s')) = (rest p1).2
      /\ getCurrentRoute (settle s') = Some "/"
      /\ history (window (settle s')) = history (window s')
      /\ suspended (window (settle s')) = []
      /\ unhandled (window (settle s')) = unhandled (window s)
      /\ ((rest p1).1 = Normal tt -> console (window (settle s')) = console (window s'))).
Proof.
  intros Hh Hcall Hacc H1 H2 Hhome Hstart s'. subst s'.
  rewrite (navigate_registered browser path pathname skip s h Hh Hacc), Hcall.
  cbn zeta. apply String.eqb_neq in H1, H2. rewrite H1, H2. cbn [negb andb fst snd].
  set (x := log (ConsoleLog "Attempting to recover by navigating to home") _).
  assert (Hx : routes (router x) !! "/" = Some home)
    by (subst x; destruct skip; exact Hhome).
  assert (Hpx : page (window x) = p) by (subst x; destruct skip; reflexivity).
  assert (Hsp : spawn "/" false x =
            set_suspended (suspended (window x) ++ [mkJob "/" rest])
              (set_page p1 (set_currentRoute "/" (pushed "/" "/" x)))).
  { unfold Router.spawn.
    rewrite (navigate_start_registered browser _ "/" false x home Hx).
    rewrite pushState_root. cbn zeta.
    change (page (window (pushed "/" "/" x))) with (page (window x)).
    rewrite Hpx, Hstart. reflexivity. }
  rewrite Hsp.
  assert (Hqx : suspended (window x) = suspended (window s))
    by (subst x; destruct skip; reflexivity).
  split; [reflexivity|]. split; [reflexivity|].
  split. { subst x. destruct skip; reflexivity. }
  split; [reflexivity|]. split; [reflexivity|].
  split. { cbn [set_suspended window suspended]. by rewrite Hqx. }
  intros Hq.
  rewrite (settle_home _ "/" rest);
    [|cbn [set_suspended window suspended]; by rewrite Hqx, Hq|by left].
  cbn [set_suspended set_page window page].
  destruct (rest p1) as [[[]|e'] p'] eqn:Hrest; cbn [fst snd].
  - repeat split. subst x. destruct skip; reflexivity.
  - repeat split; try discriminate. subst x. destruct skip; reflexivity.
Qed.

(** What a call of [navigate(path, true)] that nobody awaits comes to,
    on a page where no other call is suspended: in the end it is what
    the awaited call gives, and the history has at most one ['/'] more. *)
Lemma spawn_skip_settled path s :
  suspended (window s) = [] ->
  settle (spawn path true s) = settle (navigate path true s).2
  /\ suspended (window (settle (spawn path true s))) = []
  /\ routes (router (settle (spawn path true s))) = routes (router s)
  /\ isInitialized (router (settle (spawn path true s))) = isInitialized (router s)
  /\ popstate_listeners (window (settle (spawn path true s)))
     = popstate_listeners (window s)
  /\ unhandled (window (settle (spawn path true s))) = unhandled (window s)
  /\ (history (window (settle (spawn path true s))) = history (window s)
      \/ history (window (settle (spawn path true s))) = history (window s) ++ ["/"]).
Proof.
  intros Hq.
  destruct (navigate_start_spec browser path true s)
    as (a & s1 & Hs & (K1 & K2 & K3 & K4) & Ha & Hskip).
  destruct (Hskip eq_refl) as (k & new & Hh & Hn & Hcase). clear Hskip.
  rewrite Hq in Hn. cbn in Hn.
  unfold Router.spawn, Router.navigate, Router.navigate_fuel. rewrite (Hs 0).
  destruct Ha as [-> | [j ->]].
  - cbn [detach snd].
    destruct (settle_spec browser s1)
      as (s2 & _ & -> & Hq2 & (L1 & L2 & L3 & L4) & k2 & Hh2 & Hk2).
    split; [reflexivity|]. split; [exact Hq2|].
    split; [congruence|]. split; [congruence|]. split; [congruence|].
    split; [congruence|].
    assert (k2 = 0 /\ (k = 0 \/ k = 1)) as [-> Hk].
    { rewrite Hn in Hk2.
      destruct Hcase as [[-> ->]|(_ & -> & [-> | [rest ->]])]; cbn in Hk2; lia. }
    rewrite Hh2, Hh. cbn. rewrite app_nil_r.
    destruct Hk as [-> | ->]; cbn; [left; by rewrite app_nil_r|by right].
  - destruct Hcase as [[-> ->]|(Hbad & _)]; [|discriminate].
    cbn in Hh. rewrite app_nil_r in Hh. cbn [detach]. rewrite Hn. cbn [app].
    destruct (navigate_resume_spec browser j s1)
      as (s2 & Hr & (L1 & L2 & L3 & L4) & k1 & new1 & Hh1 & Hn1 & Hcase1).
    rewrite (Hr 1). cbn [snd].
    assert (Hsettle : settle (set_suspended [j] s1) = settle s2).
    { unfold Router.settle at 1. cbn [set_suspended window suspended].
      assert (exists f, sum_list_with rounds [j] = S f
                        /\ S f = rounds j) as (f & Hf & Hfj)
        by (cbn; unfold rounds; destruct (_ && _); eauto).
      rewrite Hf. cbn [Router.settle_fuel set_suspended window suspended].
      rewrite (set_suspended_quiet s1 [j] Hn), (Hr f). cbn [detach].
      unfold Router.settle. rewrite Hn1, Hn. cbn [app].
      destruct Hcase1 as [[-> ->]|(P1 & P2 & -> & [-> | [rest ->]])].
      - rewrite !settle_fuel_quiet by (by rewrite Hn1, Hn). reflexivity.
      - rewrite !settle_fuel_quiet by (by rewrite Hn1, Hn). reflexivity.
      - apply String.eqb_neq in P1, P2. unfold rounds in Hfj.
        rewrite P1, P2 in Hfj. cbn in Hfj. injection Hfj as ->.
        change (sum_list_with rounds [mkJob "/" rest]) with 1.
        destruct (settle_fuel_spec browser 1 s2) as (s3 & -> & _);
          [rewrite Hn1, Hn; cbn; lia|reflexivity]. }
    rewrite Hsettle.
    destruct (settle_spec browser s2)
      as (s3 & _ & -> & Hq3 & (M1 & M2 & M3 & M4) & k2 & Hh2 & Hk2).
    split; [reflexivity|]. split; [exact Hq3|].
    split; [congruence|]. split; [congruence|]. split; [congruence|].
    split; [congruence|].
    rewrite Hn1, Hn in Hk2. cbn [app] in Hk2.
    assert (k1 + k2 = 0 \/ k1 + k2 = 1) as Hk.
    { destruct Hcase1 as [[-> ->]|(_ & _ & -> & [-> | [rest ->]])]; cbn in Hk2; lia. }
    rewrite Hh2, Hh1, Hh, <- app_assoc, <- replicate_add.
    destruct Hk as [-> | ->]; cbn; [left; by rewrite app_nil_r|by right].
Qed.

(** What a call of [navigate(path, true)] that nobody awaits has added
    to the history when it hands control back, and how many resumptions
    it leaves to be made, on a page where no other call is suspended. *)
Lemma spawn_skip_budget path s :
  suspended (window s) = [] ->
  exists k,
    history (window (spawn path true s)) = history (window s) ++ replicate k "/"
    /\ k + sum_list_with rounds (suspended (window (spawn path true s)))
       <= 1 + length (suspended (window (spawn path true s))).
Proof.
  intros Hq.
  destruct (navigate_start_spec browser path true s)
    as (a & s1 & Hs & _ & Ha & Hskip).
  destruct (Hskip eq_refl) as (k & new & Hh & Hn & Hcase). clear Hskip.
  rewrite Hq in Hn. cbn in Hn. unfold Router.spawn. rewrite (Hs 0).
  exists k. destruct Ha as [-> | [j ->]]; cbn [detach].
  - split; [exact Hh|]. rewrite Hn.
    destruct Hcase as [[-> ->]|(_ & -> & [-> | [rest ->]])]; cbn; lia.
  - destruct Hcase as [[-> ->]|(Hbad & _)]; [|discriminate].
    split; [exact Hh|]. cbn [set_suspended window suspended]. rewrite Hn. cbn.
    unfold rounds. destruct (_ && _); lia.
Qed.

(** With that budget, the history has at most one ['/'] more in the
    end. *)
Lemma settle_budget s (hist : list string) k :
  history (window s) = hist ++ replicate k "/" ->
  k + sum_list_with rounds (suspended (window s)) <= 1 + length (suspended (window s)) ->
  history (window (settle s)) = hist \/ history (window (settle s)) = hist ++ ["/"].
Proof.
  intros Hh Hk.
  destruct (settle_spec browser s) as (s' & _ & -> & _ & _ & k2 & Hh2 & Hk2).
  rewrite Hh2, Hh, <- app_assoc, <- replicate_add.
  assert (k + k2 = 0 \/ k + k2 = 1) as [-> | ->] by lia; cbn;
    [left; by rewrite app_nil_r|by right].
Qed.

(** X5.  The first [init()]: it adds exactly one history listener, calls
    [navigate] for the current location without waiting for it and
    without pushing, marks the router initialized and completes
    normally.  When the location is a registered path, that path is the
    current route when [init] returns, the page shows what its handler
    did before it first waited, and the call is left suspended; once it
    is resumed and the handler has returned, the page shows the handler's
    whole effect and the history is as before.  In every case the
    history ends up as before or with one ['/'] more, pushed by a
    recovery.  A second [init()] then changes nothing but the console. *)
Theorem init_fresh s :
  isInitialized (router s) = false ->
  let here := location_pathname (window s) in
  init s = (Normal tt, set_isInitialized (spawn here true (addPopstateListener s)))
  /\ isInitialized (router (init s).2) = true
  /\ popstate_listeners (window (init s).2) = S (popstate_listeners (window s))
  /\ routes (router (init s).2) = routes (router s)
  /\ unhandled (window (init s).2) = unhandled (window s)
  /\ (forall h p0 rest,
        routes (router s) !! here = Some h ->
        h here (page (window s)) = Returned p0 rest ->
        getCurrentRoute (init s).2 = Some here
        /\ page (window (init s).2) = p0
        /\ history (window (init s).2) = history (window s)
        /\ suspended (window (init s).2) = suspended (window s) ++ [mkJob here rest]
        /\ (suspended (window s) = [] ->
            forall p, rest p0 = (Normal tt, p) ->
              page (window (settle (init s).2)) = p
              /\ getCurrentRoute (settle (init s).2) = Some here
              /\ history (window (settle (init s).2)) = history (window s)
              /\ isInitialized (router (settle (init s).2)) = true))
  /\ (suspended (window s) = [] ->
      suspended (window (settle (init s).2)) = []
      /\ unhandled (window (settle (init s).2)) = unhandled (window s)
      /\ routes (router (settle (init s).2)) = routes (router s)
      /\ (history (window (settle (init s).2)) = history (window s)
          \/ history (window (settle (init s).2)) = history (window s) ++ ["/"]))
  /\ init (init s).2 =
       (Normal tt, log (ConsoleWarn "Router already initialized") (init s).2).
Proof.
  intros Hinit here.
  assert (E : init s = (Normal tt, set_isInitialized
                                     (spawn here true (addPopstateListener s)))).
  { unfold Router.init. rewrite Hinit. reflexivity. }
  rewrite E. cbn [fst snd].
  set (s0 := addPopstateListener s).
  destruct (spawn_kept browser here true s0) as (K1 & K2 & K3 & K4).
  split; [reflexivity|]. split; [reflexivity|].
  split; [exact K3|]. split; [exact K1|]. split; [exact K4|].
  split; [|split].
  - intros h p0 rest Hh Hcall.
    assert (Hsp : spawn here true s0 =
              set_suspended (suspended (window s0) ++ [mkJob here rest])
                (set_page p0 (set_currentRoute here s0))).
    { unfold Router.spawn.
      rewrite (navigate_start_registered browser _ here true s0 h Hh).
      cbn zeta. change (page (window s0)) with (page (window s)).
      rewrite Hcall. reflexivity. }
    rewrite Hsp. split; [reflexivity|]. split; [reflexivity|].
    split; [reflexivity|]. split; [reflexivity|].
    intros Hq p Hrest.
    rewrite (settle_returns _ (mkJob here rest) p).
    + repeat split.
    + cbn. rewrite Hq. reflexivity.
    + exact Hrest.
  - intros Hq.
    destruct (settle_spec browser (set_isInitialized (spawn here true s0)))
      as (s' & _ & Hs' & Hq' & (L1 & L2 & L3 & L4) & _).
    split; [rewrite Hs'; exact Hq'|].
    split; [rewrite Hs', L4; exact K4|].
    split; [rewrite Hs', L1; exact K1|].
    destruct (spawn_skip_budget here s0 Hq) as (k & Hh & Hk).
    apply (settle_budget _ (history (window s)) k); [exact Hh|exact Hk].
  - unfold Router.init. reflexivity.
Qed.

(** What a call of [navigate(path, true)] that nobody awaits has done
    to the history when it hands control back: nothing, or pushed one
    ['/']. *)
Lemma spawn_skip_history path s :
  history (window (spawn path true s)) = history (window s)
  \/ history (window (spawn path true s)) = history (window s) ++ ["/"].
Proof.
  destruct (navigate_start_spec browser path true s)
    as (a & s1 & Hs & _ & Ha & Hskip).
  destruct (Hskip eq_refl) as (k & new & Hh & _ & Hcase).
  unfold Router.spawn. rewrite (Hs 0).
  assert (Hd : history (window (detach a s1)) = history (window s1)).
  { destruct Ha as [-> | [j ->]]; reflexivity. }
  rewrite Hd, Hh.
  destruct Hcase as [[-> _]|(_ & -> & _)]; cbn; [left; by rewrite app_nil_r|by right].
Qed.

(** X6.  Replaying a history entry ([popstate]).  The listener calls
    [navigate] with the recorded path, or with the current location when
    the entry records none, with [skipPushState] and without waiting for
    it.  The entry it replays is never pushed: when the listener returns,
    the routes and the listeners are as before and the history is as
    before or has one ['/'] more, pushed by a recovery.  On a page where
    no other call is suspended, the outcome in the end is that of the
    awaited call: no call is left suspended, nothing is reported as
    unhandled, and when the handler of the replayed path returns, the
    history is untouched, that path is the current route and the page is
    the one the handler rendered. *)
Theorem popstate_replay (statePath : option string) s :
  let target := match statePath with
                | Some p => if String.eqb p EmptyString
                            then location_pathname (window s) else p
                | None => location_pathname (window s)
                end in
  let now := onPopstate statePath s in
  let s' := settle now in
  now = spawn target true s
  /\ routes (router now) = routes (router s)
  /\ popstate_listeners (window now) = popstate_listeners (window s)
  /\ (history (window now) = history (window s)
      \/ history (window now) = history (window s) ++ ["/"])
  /\ (suspended (window s) = [] ->
      s' = settle (navigate target true s).2
      /\ routes (router s') = routes (router s)
      /\ popstate_listeners (window s') = popstate_listeners (window s)
      /\ unhandled (window s') = unhandled (window s)
      /\ suspended (window s') = []
      /\ (history (window s') = history (window s)
          \/ history (window s') = history (window s) ++ ["/"])
      /\ (forall h p,
            routes (router s) !! target = Some h ->
            awaited (h target (page (window s))) = (Normal tt, p) ->
            history (window s') = history (window s)
            /\ getCurrentRoute s' = Some target
            /\ page (window s') = p)).
Proof.
  intros target now s'. subst now s'. unfold Router.onPopstate. fold target.
  destruct (spawn_kept browser target true s) as (N1 & _ & N3 & _).
  split; [reflexivity|]. split; [exact N1|]. split; [exact N3|].
  split; [apply spawn_skip_history|].
  intros Hq.
  destruct (spawn_skip_settled target s Hq) as (E & Q & R1 & _ & R3 & R4 & Hh).
  split; [exact E|]. split; [exact R1|].
  split; [exact R3|]. split; [exact R4|]. split; [exact Q|]. split; [exact Hh|].
  intros h p Hroute Hcall. rewrite E.
  rewrite (navigate_registered browser target target true s h Hroute)
    by discriminate.
  rewrite Hcall. cbn zeta. cbn [snd].
  rewrite settle_quiet by exact Hq. repeat split.
Qed.

(** X29.  When the browser refuses the URL (it resolves to another
    origin), [navigate(path)] runs no handler: [pushState] throws, the
    outer [catch] block logs the error as a critical navigation error
    and the call is fulfilled, with the current route, the history, the
    location and the page as they were and no call suspended.  The same
    path with [skipPushState] is handled as any other. *)
Theorem navigate_refused_by_browser path s h :
  routes (router s) !! path = Some h ->
  resolve browser (location_pathname (window s)) path = None ->
  let refused :=
    log (ConsoleError "Critical navigation error:" (pushStateError browser path)) s in
  navigate path false s = (Normal tt, refused)
  /\ spawn path false s = refused
  /\ getCurrentRoute refused = getCurrentRoute s
  /\ page (window refused) = page (window s)
  /\ (forall p, awaited (h path (page (window s))) = (Normal tt, p) ->
        navigate path true s = (Normal tt, set_page p (set_currentRoute path s))).
Proof.
  intros Hh Hres refused. split; [|split; [|split; [|split]]].
  - apply navigate_refused; eauto.
  - unfold Router.spawn.
    rewrite (navigate_start_registered browser _ path false s h Hh).
    unfold Router.pushState. rewrite Hres. reflexivity.
  - reflexivity.
  - reflexivity.
  - intros p Hcall.
    rewrite (navigate_registered browser path path true s h Hh) by discriminate.
    rewrite Hcall. reflexivity.
Qed.

End WithPage.

Import Demo Samples.

Lemma navigate_registered_returns_witness :
  routes (router twoRoutes) !! "/mfe1" = Some (renders "mfe1")
  /\ awaited (renders "mfe1" "/mfe1" (page (window twoRoutes))) = (Normal tt, ["mfe1"])
  /\ (false = false ->
      resolve browser (location_pathname (window twoRoutes)) "/mfe1" = Some "/mfe1")
  /\ getCurrentRoute (navigate browser "/mfe1" false twoRoutes).2 = Some "/mfe1"
  /\ page (window (navigate browser "/mfe1" false twoRoutes).2) = ["mfe1"]
  /\ history (window (navigate browser "/mfe1" false twoRoutes).2) = ["/mfe1"].
Proof.
  assert (H1 : routes (router twoRoutes) !! "/mfe1" = Some (renders "mfe1"))
    by reflexivity.
  assert (H2 : awaited (renders "mfe1" "/mfe1" (page (window twoRoutes)))
               = (Normal tt, ["mfe1"])) by reflexivity.
  assert (H3 : false = false ->
               resolve browser (location_pathname (window twoRoutes)) "/mfe1"
               = Some "/mfe1") by reflexivity.
  destruct (navigate_registered_returns browser "/mfe1" "/mfe1" false twoRoutes _ _
              H1 H2 H3) as (_ & K1 & K2 & K3 & _).
  split; [exact H1|]. split; [exact H2|]. split; [exact H3|].
  split; [exact K1|]. split; [exact K2|exact K3].
Defined.


(** A route that is rejected after waiting, and a home view that renders
    after waiting: when [navigate] is fulfilled the home view is not on
    the page yet; it is once the recovery has been resumed. *)
Lemma navigate_recovers_home_witness :
  routes (router slowRoutes) !! "/mfe1" = Some failsLater
  /\ awaited (failsLater "/mfe1" (page (window slowRoutes))) = (Throw boom, [])
  /\ "/mfe1" <> "/" /\ "/mfe1" <> "/home"
  /\ routes (router slowRoutes) !! "/" = Some (rendersLater "home")
  /\ suspended (window slowRoutes) = []
  /\ getCurrentRoute (navigate browser "/mfe1" true slowRoutes).2 = Some "/"
  /\ history (window (navigate browser "/mfe1" true slowRoutes).2) = ["/"]
  /\ page (window (navigate browser "/mfe1" true slowRoutes).2) = []
  /\ page (window (settle browser (navigate browser "/mfe1" true slowRoutes).2))
     = ["home"].
Proof.
  assert (H1 : routes (router slowRoutes) !! "/mfe1" = Some failsLater) by reflexivity.
  assert (H2 : awaited (failsLater "/mfe1" (page (window slowRoutes)))
               = (Throw boom, [])) by reflexivity.
  assert (H3 : "/mfe1" <> "/") by discriminate.
  assert (H4 : "/mfe1" <> "/home") by discriminate.
  assert (H5 : routes (router slowRoutes) !! "/" = Some (rendersLater "home"))
    by reflexivity.
  assert (H6 : rendersLater "home" "/" [] = Returned [] (λ p, (Normal tt, p ++ ["home"])))
    by reflexivity.
  assert (H7 : suspended (window slowRoutes) = []) by reflexivity.
  destruct (navigate_recovers_home browser "/mfe1" "/mfe1" true slowRoutes _ _ _ _ _ _
              H1 H2 ltac:(discriminate) H3 H4 H5 H6)
    as (_ & K1 & K2 & _ & K3 & _ & K4).
  destruct (K4 H7) as (K5 & _).
  split; [exact H1|]. split; [exact H2|]. split; [exact H3|]. split; [exact H4|].
  split; [exact H5|]. split; [exact H7|]. split; [exact K1|]. split; [exact K2|].
  split; [exact K3|exact K5].
Defined.

Lemma init_fresh_witness :
  isInitialized (router twoRoutes) = false
  /\ isInitialized (router (init browser twoRoutes).2) = true
  /\ popstate_listeners (window (init browser twoRoutes).2) = 1
  /\ routes (router twoRoutes) !! "/mfe1" = Some (renders "mfe1")
  /\ getCurrentRoute (init browser twoRoutes).2 = Some "/mfe1"
  /\ page (window (init browser twoRoutes).2) = ["mfe1"]
  /\ history (window (settle browser (init browser twoRoutes).2)) = []
  /\ init browser (init browser twoRoutes).2 =
       (Normal tt,
        log (ConsoleWarn "Router already initialized") (init browser twoRoutes).2).
Proof.
  assert (H : isInitialized (router twoRoutes) = false) by reflexivity.
  assert (H1 : routes (router twoRoutes) !! "/mfe1" = Some (renders "mfe1"))
    by reflexivity.
  destruct (init_fresh browser twoRoutes H) as (_ & K1 & K2 & _ & _ & K3 & _ & K4).
  destruct (K3 _ _ _ H1 eq_refl) as (L1 & L2 & _ & _ & L3).
  destruct (L3 eq_refl _ eq_refl) as (_ & _ & L4 & _).
  split; [exact H|]. split; [exact K1|]. split; [exact K2|]. split; [exact H1|].
  split; [exact L1|]. split; [exact L2|]. split; [exact L4|exact K4].
Defined.

Lemma popstate_replay_witness :
  suspended (window twoRoutes) = []
  /\ routes (router twoRoutes) !! "/" = Some (renders "home")
  /\ awaited (renders "home" "/" (page (window twoRoutes))) = (Normal tt, ["home"])
  /\ history (window (onPopstate browser (Some "/") twoRoutes)) = []
  /\ history (window (settle browser (onPopstate browser (Some "/") twoRoutes))) = []
  /\ getCurrentRoute (settle browser (onPopstate browser (Some "/") twoRoutes))
     = Some "/"
  /\ page (window (settle browser (onPopstate browser (Some "/") twoRoutes)))
     = ["home"].
Proof.
  assert (H0 : suspended (window twoRoutes) = []) by reflexivity.
  assert (H1 : routes (router twoRoutes) !! "/" = Some (renders "home")) by reflexivity.
  assert (H2 : awaited (renders "home" "/" (page (window twoRoutes)))
               = (Normal tt, ["home"])) by reflexivity.
  destruct (popstate_replay browser (Some "/") twoRoutes)
    as (_ & _ & _ & _ & K).
  destruct (K H0) as (_ & _ & _ & _ & _ & _ & K').
  destruct (K' _ _ H1 H2) as (K1 & K2 & K3).
  split; [exact H0|]. split; [exact H1|]. split; [exact H2|].
  split; [reflexivity|].
  split; [exact K1|]. split; [exact K2|exact K3].
Defined.

(** ['//evil.example/x'] names another host: a route registered under
    that string is never entered by a navigation that pushes. *)
Lemma navigate_refused_by_browser_witness :
  let s := (register "//evil.example/x" (JsFunction (renders "x")) twoRoutes).2 in
  routes (router s) !! "//evil.example/x" = Some (renders "x")
  /\ resolve browser (location_pathname (window s)) "//evil.example/x" = None
  /\ (navigate browser "//evil.example/x" false s).1 = Normal tt
  /\ page (window (navigate browser "//evil.example/x" false s).2) = []
  /\ getCurrentRoute (navigate browser "//evil.example/x" false s).2 = None
  /\ history (window (navigate browser "//evil.example/x" false s).2) = [].
Proof.
  cbv zeta.
  set (s := (register "//evil.example/x" (JsFunction (renders "x")) twoRoutes).2).
  assert (H1 : routes (router s) !! "//evil.example/x" = Some (renders "x"))
    by reflexivity.
  assert (H2 : resolve browser (location_pathname (window s)) "//evil.example/x" = None)
    by reflexivity.
  destruct (navigate_refused_by_browser browser "//evil.example/x" s _ H1 H2)
    as (K1 & _).
  split; [exact H1|]. split; [exact H2|]. rewrite K1. repeat split.
Defined.

End RouterMore.

(** * More about the loader *)

Module LoaderMore.
Import MfeLoader LoaderSpec.

Section WithRuntime.
Context {Ext : Type} (rt : Runtime Ext).
Implicit Types (s : Sys Ext) (name : string) (md : @MFEMetadata Ext).

Ltac run :=
  unfold bind, ret, gets, log, set_loader, set_document, throw, try_catch.

Ltac step := cbn -[String.append quoted manifest] in *.

(** X7.  [_getOrCreateContainer] with a selector.  A string that is not a
    selector makes it throw with nothing changed.  When the selector
    finds an element, that element is returned and nothing changes.
    When it finds none, a new element is created: it is not one of the
    elements that were there, it is attached and empty, its id is the
    selector without its first ['#'], every other element is as it was,
    and the loader and the console are untouched. *)
Theorem getOrCreateContainer_selector q s :
  (selector_valid rt q = false ->
     exists e, _getOrCreateContainer rt (Selector q) s = (Throw e, s)
               /\ err_name e = "SyntaxError")
  /\ (selector_valid rt q = true ->
      forall c, select rt q (document (world s)) = Some c ->
                _getOrCreateContainer rt (Selector q) s = (Normal (Some c), s))
  /\ (selector_valid rt q = true ->
      select rt q (document (world s)) = None ->
      exists c s',
        _getOrCreateContainer rt (Selector q) s = (Normal (Some c), s')
        /\ elements (document (world s)) !! c = None
        /\ elements (document (world s')) !! c =
             Some {| elem_id := dropFirstHash q; parentNode := true; children := [] |}
        /\ (forall e, e <> c ->
              elements (document (world s')) !! e = elements (document (world s)) !! e)
        /\ loader s' = loader s /\ console s' = console s
        /\ outside (world s') = outside (world s)).
Proof.
  split; [|split].
  - intros Hv. cbn [_getOrCreateContainer]. unfold querySelector. run. rewrite Hv.
    eexists. split; reflexivity.
  - intros Hv c Hc. cbn [_getOrCreateContainer]. unfold querySelector. run.
    rewrite Hv, Hc. reflexivity.
  - intros Hv Hc. cbn [_getOrCreateContainer]. unfold querySelector. run.
    rewrite Hv, Hc. unfold createInBody.
    eexists _, _. split; [reflexivity|]. cbn.
    split; [apply not_elem_of_dom, is_fresh|].
    split; [apply lookup_insert_eq|].
    split; [intros e He; apply lookup_insert_ne; congruence|].
    repeat split.
Qed.

(** The selector ['#x'] gives the new element the id ['x']; a selector
    without ['#'] is taken as the id as it stands. *)
Lemma dropFirstHash_id (id : string) : dropFirstHash (String "#" id) = id.
Proof. reflexivity. Qed.

(** X8.  The federation library is initialized once.  After a fulfilled
    import the loader holds the library's [loadRemoteModule], and every
    later import calls it directly: it settles with what that function
    settles with, the error wrapped with the name of the remote. *)
Theorem federation_initialized_once name s m s1 :
  _importRemoteModule rt name s = (Normal m, s1) ->
  federationInitialized (loader s1) = true
  /\ exists f,
       loadRemoteModule (loader s1) = Some f
       /\ forall name' s2,
            federationInitialized (loader s2) = true ->
            loadRemoteModule (loader s2) = Some f ->
            _initFederation rt s2 = (Normal (Some f), s2)
            /\ loader (_importRemoteModule rt name' s2).2 = loader s2
            /\ (_importRemoteModule rt name' s2).1 =
                 match (f name' "./bootstrap" (world s2)).1 with
                 | Normal m' => Normal m'
                 | Throw e =>
                     Throw (new_Error rt ("Failed to import remote module " +:+
                                          quoted name' +:+ ": " +:+ err_message e))
                 end
            /\ world (_importRemoteModule rt name' s2).2
               = (f name' "./bootstrap" (world s2)).2.
Proof.
  intros H.
  assert (Hlater : forall f name' s2,
            federationInitialized (loader s2) = true ->
            loadRemoteModule (loader s2) = Some f ->
            _initFederation rt s2 = (Normal (Some f), s2)
            /\ loader (_importRemoteModule rt name' s2).2 = loader s2
            /\ (_importRemoteModule rt name' s2).1 =
                 match (f name' "./bootstrap" (world s2)).1 with
                 | Normal m' => Normal m'
                 | Throw e =>
                     Throw (new_Error rt ("Failed to import remote module " +:+
                                          quoted name' +:+ ": " +:+ err_message e))
                 end
            /\ world (_importRemoteModule rt name' s2).2
               = (f name' "./bootstrap" (world s2)).2).
  { intros f name' s2 Hi Hf. split.
    - unfold _initFederation. run. rewrite Hi, Hf. reflexivity.
    - unfold _importRemoteModule, _initFederation. run. unfold call, say. step.
      rewrite Hi. step. rewrite Hf. step.
      destruct (f name' "./bootstrap" (world s2)) as [[m'|e] w]; repeat split. }
  revert H. unfold _importRemoteModule, _initFederation. run. unfold call, say. step.
  destruct (federationInitialized (loader s)) eqn:Hi; step.
  - destruct (loadRemoteModule (loader s)) as [f|] eqn:Hf; step; [|discriminate].
    destruct (f name "./bootstrap" (world s)) as [[m'|e] w]; [|discriminate].
    intros [= <- <-]. step. split; [exact Hi|]. exists f. split; [exact Hf|].
    intros. by apply Hlater.
  - destruct (initFederation rt manifest (world s)) as [[f|e] w]; step; [|discriminate].
    destruct (f name "./bootstrap" w) as [[m'|e] w']; [|discriminate].
    intros [= <- <-]. step. split; [reflexivity|]. exists f. split; [reflexivity|].
    intros. by apply Hlater.
Qed.

(** X9.  A failed initialization of the federation library is not
    remembered: the import rejects with the wrapped error, and the loader
    is exactly as before, so that the next import initializes again. *)
Theorem federation_failure_not_cached name s e w :
  federationInitialized (loader s) = false ->
  initFederation rt manifest (world s) = (Throw e, w) ->
  (_importRemoteModule rt name s).1 =
    Throw (new_Error rt ("Failed to import remote module " +:+ quoted name +:+
                         ": " +:+ err_message e))
  /\ loader (_importRemoteModule rt name s).2 = loader s
  /\ federationInitialized (loader (_importRemoteModule rt name s).2) = false
  /\ world (_importRemoteModule rt name s).2 = w.
Proof.
  intros Hi Hf. unfold _importRemoteModule, _initFederation. run. unfold call, say. step.
  rewrite Hi. step. rewrite Hf. step. repeat split. exact Hi.
Qed.

(** X10.  A module without a callable mount: [_bootstrapMFE] throws before
    it calls or logs anything.  The first truthy one of [mount],
    [bootstrap] and [default.mount] is the only one considered, so a
    [mount] that is not a function hides a [bootstrap] that is. *)
Theorem bootstrap_without_mount m c opts s :
  mod_mount m = NotCallable
  \/ (forall f, or_else (mod_mount m)
                  (or_else (mod_bootstrap m) (mod_default_mount m)) <> Callable f) ->
  _bootstrapMFE rt m c opts s =
    (Throw (new_Error rt "Remote module does not export a mount or bootstrap function"),
     s).
Proof.
  intros H. unfold _bootstrapMFE.
  destruct (or_else _ _) as [| |f] eqn:Hp; try reflexivity.
  destruct H as [H|H]; [|by destruct (H f)].
  rewrite H in Hp. discriminate.
Qed.

(** X11.  When the mount function resolves to an object with a callable
    [unmount], [_bootstrapMFE] hands that object back and writes no
    warning; when the mount function throws, its error is passed on as it
    is and "MFE mounted successfully" is not logged. *)
Theorem bootstrap_passes_result m c opts s mountFn :
  or_else (mod_mount m) (or_else (mod_bootstrap m) (mod_default_mount m))
    = Callable mountFn ->
  (forall o u w,
     mountFn c opts (world s) = (Normal (Some o), w) ->
     obj_unmount o = Callable u ->
     _bootstrapMFE rt m c opts s =
       (Normal (FromRemote o),
        {| loader := loader s;
           console := console s ++ [ConsoleLog "Calling MFE mount function...";
                                    ConsoleLog "MFE mounted successfully"];
           world := w |}))
  /\ (forall e w,
        mountFn c opts (world s) = (Throw e, w) ->
        _bootstrapMFE rt m c opts s =
          (Throw e,
           {| loader := loader s;
              console := console s ++ [ConsoleLog "Calling MFE mount function..."];
              world := w |})).
Proof.
  intros Hpick. split.
  - intros o u w Hm Hu. unfold _bootstrapMFE. rewrite Hpick. run. unfold call, say. step.
    rewrite Hm. step. rewrite Hu. step. rewrite <- app_assoc. reflexivity.
  - intros e w Hm. unfold _bootstrapMFE. rewrite Hpick. run. unfold call, say. step.
    rewrite Hm. reflexivity.
Qed.

(** [_displayError] never touches the loader. *)
Lemma displayError_keeps_loader sel name e s :
  loader (_displayError rt sel name e s).2 = loader s.
Proof.
  unfold _displayError, querySelector, readGlobalContainer. run.
  destruct sel as [q|c|]; try reflexivity.
  destruct (selector_valid rt q).
  - destruct (select rt q _); reflexivity.
  - cbn [say world].
    destruct (elementsWithId "container" (document (world s))) as [|el [|el' l]];
      reflexivity.
Qed.

Lemma loadFailed_keeps_loader name sel e s :
  loader (loadFailed rt name sel e s).2 = loader s.
Proof.
  unfold loadFailed. run.
  pose proof (displayError_keeps_loader sel name e
                (say (ConsoleError ("Failed to load MFE " +:+ quoted name +:+ ":") e) s))
    as H.
  destruct (_displayError rt sel name e _) as [[[]|e'] s']; exact H.
Qed.

(** The map after [loadMFE], by its outcome. *)
Lemma loadMFE_map name sel opts s :
  match (loadMFE rt name sel opts s).1 with
  | Normal r =>
      loadedMFEs (loader (loadMFE rt name sel opts s).2)
        = <[name := res_metadata r]> (loadedMFEs (loader s))
  | Throw _ =>
      loadedMFEs (loader (loadMFE rt name sel opts s).2) = loadedMFEs (loader s)
      \/ loadedMFEs (loader (loadMFE rt name sel opts s).2)
         = delete name (loadedMFEs (loader s))
  end.
Proof.
  rewrite loadMFE_steps.
  pose proof (getOrCreateContainer_loader rt sel
                (say (ConsoleLog ("Loading MFE: " +:+ name)) s)) as Hl.
  destruct (_getOrCreateContainer rt sel _) as [[[c|]|e] s1]; cbn [snd say loader] in Hl.
  2: { set (e0 := new_Error rt _).
       pose proof (loadFailed_keeps_loader name sel e0 s1) as Hf.
       destruct (loadFailed_throws rt name sel e0 s1) as (e' & s' & Heq).
       rewrite Heq in Hf |- *. cbn [fst snd] in Hf |- *. left. by rewrite Hf, Hl. }
  2: { pose proof (loadFailed_keeps_loader name sel e s1) as Hf.
       destruct (loadFailed_throws rt name sel e s1) as (e' & s' & Heq).
       rewrite Heq in Hf |- *. cbn [fst snd] in Hf |- *. left. by rewrite Hf, Hl. }
  pose proof (unloadIfLoaded_map rt name s1) as Hu. rewrite Hl in Hu.
  pose proof (importRemoteModule_map rt name (unloadIfLoaded rt name s1).2) as [Hi _].
  destruct (_importRemoteModule rt name _) as [[m|e] s3]; cbn [snd] in Hi.
  2: { pose proof (loadFailed_keeps_loader name sel e s3) as Hf.
       destruct (loadFailed_throws rt name sel e s3) as (e' & s' & Heq).
       rewrite Heq in Hf |- *. cbn [fst snd] in Hf |- *. right. by rewrite Hf, Hi. }
  pose proof (bootstrapMFE_loader rt m c opts s3) as Hb.
  destruct (_bootstrapMFE rt m c opts s3) as [[inst|e] s4]; cbn [snd] in Hb.
  2: { pose proof (loadFailed_keeps_loader name sel e s4) as Hf.
       destruct (loadFailed_throws rt name sel e s4) as (e' & s' & Heq).
       rewrite Heq in Hf |- *. cbn [fst snd] in Hf |- *. right. by rewrite Hf, Hb, Hi. }
  cbn [fst snd say loader store set_currentMFE map_set loadedMFEs].
  rewrite Hb, Hi, Hu. apply insert_delete_eq.
Qed.

(** X12.  [loadMFE(name, ...)] never touches the entry of another name,
    however it ends: fulfilled, rejected with the wrapped error, or
    rejected by the failing error display. *)
Theorem loadMFE_keeps_others name sel opts s n :
  n <> name ->
  getMFEMetadata n (loadMFE rt name sel opts s).2 = getMFEMetadata n s
  /\ isLoaded n (loadMFE rt name sel opts s).2 = isLoaded n s.
Proof.
  intros Hn.
  assert (H : getMFEMetadata n (loadMFE rt name sel opts s).2 = getMFEMetadata n s).
  { unfold getMFEMetadata. pose proof (loadMFE_map name sel opts s) as Hm.
    destruct (loadMFE rt name sel opts s).1 as [r|e].
    - rewrite Hm. apply lookup_insert_ne. congruence.
    - destruct Hm as [-> | ->]; [reflexivity|]. apply lookup_delete_ne. congruence. }
  split; [exact H|]. unfold isLoaded. unfold getMFEMetadata in H. by rewrite H.
Qed.

(** The state after a fulfilled [loadMFE]. *)
Lemma loadMFE_fulfilled_state name sel opts s r s' :
  loadMFE rt name sel opts s = (Normal r, s') ->
  loadedMFEs (loader s') = <[name := res_metadata r]> (loadedMFEs (loader s))
  /\ md_name (res_metadata r) = name
  /\ md_options (res_metadata r) = opts
  /\ res_unmount r = name
  /\ hasUnmount (md_instance (res_metadata r)) = true
  /\ getCurrentMFE s' = Some name
  /\ (forall n, getCurrentMFE s' = Some n -> isLoaded n s' = true).
Proof.
  intros H.
  pose proof (loadMFE_map name sel opts s) as Hm. rewrite H in Hm. cbn [fst snd] in Hm.
  destruct (loadMFE_stores rt _ _ _ _ _ _ H) as (Hs & Hc & Hu).
  destruct (loadMFE_success rt _ _ _ _ _ _ H) as (c & s1 & m & s3 & s4 & _ & _ & _ & Hr & _).
  split; [exact Hm|]. rewrite Hr at 1 2 3. cbn [res_metadata md_name md_options res_unmount].
  repeat split; try assumption.
  intros n Hn. rewrite Hc in Hn. injection Hn as <-.
  apply isLoaded_true. unfold getMFEMetadata in Hs. eauto.
Qed.

(** X13.  What a fulfilled [loadMFE(name, c, options)] leaves behind: the
    map is the old one with the entry of [name] set to the returned
    metadata, which carries [name], the options and an instance with a
    callable [unmount]; [name] is the current MFE and is loaded, so the
    current-MFE pointer names a loaded MFE whatever it was before. *)
Theorem loadMFE_fulfilled name sel opts s r s' :
  loadMFE rt name sel opts s = (Normal r, s') ->
  loadedMFEs (loader s') = <[name := res_metadata r]> (loadedMFEs (loader s))
  /\ md_name (res_metadata r) = name
  /\ md_options (res_metadata r) = opts
  /\ res_unmount r = name
  /\ hasUnmount (md_instance (res_metadata r)) = true
  /\ getCurrentMFE s' = Some name
  /\ (forall n, getCurrentMFE s' = Some n -> isLoaded n s' = true).
Proof. exact (loadMFE_fulfilled_state name sel opts s r s'). Qed.

(** X14.  Load, then unload.  If [name] was not loaded, [loadMFE] is
    fulfilled and the teardown of the instance returns, then
    [unloadMFE(name)] resolves to [true], the map is back to what it was
    before the load, no MFE is current, and the container, if it is still
    attached after the teardown, has no children. *)
Theorem load_then_unload name sel opts s r s1 st :
  loadedMFEs (loader s) !! name = None ->
  loadMFE rt name sel opts s = (Normal r, s1) ->
  teardown (md_instance (res_metadata r))
    (say (ConsoleLog ("Unloading MFE: " +:+ name)) s1) = (Normal tt, st) ->
  (unloadMFE rt name s1).1 = Normal true
  /\ loadedMFEs (loader (unloadMFE rt name s1).2) = loadedMFEs (loader s)
  /\ isLoaded name (unloadMFE rt name s1).2 = false
  /\ getCurrentMFE (unloadMFE rt name s1).2 = None
  /\ (parentNode (getElement (md_container (res_metadata r))
                    (document (world st))) = true ->
      children (getElement (md_container (res_metadata r))
                  (document (world (unloadMFE rt name s1).2))) = []).
Proof.
  intros Hnone Hload Htd.
  destruct (loadMFE_fulfilled_state _ _ _ _ _ _ Hload) as (Hm & _ & _ & _ & _ & Hc & _).
  destruct (loadMFE_stores rt _ _ _ _ _ _ Hload) as (Hs & _ & _).
  pose proof (unloadMFE_map rt name s1) as Hmap.
  pose proof (teardown_loader (md_instance (res_metadata r))
                (say (ConsoleLog ("Unloading MFE: " +:+ name)) s1)) as Hl.
  rewrite Htd in Hl. cbn [snd say loader] in Hl.
  split; [|split; [|split; [apply unloadMFE_isLoaded|split]]].
  - rewrite (unloadMFE_loaded rt name s1 _ Hs), Htd. reflexivity.
  - rewrite Hmap, Hm, delete_insert_eq. by apply delete_id.
  - rewrite (unloadMFE_loaded rt name s1 _ Hs), Htd. cbn.
    rewrite Hl. unfold getCurrentMFE in Hc. rewrite Hc.
    rewrite bool_decide_eq_true_2 by reflexivity. reflexivity.
  - intros Hp. rewrite (unloadMFE_loaded rt name s1 _ Hs), Htd. cbn.
    unfold clearIfAttached. rewrite Hp.
    unfold getElement, set_innerHTML. cbn [elements].
    rewrite lookup_insert_eq. reflexivity.
Qed.

(** X15.  The current-MFE pointer across [unloadMFE(name)] of a loaded
    MFE.  When the teardown returns, the pointer is cleared if it named
    [name] and kept otherwise; no other loaded MFE becomes current.  When
    the teardown throws, the pointer is left as it was. *)
Theorem unloadMFE_current name s md c st :
  getMFEMetadata name s = Some md ->
  teardown (md_instance md) (say (ConsoleLog ("Unloading MFE: " +:+ name)) s) = (c, st) ->
  getCurrentMFE (unloadMFE rt name s).2 =
    match c with
    | Normal _ => if bool_decide (getCurrentMFE s = Some name)
                  then None else getCurrentMFE s
    | Throw _ => getCurrentMFE s
    end.
Proof.
  intros Hmd Htd.
  pose proof (teardown_loader (md_instance md)
                (say (ConsoleLog ("Unloading MFE: " +:+ name)) s)) as Hl.
  rewrite Htd in Hl. cbn [snd say loader] in Hl.
  rewrite (unloadMFE_loaded rt name s md Hmd), Htd.
  destruct c as [[]|e]; cbn; unfold getCurrentMFE; rewrite Hl; [|reflexivity].
  destruct (bool_decide (currentMFE (loader s) = Some name)); reflexivity.
Qed.

(** The keys kept beside the entries are the keys of the entries. *)
Local Abbreviation consistent ks m :=
  (NoDup ks%list /\ forall n : string, n ∈ ks%list <-> is_Some (m !! n)).

Lemma consistent_delete name (keys : list string) (m : gmap string (@MFEMetadata Ext)) :
  consistent keys m -> consistent (filter (λ k, k ≠ name) keys) (delete name m).
Proof.
  intros [Hnd Hin]. split; [by apply NoDup_filter|].
  intros n. rewrite list_elem_of_filter, lookup_delete_is_Some, Hin.
  split; intros [H1 H2]; split; auto.
Qed.

Lemma consistent_set name md (keys : list string) (m : gmap string (@MFEMetadata Ext)) :
  consistent keys m ->
  consistent (if bool_decide (is_Some (m !! name)) then keys else keys ++ [name])
             (<[name := md]> m).
Proof.
  intros [Hnd Hin]. case_bool_decide as Hhas.
  - split; [exact Hnd|]. intros n. rewrite lookup_insert_is_Some, Hin.
    split; [intros H|intros [<- | [_ H]]; [exact Hhas|exact H]].
    destruct (decide (name = n)); auto.
  - split.
    + apply NoDup_app. split; [exact Hnd|]. split; [|apply NoDup_singleton].
      intros n Hn ->%list_elem_of_singleton. apply Hhas, Hin, Hn.
    + intros n. rewrite elem_of_app, list_elem_of_singleton, lookup_insert_is_Some, Hin.
      split.
      * intros [H | ->]; [|by left]. destruct (decide (name = n)); auto.
      * intros [<- | [_ H]]; auto.
Qed.

Lemma absent_not_filtered name (keys : list string) :
  name ∉ keys -> filter (λ k, k ≠ name) keys = keys.
Proof.
  induction keys as [|a keys IH]; [reflexivity|].
  intros [Ha Hkeys]%not_elem_of_cons.
  rewrite filter_cons_True by congruence.
  f_equal. by apply IH.
Qed.

(** [unloadMFE] and [loadMFE] keep the keys in step with the entries. *)
Lemma unloadMFE_consistent name s :
  consistent (getLoadedMFEs s) (loadedMFEs (loader s)) ->
  consistent (getLoadedMFEs (unloadMFE rt name s).2)
             (loadedMFEs (loader (unloadMFE rt name s).2))
  /\ getLoadedMFEs (unloadMFE rt name s).2
     = filter (λ k, k ≠ name) (getLoadedMFEs s).
Proof.
  intros Hc.
  assert (Hk : getLoadedMFEs (unloadMFE rt name s).2
               = filter (λ k, k ≠ name) (getLoadedMFEs s)).
  { rewrite unloadMFE_keys. destruct (isLoaded name s) eqn:Hl; [reflexivity|].
    symmetry. apply absent_not_filtered. intros Hin. apply Hc in Hin.
    apply isLoaded_false in Hl. rewrite Hl in Hin. by destruct Hin. }
  split; [|exact Hk]. rewrite Hk, unloadMFE_map. by apply consistent_delete.
Qed.

Lemma unloadIfLoaded_consistent name s :
  consistent (getLoadedMFEs s) (loadedMFEs (loader s)) ->
  consistent (getLoadedMFEs (unloadIfLoaded rt name s).2)
             (loadedMFEs (loader (unloadIfLoaded rt name s).2))
  /\ getLoadedMFEs (unloadIfLoaded rt name s).2
     = filter (λ k, k ≠ name) (getLoadedMFEs s).
Proof.
  intros Hc.
  assert (Hk : getLoadedMFEs (unloadIfLoaded rt name s).2
               = filter (λ k, k ≠ name) (getLoadedMFEs s)).
  { rewrite unloadIfLoaded_keys. destruct (isLoaded name s) eqn:Hl; [reflexivity|].
    symmetry. apply absent_not_filtered. intros Hin. apply Hc in Hin.
    apply isLoaded_false in Hl. rewrite Hl in Hin. by destruct Hin. }
  split; [|exact Hk]. rewrite Hk, unloadIfLoaded_map. by apply consistent_delete.
Qed.

Lemma loadMFE_consistent name sel opts s :
  consistent (getLoadedMFEs s) (loadedMFEs (loader s)) ->
  consistent (getLoadedMFEs (loadMFE rt name sel opts s).2)
             (loadedMFEs (loader (loadMFE rt name sel opts s).2)).
Proof.
  intros Hc. rewrite loadMFE_steps. unfold getLoadedMFEs in *.
  pose proof (getOrCreateContainer_loader rt sel
                (say (ConsoleLog ("Loading MFE: " +:+ name)) s)) as Hl.
  destruct (_getOrCreateContainer rt sel _) as [[[c|]|e] s1]; cbn [snd say loader] in Hl.
  2,3: rewrite loadFailed_keeps_loader, Hl; exact Hc.
  destruct (unloadIfLoaded_consistent name s1) as [Hu _].
  { unfold getLoadedMFEs. rewrite Hl. exact Hc. }
  unfold getLoadedMFEs in Hu.
  pose proof (importRemoteModule_map rt name (unloadIfLoaded rt name s1).2) as [Hi _].
  pose proof (importRemoteModule_keys rt name (unloadIfLoaded rt name s1).2) as Hk.
  unfold getLoadedMFEs in Hk.
  destruct (_importRemoteModule rt name _) as [[m|e] s3]; cbn [snd] in Hi, Hk.
  2: { rewrite loadFailed_keeps_loader, Hi, Hk. exact Hu. }
  pose proof (bootstrapMFE_loader rt m c opts s3) as Hb.
  destruct (_bootstrapMFE rt m c opts s3) as [[inst|e] s4]; cbn [snd] in Hb.
  2: { rewrite loadFailed_keeps_loader, Hb, Hi, Hk. exact Hu. }
  cbn [snd say loader store set_currentMFE map_set loadedKeys loadedMFEs].
  rewrite Hb. apply consistent_set. rewrite Hi, Hk. exact Hu.
Qed.

(** X16.  [getLoadedMFEs()] lists the loaded names in the order in which
    they were loaded.  As long as the keys are those of the entries,
    which [unloadMFE] and [loadMFE] preserve however they end, the list
    has no duplicates, holds a name exactly when [isLoaded] says so and
    is as long as the map is large; [unloadMFE(name)] takes [name] out
    and keeps the order of the others, and a fulfilled
    [loadMFE(name, ...)] puts [name] last, also when it was loaded
    before: a reloaded MFE moves to the end. *)
Theorem getLoadedMFEs_spec name sel opts s :
  consistent (getLoadedMFEs s) (loadedMFEs (loader s)) ->
  NoDup (getLoadedMFEs s)
  /\ (forall n, n ∈ getLoadedMFEs s <-> isLoaded n s = true)
  /\ length (getLoadedMFEs s) = size (loadedMFEs (loader s))
  /\ consistent (getLoadedMFEs (unloadMFE rt name s).2)
                (loadedMFEs (loader (unloadMFE rt name s).2))
  /\ consistent (getLoadedMFEs (loadMFE rt name sel opts s).2)
                (loadedMFEs (loader (loadMFE rt name sel opts s).2))
  /\ getLoadedMFEs (unloadMFE rt name s).2 = filter (λ k, k ≠ name) (getLoadedMFEs s)
  /\ (forall r s', loadMFE rt name sel opts s = (Normal r, s') ->
        getLoadedMFEs s' = filter (λ k, k ≠ name) (getLoadedMFEs s) ++ [name]).
Proof.
  intros Hc. pose proof Hc as [Hnd Hin].
  split; [exact Hnd|]. split.
  { intros n. rewrite isLoaded_true. apply Hin. }
  split.
  { rewrite <- length_map_to_list, <- (length_fmap fst).
    apply Permutation_length, NoDup_Permutation;
      [exact Hnd|apply NoDup_fst_map_to_list|].
    intros n. rewrite Hin, list_elem_of_fmap. split.
    - intros [md H]. exists (n, md). split; [reflexivity|].
      by apply elem_of_map_to_list.
    - intros ([n' md] & -> & H). apply elem_of_map_to_list in H. cbn. eauto. }
  destruct (unloadMFE_consistent name s Hc) as [Hu Hk].
  split; [exact Hu|]. split; [by apply loadMFE_consistent|]. split; [exact Hk|].
  intros r s' H. rewrite (loadMFE_keys rt _ _ _ _ _ _ H).
  destruct (isLoaded name s) eqn:Hl; [reflexivity|].
  f_equal. symmetry. apply absent_not_filtered. intros Hn. apply Hin in Hn.
  apply isLoaded_false in Hl. rewrite Hl in Hn. by destruct Hn.
Qed.

Local Abbreviation federationReady l :=
  (federationInitialized l = true -> is_Some (loadRemoteModule l)).

Lemma importRemoteModule_federation name s :
  federationReady (loader s) ->
  federationReady (loader (_importRemoteModule rt name s).2).
Proof.
  unfold _importRemoteModule, _initFederation. run. unfold call, say. step.
  destruct (federationInitialized (loader s)) eqn:Hi; step.
  - destruct (loadRemoteModule (loader s)) as [f|] eqn:Hf; step.
    + destruct (f name "./bootstrap" (world s)) as [[m|e] w]; step;
        rewrite Hi, Hf; eauto.
    + rewrite Hi, Hf. auto.
  - destruct (initFederation rt manifest (world s)) as [[f|e] w]; step.
    + destruct (f name "./bootstrap" w) as [[m|e] w']; step; eauto.
    + rewrite Hi. discriminate.
Qed.

(** X17.  The federation fields stay consistent: a new loader has no
    runtime and is not marked initialized, and [loadMFE] and [unloadMFE]
    keep the rule that a loader marked initialized holds the library's
    [loadRemoteModule]; [unloadMFE] does not touch these fields at all. *)
Theorem federation_fields_consistent name sel opts s :
  federationInitialized (@new_MFELoader Ext) = false
  /\ federationInitialized (loader (unloadMFE rt name s).2) = federationInitialized (loader s)
  /\ loadRemoteModule (loader (unloadMFE rt name s).2) = loadRemoteModule (loader s)
  /\ (federationReady (loader s) ->
      federationReady (loader (loadMFE rt name sel opts s).2)).
Proof.
  split; [reflexivity|]. split; [apply unloadMFE_federation|].
  split; [apply unloadMFE_federation|].
  intros Hs. rewrite loadMFE_steps.
  pose proof (getOrCreateContainer_loader rt sel
                (say (ConsoleLog ("Loading MFE: " +:+ name)) s)) as Hl.
  destruct (_getOrCreateContainer rt sel _) as [[[c|]|e] s1]; cbn [snd say loader] in Hl.
  2: { rewrite loadFailed_keeps_loader, Hl. exact Hs. }
  2: { rewrite loadFailed_keeps_loader, Hl. exact Hs. }
  assert (Hu : federationReady (loader (unloadIfLoaded rt name s1).2)).
  { rewrite unloadIfLoaded_state. destruct (isLoaded name s1); [|by rewrite Hl].
    destruct (unloadMFE_federation rt name
                (say (ConsoleWarn ("MFE " +:+ quoted name +:+
                                   " is already loaded. Unloading first.")) s1))
      as [-> ->]. cbn [say loader]. by rewrite Hl. }
  pose proof (importRemoteModule_federation name _ Hu) as Hi.
  destruct (_importRemoteModule rt name _) as [[m|e] s3]; cbn [snd] in Hi.
  2: { rewrite loadFailed_keeps_loader. exact Hi. }
  pose proof (bootstrapMFE_loader rt m c opts s3) as Hb.
  destruct (_bootstrapMFE rt m c opts s3) as [[inst|e] s4]; cbn [snd] in Hb.
  2: { rewrite loadFailed_keeps_loader, Hb. exact Hi. }
  cbn. rewrite Hb. exact Hi.
Qed.

(** [loadMFE] with a string that is not a selector, step by step. *)
Lemma loadMFE_invalid_selector_eq name q opts s :
  selector_valid rt q = false ->
  exists e',
    err_name e' = "SyntaxError"
    /\ loadMFE rt name (Selector q) opts s =
         let s1 :=
           say (ConsoleError "Failed to display error message:" e')
             (say (ConsoleError ("Failed to load MFE " +:+ quoted name +:+ ":") e')
                (say (ConsoleLog ("Loading MFE: " +:+ name)) s)) in
         let wrapped :=
           new_Error rt ("MFE load failed: " +:+ name +:+ " - " +:+ err_message e') in
         match elementsWithId "container" (document (world s)) with
         | [] => (Throw (containerNotDefined rt), s1)
         | [el] =>
             (Throw wrapped,
              {| loader := loader s; console := console s1;
                 world := {| document := set_innerHTML el [minimalMessage name]
                                           (document (world s));
                             outside := outside (world s) |} |})
         | _ => (Throw wrapped, s1)
         end.
Proof.
  intros Hv.
  exists (mkJsError "SyntaxError"
            ("Failed to execute 'querySelector' on 'Document': '" +:+ q +:+
             "' is not a valid selector.")
            (stack_trace rt q)).
  split; [reflexivity|].
  rewrite loadMFE_steps. cbn [_getOrCreateContainer].
  unfold loadFailed, _displayError, querySelector, readGlobalContainer. run.
  rewrite Hv. cbn [say world document]. rewrite ?Hv. cbv zeta.
  destruct (elementsWithId "container" (document (world s))) as [|el [|el' l]];
    reflexivity.
Qed.

(** X18.  [loadMFE] with a string that is not a selector: the loader is
    left as it was and three lines are written to the console.  When no
    element of the document has the id ['container'], the call is
    rejected with the ReferenceError of the error display, not with the
    wrapped error, and the document does not change.  When exactly one
    element has that id, the minimal message is written into it,
    whatever it is there for, and the call is rejected with the wrapped
    error.  When several elements have that id, the call is rejected
    with the wrapped error and the document does not change. *)
Theorem loadMFE_invalid_selector name q opts s :
  selector_valid rt q = false ->
  let named := elementsWithId "container" (document (world s)) in
  let after := (loadMFE rt name (Selector q) opts s).2 in
  loader after = loader s
  /\ length (console after) = length (console s) + 3
  /\ outside (world after) = outside (world s)
  /\ (named = [] ->
      (loadMFE rt name (Selector q) opts s).1 = Throw (containerNotDefined rt)
      /\ world after = world s)
  /\ (forall el, named = [el] ->
      (exists e', err_name e' = "SyntaxError"
                  /\ (loadMFE rt name (Selector q) opts s).1 =
                       Throw (new_Error rt ("MFE load failed: " +:+ name +:+ " - " +:+
                                            err_message e')))
      /\ document (world after)
         = set_innerHTML el [minimalMessage name] (document (world s)))
  /\ (2 <= length named ->
      (exists e', err_name e' = "SyntaxError"
                  /\ (loadMFE rt name (Selector q) opts s).1 =
                       Throw (new_Error rt ("MFE load failed: " +:+ name +:+ " - " +:+
                                            err_message e')))
      /\ world after = world s).
Proof.
  intros Hv named after. subst named after.
  destruct (loadMFE_invalid_selector_eq name q opts s Hv) as (e' & He' & ->).
  cbv zeta.
  destruct (elementsWithId "container" (document (world s))) as [|el [|el' l]];
    cbn [fst snd loader console world document outside say].
  - split; [reflexivity|]. split; [rewrite !length_app; cbn; lia|].
    split; [reflexivity|]. split; [|split; [intros el [=]|cbn; lia]].
    intros _. split; reflexivity.
  - split; [reflexivity|]. split; [rewrite !length_app; cbn; lia|].
    split; [reflexivity|]. split; [intros [=]|]. split; [|cbn; lia].
    intros el0 [= <-]. split; [|reflexivity].
    exists e'. split; [exact He'|reflexivity].
  - split; [reflexivity|]. split; [rewrite !length_app; cbn; lia|].
    split; [reflexivity|]. split; [intros [=]|]. split; [intros el0 [=]|].
    intros _. split; [|reflexivity].
    exists e'. split; [exact He'|reflexivity].
Qed.

(** Emptying an element and appending one view to it. *)
Lemma appendChild_after_clear t n d :
  elements (appendChild t n (set_innerHTML t [] d)) !! t =
    Some {| elem_id := elem_id (getElement t d);
            parentNode := parentNode (getElement t d);
            children := [n] |}
  /\ forall el, el <> t ->
       elements (appendChild t n (set_innerHTML t [] d)) !! el = elements d !! el.
Proof.
  unfold appendChild. cbn [elements].
  assert (Hg : getElement t (set_innerHTML t [] d) =
               {| elem_id := elem_id (getElement t d);
                  parentNode := parentNode (getElement t d);
                  children := [] |}).
  { unfold getElement at 1, set_innerHTML. cbn [elements].
    rewrite lookup_insert_eq. reflexivity. }
  rewrite Hg. cbn [elem_id parentNode children app]. split.
  - apply lookup_insert_eq.
  - intros el Hne. rewrite lookup_insert_ne by congruence.
    unfold set_innerHTML. cbn [elements]. apply lookup_insert_ne. congruence.
Qed.

(** X19.  [_displayError] with an element, [null] or a valid selector
    returns normally.  The element it designates, if any, keeps its id
    and its parent and holds the fallback view and nothing else; every
    other element, the loader and the console are untouched.  When it
    designates none, nothing changes at all. *)
Theorem displayError_renders sel name e s :
  match sel with Selector q => selector_valid rt q = true | _ => True end ->
  let view := ErrorBoundary.createMFEFallback name e
                (Some (RetryLoad name sel)) (Some GoHomeRouter) in
  let target := match sel with
                | Selector q => select rt q (document (world s))
                | ElementRef el => Some el
                | Null => None
                end in
  let s' := (_displayError rt sel name e s).2 in
  (_displayError rt sel name e s).1 = Normal tt
  /\ loader s' = loader s /\ console s' = console s
  /\ outside (world s') = outside (world s)
  /\ match target with
     | Some t =>
         children (getElement t (document (world s'))) = [view]
         /\ elem_id (getElement t (document (world s')))
            = elem_id (getElement t (document (world s)))
         /\ parentNode (getElement t (document (world s')))
            = parentNode (getElement t (document (world s)))
         /\ forall el, el <> t ->
              elements (document (world s')) !! el = elements (document (world s)) !! el
     | None => s' = s
     end.
Proof.
  intros Hv view target s'. subst s' target.
  unfold _displayError, querySelector. run. step.
  assert (Hel : forall t d,
    children (getElement t (appendChild t view (set_innerHTML t [] d))) = [view]
    /\ elem_id (getElement t (appendChild t view (set_innerHTML t [] d)))
       = elem_id (getElement t d)
    /\ parentNode (getElement t (appendChild t view (set_innerHTML t [] d)))
       = parentNode (getElement t d)
    /\ forall el, el <> t ->
         elements (appendChild t view (set_innerHTML t [] d)) !! el = elements d !! el).
  { intros t d. destruct (appendChild_after_clear t view d) as [Ht Ho].
    assert (Hg : getElement t (appendChild t view (set_innerHTML t [] d)) =
                 {| elem_id := elem_id (getElement t d);
                    parentNode := parentNode (getElement t d);
                    children := [view] |})
      by (unfold getElement at 1; rewrite Ht; reflexivity).
    rewrite Hg. cbn [children elem_id parentNode].
    split; [reflexivity|]. split; [reflexivity|]. split; [reflexivity|exact Ho]. }
  destruct sel as [q|el|]; step.
  - rewrite Hv. step. destruct (select rt q _) as [t|]; step.
    + repeat split; try apply Hel.
    + repeat split.
  - repeat split; try apply Hel.
  - repeat split.
Qed.

(** A rejected [loadMFE] into an element went through the [catch] block
    with the error of the step that failed. *)
Lemma loadMFE_element_rejected name c opts s e :
  (loadMFE rt name (ElementRef c) opts s).1 = Throw e ->
  exists e0 s3, loadMFE rt name (ElementRef c) opts s
                = loadFailed rt name (ElementRef c) e0 s3.
Proof.
  rewrite loadMFE_steps. cbn [_getOrCreateContainer]. unfold ret.
  destruct (_importRemoteModule rt name _) as [[m|e1] s3]; [|eauto].
  destruct (_bootstrapMFE rt m c opts s3) as [[inst|e1] s4]; [discriminate|eauto].
Qed.

(** X20.  The retry button.  The closure never rejects, whatever the
    container argument is and however the load ends.  When the load is
    fulfilled it leaves what the load leaves.  When a load into an
    element is rejected again, the element holds one fallback view, that
    of the new failure, and not two. *)
Theorem retry_settles name sel s :
  (Boundary.retry rt name sel s).1 = Normal tt
  /\ (forall r s', loadMFE rt name sel [] s = (Normal r, s') ->
                   (Boundary.retry rt name sel s).2 = s')
  /\ (forall c e,
        sel = ElementRef c ->
        (loadMFE rt name sel [] s).1 = Throw e ->
        exists e0,
          err_message e = "MFE load failed: " +:+ name +:+ " - " +:+ err_message e0
          /\ children (getElement c (document (world (Boundary.retry rt name sel s).2)))
             = [ErrorBoundary.createMFEFallback name e0
                  (Some (RetryLoad name sel)) (Some GoHomeRouter)]).
Proof.
  split; [|split].
  - unfold Boundary.retry. run.
    destruct (loadMFE rt name sel [] s) as [[r|e] s']; reflexivity.
  - intros r s' H. unfold Boundary.retry. run. rewrite H. reflexivity.
  - intros c e -> H.
    destruct (loadMFE_element_rejected name c [] s e H) as (e0 & s3 & Heq).
    exists e0. unfold Boundary.retry. run. revert H. rewrite Heq.
    rewrite (loadFailed_valid rt name (ElementRef c) e0 s3 I).
    cbn [fst snd say world document]. intros [= <-].
    split; [reflexivity|]. apply children_appendChild.
Qed.

Local Abbreviation currentLoaded s :=
  (forall n, getCurrentMFE s = Some n -> isLoaded n s = true).

Lemma currentLoaded_loader s s' :
  loader s' = loader s -> currentLoaded s -> currentLoaded s'.
Proof. unfold getCurrentMFE, isLoaded. intros ->. exact id. Qed.

Lemma currentLoaded_keys s' s :
  loader s' = loader s ->
  forall n, (getCurrentMFE s' = Some n -> isLoaded n s' = true)
            = (getCurrentMFE s = Some n -> isLoaded n s = true).
Proof. unfold getCurrentMFE, isLoaded. intros ->. reflexivity. Qed.

Lemma unloadMFE_keeps_current_loaded name s :
  currentLoaded s ->
  (forall md, getMFEMetadata name s = Some md ->
     forall w e, (teardown (md_instance md) w).1 <> Throw e) ->
  currentLoaded (unloadMFE rt name s).2.
Proof.
  intros Hinv Htd.
  destruct (loadedMFEs (loader s) !! name) as [md|] eqn:Hmd.
  - apply (unloadMFE_current_loaded rt name s Hinv).
    rewrite (unloadMFE_loaded rt name s md Hmd).
    pose proof (Htd md Hmd (say (ConsoleLog ("Unloading MFE: " +:+ name)) s)) as Hne.
    destruct (teardown _ _) as [[[]|e] s1]; [reflexivity|].
    exfalso. exact (Hne e eq_refl).
  - rewrite (unloadMFE_not_loaded rt name s Hmd). cbn [snd].
    exact (currentLoaded_loader s _ eq_refl Hinv).
Qed.

(** X21.  The current-MFE pointer names a loaded MFE, and keeps doing so:
    if it does before [unloadMFE(name)] or [loadMFE(name, ...)] and the
    teardown of the instance stored under [name], if there is one, does
    not throw, then it does afterwards, however the call ends. *)
Theorem current_stays_loaded name sel opts s :
  currentLoaded s ->
  (forall md, getMFEMetadata name s = Some md ->
     forall w e, (teardown (md_instance md) w).1 <> Throw e) ->
  currentLoaded (unloadMFE rt name s).2
  /\ currentLoaded (loadMFE rt name sel opts s).2.
Proof.
  intros Hinv Htd. split; [by apply unloadMFE_keeps_current_loaded|].
  rewrite loadMFE_steps.
  pose proof (getOrCreateContainer_loader rt sel
                (say (ConsoleLog ("Loading MFE: " +:+ name)) s)) as Hl.
  destruct (_getOrCreateContainer rt sel _) as [[[c|]|e] s1]; cbn [snd say loader] in Hl.
  2,3: apply (currentLoaded_loader s);
       [rewrite loadFailed_keeps_loader; exact Hl | exact Hinv].
  assert (H2 : currentLoaded (unloadIfLoaded rt name s1).2).
  { rewrite unloadIfLoaded_state. destruct (isLoaded name s1).
    - apply unloadMFE_keeps_current_loaded.
      + apply (currentLoaded_loader s); [exact Hl | exact Hinv].
      + intros md Hmd. apply Htd. unfold getMFEMetadata in *.
        cbn [say loader] in Hmd. by rewrite <- Hl.
    - apply (currentLoaded_loader s); [exact Hl | exact Hinv]. }
  pose proof (importRemoteModule_map rt name (unloadIfLoaded rt name s1).2) as [Hi Hc].
  destruct (_importRemoteModule rt name _) as [[m|e] s3]; cbn [snd] in Hi, Hc.
  2: { intros n. rewrite !(currentLoaded_keys _ s3) by apply loadFailed_keeps_loader.
       unfold getCurrentMFE, isLoaded. rewrite Hi, Hc. apply H2. }
  pose proof (bootstrapMFE_loader rt m c opts s3) as Hb.
  destruct (_bootstrapMFE rt m c opts s3) as [[inst|e] s4]; cbn [snd] in Hb.
  2: { intros n. rewrite !(currentLoaded_keys _ s3)
         by (rewrite loadFailed_keeps_loader; exact Hb).
       unfold getCurrentMFE, isLoaded. rewrite Hi, Hc. apply H2. }
  intros n. unfold getCurrentMFE, isLoaded.
  cbn [snd say loader store set_currentMFE map_set loadedMFEs currentMFE].
  intros [= <-]. apply bool_decide_eq_true_2. rewrite lookup_insert_eq. eauto.
Qed.


End WithRuntime.

Import Demo Samples.

Lemma getOrCreateContainer_selector_witness :
  selector_valid offline EmptyString = false
  /\ (exists e, _getOrCreateContainer offline (Selector EmptyString) freshPage
                = (Throw e, freshPage))
  /\ selector_valid offline "#mfe-container" = true
  /\ select offline "#mfe-container" (document (world freshPage)) = Some 0
  /\ _getOrCreateContainer offline (Selector "#mfe-container") freshPage
     = (Normal (Some 0), freshPage)
  /\ selector_valid offline "#other" = true
  /\ select offline "#other" (document (world freshPage)) = None
  /\ (exists c s',
        _getOrCreateContainer offline (Selector "#other") freshPage = (Normal (Some c), s')
        /\ elements (document (world s')) !! c =
             Some {| elem_id := "other"; parentNode := true; children := [] |}).
Proof.
  assert (H1 : selector_valid offline EmptyString = false) by reflexivity.
  assert (H2 : selector_valid offline "#mfe-container" = true) by reflexivity.
  assert (H3 : select offline "#mfe-container" (document (world freshPage)) = Some 0)
    by (vm_compute; reflexivity).
  assert (H4 : selector_valid offline "#other" = true) by reflexivity.
  assert (H5 : select offline "#other" (document (world freshPage)) = None)
    by (vm_compute; reflexivity).
  destruct (getOrCreateContainer_selector offline EmptyString freshPage) as (K1 & _ & _).
  destruct (K1 H1) as (e & Ke & _).
  destruct (getOrCreateContainer_selector offline "#mfe-container" freshPage)
    as (_ & K2 & _).
  destruct (getOrCreateContainer_selector offline "#other" freshPage) as (_ & _ & K3).
  destruct (K3 H4 H5) as (c & s' & Kc & _ & Kel & _).
  split; [exact H1|]. split; [exists e; exact Ke|]. split; [exact H2|].
  split; [exact H3|]. split; [exact (K2 H2 0 H3)|]. split; [exact H4|].
  split; [exact H5|]. exists c, s'. split; [exact Kc|exact Kel].
Defined.

Lemma federation_initialized_once_witness :
  _importRemoteModule (online (Some quietObject)) "mfe1" freshPage
    = (Normal (exporting (mounting (Some quietObject))),
       (_importRemoteModule (online (Some quietObject)) "mfe1" freshPage).2)
  /\ federationInitialized
       (loader (_importRemoteModule (online (Some quietObject)) "mfe1" freshPage).2)
     = true.
Proof.
  assert (H : _importRemoteModule (online (Some quietObject)) "mfe1" freshPage
              = (Normal (exporting (mounting (Some quietObject))),
                 (_importRemoteModule (online (Some quietObject)) "mfe1" freshPage).2))
    by (vm_compute; reflexivity).
  destruct (federation_initialized_once (online (Some quietObject)) "mfe1" freshPage
              _ _ H) as [K _].
  split; [exact H|exact K].
Defined.

Lemma federation_failure_not_cached_witness :
  federationInitialized (loader freshPage) = false
  /\ initFederation unreachable manifest (world freshPage)
     = (Throw (mkJsError "TypeError" "Failed to fetch" EmptyString), world freshPage)
  /\ err_message (rejected (_importRemoteModule unreachable "mfe1" freshPage))
     = "Failed to import remote module " +:+ quoted "mfe1" +:+ ": Failed to fetch"
  /\ federationInitialized (loader (_importRemoteModule unreachable "mfe1" freshPage).2)
     = false.
Proof.
  assert (H1 : federationInitialized (loader freshPage) = false) by reflexivity.
  assert (H2 : initFederation unreachable manifest (world freshPage)
               = (Throw (mkJsError "TypeError" "Failed to fetch" EmptyString),
                  world freshPage)) by reflexivity.
  destruct (federation_failure_not_cached unreachable "mfe1" freshPage _ _ H1 H2)
    as (K1 & _ & K2 & _).
  split; [exact H1|]. split; [exact H2|]. split; [|exact K2].
  unfold rejected. rewrite K1. reflexivity.
Defined.

Lemma bootstrap_without_mount_witness :
  mod_mount shadowed = NotCallable
  /\ (exists f, mod_bootstrap shadowed = Callable f)
  /\ _bootstrapMFE offline shadowed 0 [] freshPage =
       (Throw (new_Error offline
                 "Remote module does not export a mount or bootstrap function"),
        freshPage).
Proof.
  assert (H : mod_mount shadowed = NotCallable) by reflexivity.
  split; [exact H|]. split; [eexists; reflexivity|].
  exact (bootstrap_without_mount offline shadowed 0 [] freshPage (or_introl H)).
Defined.

Lemma bootstrap_passes_result_witness :
  obj_unmount quietObject = Callable (λ w, (Normal tt, w))
  /\ (_bootstrapMFE offline (exporting (mounting (Some quietObject))) 0 [] freshPage).1
     = Normal (FromRemote quietObject)
  /\ (_bootstrapMFE offline
        (exporting (λ _ _ w, (Throw boom, w))) 0 [] freshPage).1 = Throw boom.
Proof.
  assert (H : obj_unmount quietObject = Callable (λ w, (Normal tt, w))) by reflexivity.
  destruct (bootstrap_passes_result offline (exporting (mounting (Some quietObject)))
              0 [] freshPage (mounting (Some quietObject)) eq_refl) as [K1 _].
  destruct (bootstrap_passes_result offline (exporting (λ _ _ w, (Throw boom, w)))
              0 [] freshPage (λ _ _ w, (Throw boom, w)) eq_refl) as [_ K2].
  split; [exact H|]. split.
  - rewrite (K1 quietObject _ _ eq_refl H). reflexivity.
  - rewrite (K2 boom _ eq_refl). reflexivity.
Defined.

Lemma loadMFE_keeps_others_witness :
  "mfe1" <> "a"
  /\ isLoaded "mfe1" firstLoad.2 = true
  /\ isLoaded "mfe1"
       (loadMFE offline "a" (ElementRef 0) [] firstLoad.2).2 = true
  /\ isLoaded "mfe1"
       (loadMFE offline "a" (Selector EmptyString) [] firstLoad.2).2 = true.
Proof.
  assert (H : "mfe1" <> "a") by discriminate.
  assert (H0 : isLoaded "mfe1" firstLoad.2 = true) by (vm_compute; reflexivity).
  destruct (loadMFE_keeps_others offline "a" (ElementRef 0) [] firstLoad.2 "mfe1" H)
    as [_ K1].
  destruct (loadMFE_keeps_others offline "a" (Selector EmptyString) [] firstLoad.2
              "mfe1" H) as [_ K2].
  split; [exact H|]. split; [exact H0|]. split; [rewrite K1|rewrite K2]; exact H0.
Defined.

Lemma loadMFE_fulfilled_witness :
  firstLoad = (Normal (resolved firstLoad), firstLoad.2)
  /\ getCurrentMFE firstLoad.2 = Some "mfe1"
  /\ md_name (res_metadata (resolved firstLoad)) = "mfe1"
  /\ loadedMFEs (loader firstLoad.2)
     = <["mfe1" := res_metadata (resolved firstLoad)]> (loadedMFEs (loader freshPage)).
Proof.
  assert (H : firstLoad = (Normal (resolved firstLoad), firstLoad.2))
    by (vm_compute; reflexivity).
  destruct (loadMFE_fulfilled (online (Some quietObject)) "mfe1" (ElementRef 0) []
              freshPage (resolved firstLoad) firstLoad.2 H)
    as (K1 & K2 & _ & _ & _ & K3 & _).
  split; [exact H|]. split; [exact K3|]. split; [exact K2|exact K1].
Defined.

Lemma load_then_unload_witness :
  loadedMFEs (loader freshPage) !! "mfe1" = None
  /\ firstLoad = (Normal (resolved firstLoad), firstLoad.2)
  /\ teardown (md_instance (res_metadata (resolved firstLoad)))
       (say (ConsoleLog ("Unloading MFE: " +:+ "mfe1")) firstLoad.2)
     = (Normal tt, say (ConsoleLog ("Unloading MFE: " +:+ "mfe1")) firstLoad.2)
  /\ (unloadMFE (online (Some quietObject)) "mfe1" firstLoad.2).1 = Normal true
  /\ loadedMFEs (loader (unloadMFE (online (Some quietObject)) "mfe1" firstLoad.2).2)
     = loadedMFEs (loader freshPage)
  /\ getCurrentMFE (unloadMFE (online (Some quietObject)) "mfe1" firstLoad.2).2 = None.
Proof.
  assert (H1 : loadedMFEs (loader freshPage) !! "mfe1" = None) by reflexivity.
  assert (H2 : firstLoad = (Normal (resolved firstLoad), firstLoad.2))
    by (vm_compute; reflexivity).
  assert (H3 : teardown (md_instance (res_metadata (resolved firstLoad)))
                 (say (ConsoleLog ("Unloading MFE: " +:+ "mfe1")) firstLoad.2)
               = (Normal tt, say (ConsoleLog ("Unloading MFE: " +:+ "mfe1")) firstLoad.2))
    by (vm_compute; reflexivity).
  destruct (load_then_unload (online (Some quietObject)) "mfe1" (ElementRef 0) []
              freshPage (resolved firstLoad) firstLoad.2 _ H1 H2 H3)
    as (K1 & K2 & _ & K3 & _).
  split; [exact H1|]. split; [exact H2|]. split; [exact H3|].
  split; [exact K1|]. split; [exact K2|exact K3].
Defined.

Lemma unloadMFE_current_witness :
  getMFEMetadata "a" loadThrowing.2 = Some (res_metadata (resolved loadThrowing))
  /\ (teardown (md_instance (res_metadata (resolved loadThrowing)))
        (say (ConsoleLog ("Unloading MFE: " +:+ "a")) loadThrowing.2)).1 = Throw boom
  /\ getCurrentMFE (unloadMFE (online None) "a" loadThrowing.2).2
     = getCurrentMFE loadThrowing.2.
Proof.
  assert (H1 : getMFEMetadata "a" loadThrowing.2
               = Some (res_metadata (resolved loadThrowing)))
    by (vm_compute; reflexivity).
  assert (H2 : teardown (md_instance (res_metadata (resolved loadThrowing)))
                 (say (ConsoleLog ("Unloading MFE: " +:+ "a")) loadThrowing.2)
               = (Throw boom, say (ConsoleLog ("Unloading MFE: " +:+ "a")) loadThrowing.2))
    by (vm_compute; reflexivity).
  split; [exact H1|]. split; [rewrite H2; reflexivity|].
  exact (unloadMFE_current (online None) "a" loadThrowing.2 _ _ _ H1 H2).
Defined.

Lemma current_stays_loaded_witness :
  (forall n, getCurrentMFE firstLoad.2 = Some n -> isLoaded n firstLoad.2 = true)
  /\ (forall md, getMFEMetadata "mfe1" firstLoad.2 = Some md ->
        forall w e, (teardown (md_instance md) w).1 <> Throw e)
  /\ (forall n, getCurrentMFE (unloadMFE (online None) "mfe1" firstLoad.2).2 = Some n ->
                isLoaded n (unloadMFE (online None) "mfe1" firstLoad.2).2 = true)
  /\ (forall n,
        getCurrentMFE (loadMFE (online None) "mfe1" (ElementRef 0) [] firstLoad.2).2 = Some n ->
        isLoaded n (loadMFE (online None) "mfe1" (ElementRef 0) [] firstLoad.2).2 = true).
Proof.
  assert (H1 : forall n, getCurrentMFE firstLoad.2 = Some n -> isLoaded n firstLoad.2 = true).
  { intros n Hn. vm_compute in Hn. injection Hn as <-. vm_compute. reflexivity. }
  assert (H2 : forall md, getMFEMetadata "mfe1" firstLoad.2 = Some md ->
                 forall w e, (teardown (md_instance md) w).1 <> Throw e).
  { intros md Hmd w e. vm_compute in Hmd. injection Hmd as <-. discriminate. }
  split; [exact H1|]. split; [exact H2|].
  exact (current_stays_loaded (online None) "mfe1" (ElementRef 0) [] firstLoad.2 H1 H2).
Defined.

(** Loading [mfe2], then [mfe1], then [mfe2] again: the list is in the
    order of the loads, the reloaded name last. *)
Lemma getLoadedMFEs_spec_witness :
  let rt := online (Some quietObject) in
  let s1 := (loadMFE rt "mfe2" (ElementRef 0) [] freshPage).2 in
  let s2 := (loadMFE rt "mfe1" (ElementRef 0) [] s1).2 in
  let s3 := (loadMFE rt "mfe2" (ElementRef 0) [] s2).2 in
  getLoadedMFEs freshPage = []
  /\ getLoadedMFEs s1 = ["mfe2"]
  /\ getLoadedMFEs s2 = ["mfe2"; "mfe1"]
  /\ getLoadedMFEs s3 = ["mfe1"; "mfe2"]
  /\ getLoadedMFEs (unloadMFE rt "mfe2" s2).2 = ["mfe1"]
  /\ size (loadedMFEs (loader s2)) = 2.
Proof.
  intros rt s1 s2 s3.
  assert (H0 : NoDup (getLoadedMFEs freshPage)
               /\ forall n : string, n ∈ getLoadedMFEs freshPage
                    <-> is_Some (loadedMFEs (loader freshPage) !! n)).
  { split; [constructor|]. intros n. cbn. rewrite lookup_empty. split.
    - intros H. inversion H.
    - intros [x H]. discriminate H. }
  destruct (getLoadedMFEs_spec rt "mfe2" (ElementRef 0) [] freshPage H0)
    as (_ & _ & _ & _ & C1 & _ & L1).
  destruct (getLoadedMFEs_spec rt "mfe1" (ElementRef 0) [] s1 C1)
    as (_ & _ & _ & _ & C2 & _ & L2).
  destruct (getLoadedMFEs_spec rt "mfe2" (ElementRef 0) [] s2 C2)
    as (_ & _ & K3 & _ & _ & U3 & L3).
  assert (E1 : loadMFE rt "mfe2" (ElementRef 0) [] freshPage
               = (Normal (resolved (loadMFE rt "mfe2" (ElementRef 0) [] freshPage)), s1))
    by (vm_compute; reflexivity).
  assert (E2 : loadMFE rt "mfe1" (ElementRef 0) [] s1
               = (Normal (resolved (loadMFE rt "mfe1" (ElementRef 0) [] s1)), s2))
    by (vm_compute; reflexivity).
  assert (E3 : loadMFE rt "mfe2" (ElementRef 0) [] s2
               = (Normal (resolved (loadMFE rt "mfe2" (ElementRef 0) [] s2)), s3))
    by (vm_compute; reflexivity).
  pose proof (L1 _ _ E1) as G1. pose proof (L2 _ _ E2) as G2.
  pose proof (L3 _ _ E3) as G3.
  assert (F1 : getLoadedMFEs s1 = ["mfe2"]) by (rewrite G1; reflexivity).
  assert (F2 : getLoadedMFEs s2 = ["mfe2"; "mfe1"])
    by (rewrite G2, F1; vm_compute; reflexivity).
  split; [reflexivity|]. split; [exact F1|]. split; [exact F2|]. split.
  { rewrite G3, F2. vm_compute. reflexivity. }
  split.
  { rewrite U3, F2. vm_compute. reflexivity. }
  rewrite <- K3, F2. reflexivity.
Defined.

Lemma federation_fields_consistent_witness :
  (federationInitialized (loader freshPage) = true ->
   is_Some (loadRemoteModule (loader freshPage)))
  /\ (federationInitialized (loader firstLoad.2) = true ->
      is_Some (loadRemoteModule (loader firstLoad.2))).
Proof.
  assert (H : federationInitialized (loader freshPage) = true ->
              is_Some (loadRemoteModule (loader freshPage))) by discriminate.
  split; [exact H|].
  destruct (federation_fields_consistent (online (Some quietObject)) "mfe1"
              (ElementRef 0) [] freshPage) as (_ & _ & _ & K).
  exact (K H).
Defined.

(** The empty string on the fresh page, and on the page on which a
    failed [loadMFE('mfe1', '#container')] has left an element with the
    id ['container']: there the minimal message replaces the fallback
    view in that element. *)
Lemma loadMFE_invalid_selector_witness :
  let page := (loadMFE offline "mfe1" (Selector "#container") [] freshPage).2 in
  selector_valid offline EmptyString = false
  /\ elementsWithId "container" (document (world freshPage)) = []
  /\ (loadMFE offline "mfe1" (Selector EmptyString) [] freshPage).1
     = Throw (containerNotDefined offline)
  /\ world (loadMFE offline "mfe1" (Selector EmptyString) [] freshPage).2
     = world freshPage
  /\ elementsWithId "container" (document (world page)) = [1]
  /\ children (getElement 1
       (document (world (loadMFE offline "mfe1" (Selector EmptyString) [] page).2)))
     = [minimalMessage "mfe1"]
  /\ err_message (rejected (loadMFE offline "mfe1" (Selector EmptyString) [] page))
     = "MFE load failed: mfe1 - Failed to execute 'querySelector' on 'Document': '' is not a valid selector.".
Proof.
  cbv zeta.
  set (page := (loadMFE offline "mfe1" (Selector "#container") [] freshPage).2).
  assert (H : selector_valid offline EmptyString = false) by reflexivity.
  assert (N0 : elementsWithId "container" (document (world freshPage)) = [])
    by (vm_compute; reflexivity).
  assert (N1 : elementsWithId "container" (document (world page)) = [1])
    by (vm_compute; reflexivity).
  destruct (loadMFE_invalid_selector offline "mfe1" EmptyString [] freshPage H)
    as (_ & _ & _ & K & _).
  destruct (K N0) as [K1 K2].
  destruct (loadMFE_invalid_selector offline "mfe1" EmptyString [] page H)
    as (_ & _ & _ & _ & L & _).
  destruct (L 1 N1) as [_ L2].
  split; [exact H|]. split; [exact N0|]. split; [exact K1|]. split; [exact K2|].
  split; [exact N1|]. split.
  { rewrite L2. unfold getElement, set_innerHTML. cbn [elements].
    rewrite lookup_insert_eq. reflexivity. }
  vm_compute. reflexivity.
Defined.

Lemma displayError_renders_witness :
  selector_valid offline "#mfe-container" = true
  /\ (_displayError offline (Selector "#mfe-container") "mfe1" boom firstLoad.2).1
     = Normal tt
  /\ loader (_displayError offline (Selector "#mfe-container") "mfe1" boom firstLoad.2).2
     = loader firstLoad.2.
Proof.
  assert (H : selector_valid offline "#mfe-container" = true) by reflexivity.
  destruct (displayError_renders offline (Selector "#mfe-container") "mfe1" boom
              firstLoad.2 H) as (K1 & K2 & _).
  split; [exact H|]. split; [exact K1|exact K2].
Defined.

Lemma retry_settles_witness :
  (loadMFE offline "mfe1" (ElementRef 0) [] freshPage).1
    = Throw (rejected (loadMFE offline "mfe1" (ElementRef 0) [] freshPage))
  /\ (Boundary.retry offline "mfe1" (ElementRef 0) freshPage).1 = Normal tt
  /\ length (children (getElement 0
        (document (world (Boundary.retry offline "mfe1" (ElementRef 0)
                            (Boundary.retry offline "mfe1" (ElementRef 0) freshPage).2).2))))
     = 1.
Proof.
  assert (H : (loadMFE offline "mfe1" (ElementRef 0) [] freshPage).1
              = Throw (rejected (loadMFE offline "mfe1" (ElementRef 0) [] freshPage)))
    by (vm_compute; reflexivity).
  destruct (retry_settles offline "mfe1" (ElementRef 0) freshPage) as (K1 & _ & _).
  set (s1 := (Boundary.retry offline "mfe1" (ElementRef 0) freshPage).2).
  assert (H' : (loadMFE offline "mfe1" (ElementRef 0) [] s1).1
               = Throw (rejected (loadMFE offline "mfe1" (ElementRef 0) [] s1)))
    by (vm_compute; reflexivity).
  destruct (retry_settles offline "mfe1" (ElementRef 0) s1) as (_ & _ & K3).
  destruct (K3 0 _ eq_refl H') as (e0 & _ & Kc).
  split; [exact H|]. split; [exact K1|]. rewrite Kc. reflexivity.
Defined.

End LoaderMore.

(** * More about the error boundary *)

Module BoundaryMore.
Import MfeLoader LoaderSpec ErrorBoundary Boundary.

(** X22.  The buttons of an error view are exactly the callbacks it was
    given, retry first; the actions container is there if and only if
    at least one callback was given.  The fallback for a failed MFE
    offers the two callbacks it is given, the generic fallback offers
    going home by a page load and nothing else. *)
Theorem createErrorDisplay_callbacks (o : Options) :
  callbacks (createErrorDisplay o)
    = option_list (opt_onRetry o) ++ option_list (opt_onGoHome o)
  /\ hasClassName "error-actions" (createErrorDisplay o)
     = bool_decide (is_Some (opt_onRetry o) \/ is_Some (opt_onGoHome o))
  /\ (forall name e retry home,
        callbacks (createMFEFallback name e retry home)
          = option_list retry ++ option_list home)
  /\ (forall e ctx, callbacks (createGenericFallback e ctx) = [GoHomeLocation]).
Proof.
  assert (H : forall o : Options,
            callbacks (createErrorDisplay o)
              = option_list (opt_onRetry o) ++ option_list (opt_onGoHome o)
            /\ hasClassName "error-actions" (createErrorDisplay o)
               = bool_decide (is_Some (opt_onRetry o) \/ is_Some (opt_onGoHome o))).
  { intros [t m [e|] c [r|] [h|]]; unfold createErrorDisplay;
      cbn [opt_title opt_message opt_error opt_context opt_onRetry opt_onGoHome];
      try destruct (String.eqb (err_stack e) EmptyString);
      (split; [reflexivity|]).
    all: reflexivity. }
  split; [apply H|]. split; [apply H|]. split.
  - intros name e retry home. unfold createMFEFallback.
    match goal with |- callbacks (createErrorDisplay ?x) = _ =>
      exact (proj1 (H x)) end.
  - intros e ctx. unfold createGenericFallback.
    match goal with |- callbacks (createErrorDisplay ?x) = _ =>
      exact (proj1 (H x)) end.
Qed.

(** X23.  The technical details of an error view are there if and only
    if an error was given, and the stack trace is shown if and only if
    that error has a non-empty stack; the view is a [div] with class
    [error-boundary] announced as an alert. *)
Theorem createErrorDisplay_details (o : Options) :
  hasClassName "error-details" (createErrorDisplay o)
    = bool_decide (is_Some (opt_error o))
  /\ hasClassName "error-stack" (createErrorDisplay o)
     = match opt_error o with
       | Some e => negb (String.eqb (err_stack e) EmptyString)
       | None => false
       end
  /\ exists children,
       createErrorDisplay o =
         Element "div" "error-boundary"
           [("role", "alert"); ("aria-live", "assertive")] None children.
Proof.
  destruct o as [t m [e|] c [r|] [h|]]; unfold createErrorDisplay;
    cbn [opt_title opt_message opt_error opt_context opt_onRetry opt_onGoHome];
    try destruct (String.eqb (err_stack e) EmptyString);
    (split; [reflexivity|]); (split; [reflexivity|]); eexists; reflexivity.
Qed.

Section WithRuntime.
Context {Ext : Type} (rt : Runtime Ext).
Implicit Types (s : Sys Ext).

Ltac run :=
  unfold bind, ret, gets, log, set_loader, set_document, throw, try_catch.

(** The two outcomes of a function wrapped by [withErrorBoundary]. *)
Lemma withErrorBoundary_cases {A} (fn : M Ext A) context onError fallbackContainer s :
  (forall a s', fn s = (Normal a, s') ->
     withErrorBoundary fn context onError fallbackContainer s = (Normal a, s'))
  /\ (forall e s1, fn s = (Throw e, s1) ->
        let after := (withErrorBoundary fn context onError fallbackContainer s).2 in
        (withErrorBoundary fn context onError fallbackContainer s).1 = Throw e
        /\ (forall c, fallbackContainer = Some c ->
              children (getElement c (document (world after)))
                = [createGenericFallback e (Some (default "Function" context))])
        /\ (onError = None ->
              loader after = loader s1
              /\ console after = console s1 ++
                   [ConsoleError ("Error in " +:+ default "Function" context +:+ ":") e])).
Proof.
  split.
  - intros a s' H. unfold withErrorBoundary. run. rewrite H. reflexivity.
  - intros e s1 H. cbv zeta. unfold withErrorBoundary. run. rewrite H.
    destruct onError as [h|].
    + destruct (h e _) as [[[]|e0] s3]; destruct fallbackContainer as [c|]; cbn;
        (split; [reflexivity|]); (split; [|discriminate]);
        intros c' [= <-]; apply children_appendChild.
    + destruct fallbackContainer as [c|]; cbn;
        (split; [reflexivity|]); (split; [|intros _; split; reflexivity]).
      * intros c' [= <-]. apply children_appendChild.
      * discriminate.
Qed.

(** X24.  [withErrorBoundary] is transparent when the wrapped function
    returns, and never hides a failure: when the function throws [e] the
    wrapper throws the same [e], also when the [onError] handler throws
    in turn, and the fallback container, if one is given, then holds the
    generic fallback for [e] and nothing else.  Without an [onError]
    handler the loader is untouched and the console gets one line. *)
Theorem withErrorBoundary_spec {A} (fn : M Ext A) context onError fallbackContainer s :
  (forall a s', fn s = (Normal a, s') ->
     withErrorBoundary fn context onError fallbackContainer s = (Normal a, s'))
  /\ (forall e s1, fn s = (Throw e, s1) ->
        let after := (withErrorBoundary fn context onError fallbackContainer s).2 in
        (withErrorBoundary fn context onError fallbackContainer s).1 = Throw e
        /\ (forall c, fallbackContainer = Some c ->
              children (getElement c (document (world after)))
                = [createGenericFallback e (Some (default "Function" context))])
        /\ (onError = None ->
              loader after = loader s1
              /\ console after = console s1 ++
                   [ConsoleError ("Error in " +:+ default "Function" context +:+ ":") e])).
Proof. exact (withErrorBoundary_cases fn context onError fallbackContainer s). Qed.

(** X25.  [_loadManifest] never throws.  It resolves to the fetched
    manifest when the request succeeds with an ok status and a body that
    parses; when the request fails, the status is not ok or the body does
    not parse, it logs the error and a warning and resolves to the
    built-in manifest.  The loader is untouched. *)
Theorem loadManifest_falls_back
    (fetch : string -> World Ext -> Completion (@Response Ext) * World Ext) s :
  (exists mf, (_loadManifest rt fetch s).1 = Normal mf)
  /\ loader (_loadManifest rt fetch s).2 = loader s
  /\ (forall resp w mf w',
        fetch "/federation.manifest.json" (world s) = (Normal resp, w) ->
        ok resp = true -> json resp w = (Normal mf, w') ->
        _loadManifest rt fetch s =
          (Normal mf, {| loader := loader s; console := console s; world := w' |}))
  /\ (forall resp w,
        fetch "/federation.manifest.json" (world s) = (Normal resp, w) ->
        ok resp = false ->
        _loadManifest rt fetch s =
          (Normal manifest,
           {| loader := loader s;
              console := console s ++
                [ConsoleError "Error loading manifest:"
                   (new_Error rt ("Failed to fetch manifest: " +:+ statusText resp));
                 ConsoleWarn "Using default federation manifest"];
              world := w |}))
  /\ (forall e w,
        fetch "/federation.manifest.json" (world s) = (Throw e, w) ->
        (_loadManifest rt fetch s).1 = Normal manifest
        /\ ConsoleWarn "Using default federation manifest"
             ∈ console (_loadManifest rt fetch s).2).
Proof.
  unfold _loadManifest. run. unfold call, say.
  destruct (fetch "/federation.manifest.json" (world s)) as [[resp|e] w] eqn:Hf.
  - destruct (ok resp) eqn:Hok; cbn [negb].
    + cbn [world]. destruct (json resp w) as [[mf|e] w'] eqn:Hj; cbn.
      * split; [eauto|]. split; [reflexivity|]. split.
        { intros ? ? ? ? [= <- <-] _ Hj'. rewrite Hj in Hj'.
          injection Hj' as <- <-. reflexivity. }
        split; [intros ? ? [= <- <-] Hok'; congruence|]. intros ? ? [=].
      * split; [eauto|]. split; [reflexivity|]. split.
        { intros ? ? ? ? [= <- <-] _ Hj'. rewrite Hj in Hj'. discriminate. }
        split; [intros ? ? [= <- <-] Hok'; congruence|]. intros ? ? [=].
    + cbn. split; [eauto|]. split; [reflexivity|]. split.
      { intros ? ? ? ? [= <- <-] Hok'. congruence. }
      split.
      { intros ? ? [= <- <-] _. rewrite <- app_assoc. reflexivity. }
      intros ? ? [=].
  - cbn. split; [eauto|]. split; [reflexivity|]. split; [intros ? ? ? ? [=]|].
    split; [intros ? ? [=]|]. intros ? ? [= <- <-]. split; [reflexivity|].
    rewrite !elem_of_app, !list_elem_of_singleton. right. reflexivity.
Qed.

End WithRuntime.

(** X26.  A route handler wrapped by [withErrorBoundary] still lets the
    router recover.  The wrapped function throws on a path other than
    ['/'] and ['/home'] that the browser accepts (or that is not pushed):
    the wrapper renders the fallback and throws the error on, the router
    logs it and calls [navigate('/')] without waiting for it, and
    [navigate(path)] is fulfilled.  With a handler registered for ['/'],
    ['/'] is then the current route and the last entry of the history,
    and nothing is reported as unhandled. *)
Theorem wrapped_handler_recovers {Ext : Type} (browser : Router.Browser)
    (fn : M Ext unit) context onError fallbackContainer
    (h : Router.Handler (Sys Ext))
    (path pathname : string) (skip : bool) (s : Router.St (Sys Ext)) (e : JsError)
    (p1 : Sys Ext) :
  Router.routes (Router.router s) !! path = Some h ->
  Router.awaited (h path (Router.page (Router.window s)))
    = withErrorBoundary fn context onError fallbackContainer
        (Router.page (Router.window s)) ->
  (skip = false ->
   Router.resolve browser (Router.location_pathname (Router.window s)) path
     = Some pathname) ->
  fn (Router.page (Router.window s)) = (Throw e, p1) ->
  path <> "/" -> path <> "/home" ->
  let rendered :=
    (withErrorBoundary fn context onError fallbackContainer
       (Router.page (Router.window s))).2 in
  let entered :=
    Router.set_currentRoute path
      (if skip then s else Router.pushed path pathname s) in
  let after := (Router.navigate browser path skip s).2 in
  (forall c, fallbackContainer = Some c ->
     children (getElement c (document (world rendered)))
       = [createGenericFallback e (Some (default "Function" context))])
  /\ Router.navigate browser path skip s =
       (Normal tt,
        Router.spawn browser "/" false
          (Router.log (ConsoleLog "Attempting to recover by navigating to home")
             (Router.log (ConsoleError ("Error executing handler for route " +:+
                                        quoted path +:+ ":") e)
                (Router.set_page rendered entered))))
  /\ (forall home,
        Router.routes (Router.router s) !! "/" = Some home ->
        Router.getCurrentRoute after = Some "/"
        /\ Router.history (Router.window after)
           = Router.history (Router.window entered) ++ ["/"]
        /\ Router.unhandled (Router.window after)
           = Router.unhandled (Router.window s)).
Proof.
  intros Hh Hwrap Hacc Hfn H1 H2 rendered entered after.
  destruct (withErrorBoundary_cases fn context onError fallbackContainer
              (Router.page (Router.window s))) as [_ Hthrow].
  destruct (Hthrow e p1 Hfn) as (Herr & Hview & _).
  split; [exact Hview|].
  assert (Hcall : Router.awaited (h path (Router.page (Router.window s)))
                  = (Throw e, rendered)).
  { rewrite Hwrap. subst rendered.
    destruct (withErrorBoundary fn context onError fallbackContainer _) as [c0 s0].
    cbn in Herr |- *. by rewrite Herr. }
  assert (Hnav : Router.navigate browser path skip s =
       (Normal tt,
        Router.spawn browser "/" false
          (Router.log (ConsoleLog "Attempting to recover by navigating to home")
             (Router.log (ConsoleError ("Error executing handler for route " +:+
                                        quoted path +:+ ":") e)
                (Router.set_page rendered entered))))).
  { rewrite (RouterSpec.navigate_registered browser path pathname skip s h Hh Hacc).
    rewrite Hcall. cbn zeta.
    apply String.eqb_neq in H1, H2. rewrite H1, H2. reflexivity. }
  split; [exact Hnav|].
  intros home Hhome. subst after. rewrite Hnav. cbn [snd].
  set (x := Router.log (ConsoleLog "Attempting to recover by navigating to home") _).
  assert (Hx : Router.routes (Router.router x) !! "/" = Some home)
    by (subst x entered; destruct skip; exact Hhome).
  assert (Hhx : Router.history (Router.window x) = Router.history (Router.window entered))
    by reflexivity.
  assert (Hux : Router.unhandled (Router.window x) = Router.unhandled (Router.window s))
    by (subst x entered; destruct skip; reflexivity).
  unfold Router.spawn.
  rewrite (RouterSpec.navigate_start_registered browser _ "/" false x home Hx).
  rewrite RouterSpec.pushState_root. cbn zeta.
  destruct (home "/" _) as [e' p'|p' rest'].
  - rewrite RouterSpec.handlerFailed_home by (by left).
    cbn [Router.criticalError Router.detach fst snd].
    split; [reflexivity|]. split; [reflexivity|exact Hux].
  - cbn [Router.detach].
    split; [reflexivity|]. split; [reflexivity|exact Hux].
Qed.

Import Demo Samples.

Lemma withErrorBoundary_spec_witness :
  log (ConsoleLog "ok") freshPage = (Normal tt, say (ConsoleLog "ok") freshPage)
  /\ withErrorBoundary (log (ConsoleLog "ok")) None (Some (λ _, failing)) (Some 0) freshPage
     = (Normal tt, say (ConsoleLog "ok") freshPage)
  /\ failing freshPage = (Throw boom, freshPage)
  /\ (withErrorBoundary failing None (Some (λ _, failing)) (Some 0) freshPage).1
     = Throw boom
  /\ children (getElement 0 (document (world
        (withErrorBoundary failing None (Some (λ _, failing)) (Some 0) freshPage).2)))
     = [createGenericFallback boom (Some "Function")]
  /\ loader (withErrorBoundary failing None None (Some 0) freshPage).2 = loader freshPage.
Proof.
  assert (H1 : log (ConsoleLog "ok") freshPage
               = (Normal tt, say (ConsoleLog "ok") freshPage :> Sys unit))
    by reflexivity.
  assert (H2 : failing freshPage = (Throw boom, freshPage)) by reflexivity.
  destruct (withErrorBoundary_spec (log (ConsoleLog "ok")) None
              (Some (λ _, failing)) (Some 0) freshPage) as [K1 _].
  destruct (withErrorBoundary_spec failing None (Some (λ _, failing)) (Some 0) freshPage)
    as [_ K2].
  destruct (K2 boom freshPage H2) as (K3 & K4 & _).
  destruct (withErrorBoundary_spec failing None None (Some 0) freshPage) as [_ K5].
  destruct (K5 boom freshPage H2) as (_ & _ & K6).
  destruct (K6 eq_refl) as [K7 _].
  split; [exact H1|]. split; [exact (K1 tt _ H1)|]. split; [exact H2|].
  split; [exact K3|]. split; [exact (K4 0 eq_refl)|exact K7].
Defined.

Lemma loadManifest_falls_back_witness :
  served "/federation.manifest.json" (world freshPage)
    = (Normal {| ok := true; statusText := "OK";
                 json := λ w, (Normal [("mfe2", "http://localhost:4202/remoteEntry.json")], w) |},
       world freshPage)
  /\ (_loadManifest offline served freshPage).1
     = Normal [("mfe2", "http://localhost:4202/remoteEntry.json")]
  /\ ok {| ok := false; statusText := "Not Found";
           json := λ w : World unit, (Normal [], w) |} = false
  /\ (_loadManifest offline notFound freshPage).1 = Normal manifest
  /\ (_loadManifest offline (λ _ w, (Throw boom, w)) freshPage).1 = Normal manifest.
Proof.
  assert (H1 : served "/federation.manifest.json" (world freshPage)
               = (Normal {| ok := true; statusText := "OK";
                            json := λ w, (Normal [("mfe2", "http://localhost:4202/remoteEntry.json")], w) |},
                  world freshPage)) by reflexivity.
  destruct (loadManifest_falls_back offline served freshPage) as (_ & _ & K1 & _).
  destruct (loadManifest_falls_back offline notFound freshPage) as (_ & _ & _ & K2 & _).
  destruct (loadManifest_falls_back offline (λ _ w, (Throw boom, w)) freshPage)
    as (_ & _ & _ & _ & K3).
  destruct (K3 boom _ eq_refl) as [K4 _].
  split; [exact H1|]. split; [rewrite (K1 _ _ _ _ H1 eq_refl eq_refl); reflexivity|].
  split; [reflexivity|]. split; [rewrite (K2 _ _ eq_refl eq_refl); reflexivity|exact K4].
Defined.

Lemma wrapped_handler_recovers_witness :
  Router.routes (Router.router shell) !! "/mfe1" = Some guarded
  /\ Router.awaited (guarded "/mfe1" (Router.page (Router.window shell)))
     = withErrorBoundary failing (Some "MFE1 Loading") None (Some 0)
         (Router.page (Router.window shell))
  /\ Router.resolve browser (Router.location_pathname (Router.window shell)) "/mfe1"
     = Some "/mfe1"
  /\ failing (Router.page (Router.window shell)) = (Throw boom, freshPage)
  /\ "/mfe1" <> "/" /\ "/mfe1" <> "/home"
  /\ (Router.navigate browser "/mfe1" false shell).1 = Normal tt
  /\ Router.getCurrentRoute (Router.navigate browser "/mfe1" false shell).2 = Some "/"
  /\ Router.history (Router.window (Router.navigate browser "/mfe1" false shell).2)
     = ["/mfe1"; "/"]
  /\ children (getElement 0 (document (world
        (Router.page (Router.window (Router.navigate browser "/mfe1" false shell).2)))))
     = [createGenericFallback boom (Some "MFE1 Loading")].
Proof.
  assert (H1 : Router.routes (Router.router shell) !! "/mfe1" = Some guarded)
    by reflexivity.
  assert (H0 : Router.awaited (guarded "/mfe1" (Router.page (Router.window shell)))
               = withErrorBoundary failing (Some "MFE1 Loading") None (Some 0)
                   (Router.page (Router.window shell))) by reflexivity.
  assert (Ha : false = false ->
               Router.resolve browser
                 (Router.location_pathname (Router.window shell)) "/mfe1"
               = Some "/mfe1") by reflexivity.
  assert (H2 : failing (Router.page (Router.window shell)) = (Throw boom, freshPage))
    by reflexivity.
  assert (H3 : "/mfe1" <> "/") by discriminate.
  assert (H4 : "/mfe1" <> "/home") by discriminate.
  destruct (wrapped_handler_recovers browser failing (Some "MFE1 Loading") None (Some 0)
              guarded "/mfe1" "/mfe1" false shell boom freshPage H1 H0 Ha H2 H3 H4)
    as (_ & K & L).
  destruct (L _ eq_refl) as (L1 & L2 & _).
  split; [exact H1|]. split; [exact H0|]. split; [exact (Ha eq_refl)|].
  split; [exact H2|]. split; [exact H3|]. split; [exact H4|].
  split; [rewrite K; reflexivity|]. split; [exact L1|]. split; [exact L2|].
  rewrite K. cbn [snd]. vm_compute. reflexivity.
Defined.

End BoundaryMore.

(** * The navigation bar *)

Module NavigationMore.
Import Navigation.

Local Abbreviation highlighted ls := (filter (λ l : NavLink, active l = true) ls).

Lemma findPath_setActive path b ls :
  findPath path (List.map (setActive b) ls) = findPath path ls.
Proof.
  induction ls as [|l ls IH]; [reflexivity|]. cbn.
  destruct (String.eqb (data_path l) path); [reflexivity|]. by rewrite IH.
Qed.

Lemma findPath_Some path ls i :
  findPath path ls = Some i ->
  exists l, ls !! i = Some l /\ data_path l = path.
Proof.
  revert i. induction ls as [|a ls IH]; intros i H; [discriminate|]. cbn in H.
  destruct (String.eqb (data_path a) path) eqn:Ha.
  - injection H as <-. exists a. split; [reflexivity|]. by apply String.eqb_eq.
  - destruct (findPath path ls) as [j|]; [|discriminate]. injection H as <-.
    destruct (IH j eq_refl) as (l & Hl & Hp). exists l. split; assumption.
Qed.

Lemma findPath_None path ls :
  findPath path ls = None -> forall l, l ∈ ls -> data_path l <> path.
Proof.
  induction ls as [|a ls IH]; intros H l Hl; [by apply elem_of_nil in Hl|].
  cbn in H. destruct (String.eqb (data_path a) path) eqn:Ha; [discriminate|].
  destruct (findPath path ls) as [j|]; [discriminate|].
  apply elem_of_cons in Hl as [->|Hl].
  - by apply String.eqb_neq.
  - by apply IH.
Qed.

Lemma highlighted_none ls :
  Forall (λ l, active l = false) ls -> highlighted ls = [].
Proof.
  induction 1 as [|a ls Ha _ IH]; [reflexivity|].
  rewrite filter_cons_False by congruence. exact IH.
Qed.

Lemma highlighted_alter ls i :
  Forall (λ l, active l = false) ls ->
  length (highlighted (alter (setActive true) i ls))
    = if bool_decide (i < length ls) then 1 else 0.
Proof.
  intros H. revert i. induction H as [|a ls Ha Hls IH]; intros i; [reflexivity|].
  destruct i as [|i]; cbn [alter list_alter].
  - rewrite filter_cons_True by reflexivity. cbn. by rewrite highlighted_none.
  - rewrite filter_cons_False by congruence. rewrite IH. cbn [length].
    destruct (decide (i < length ls)).
    + rewrite !bool_decide_eq_true_2 by lia. reflexivity.
    + rewrite !bool_decide_eq_false_2 by lia. reflexivity.
Qed.

Lemma all_inactive ls : Forall (λ l, active l = false) (List.map (setActive false) ls).
Proof. induction ls; constructor; [reflexivity|assumption]. Qed.

Section WithBrowser.
Context (oddSelector : string -> list NavLink -> Completion (option nat)).

(** The link that [updateActiveLink] highlights for a plain path. *)
Local Abbreviation chosen path links :=
  (match findPath path links with
   | Some i => Some i
   | None => if String.eqb path "/" || String.eqb path "/home"
             then findPath "/" links else None
   end).

Lemma updateActiveLink_shape path links :
  plain path = true ->
  updateActiveLink oddSelector path links =
    (Normal tt,
     match chosen path links with
     | Some i => alter (setActive true) i (List.map (setActive false) links)
     | None => List.map (setActive false) links
     end).
Proof.
  intros Hp. unfold updateActiveLink, queryDataPath. rewrite Hp.
  rewrite findPath_setActive.
  destruct (findPath path links) as [i|]; [reflexivity|].
  destruct (String.eqb path "/" || String.eqb path "/home"); [|reflexivity].
  cbn [plain plainChar]. rewrite findPath_setActive.
  destruct (findPath "/" links); reflexivity.
Qed.

Lemma alter_setActive_fields i (ls : list NavLink) :
  data_path <$> alter (setActive true) i ls = data_path <$> ls
  /\ label <$> alter (setActive true) i ls = label <$> ls
  /\ href <$> alter (setActive true) i ls = href <$> ls.
Proof.
  revert i. induction ls as [|a ls IH]; intros i; [repeat split|].
  destruct i as [|i]; cbn; [repeat split|].
  destruct (IH i) as (-> & -> & ->). repeat split.
Qed.

Lemma map_setActive_fields b (ls : list NavLink) :
  data_path <$> List.map (setActive b) ls = data_path <$> ls
  /\ label <$> List.map (setActive b) ls = label <$> ls
  /\ href <$> List.map (setActive b) ls = href <$> ls.
Proof.
  induction ls as [|a ls (IH1 & IH2 & IH3)]; [repeat split|].
  cbn. rewrite IH1, IH2, IH3. repeat split.
Qed.

(** X27.  [updateActiveLink] with a plain path returns normally, keeps the
    links, their paths and their labels, and leaves at most one link
    highlighted.  A highlighted link has the given path, or is the Home
    link when the path is ['/home'].  When some link has the given path,
    exactly one link is highlighted: the first one with that path. *)
Theorem updateActiveLink_highlights path links :
  plain path = true ->
  let after := (updateActiveLink oddSelector path links).2 in
  (updateActiveLink oddSelector path links).1 = Normal tt
  /\ data_path <$> after = data_path <$> links
  /\ label <$> after = label <$> links
  /\ length (highlighted after) <= 1
  /\ (forall l, l ∈ after -> active l = true ->
        data_path l = path \/ (path = "/home" /\ data_path l = "/"))
  /\ (forall i, findPath path links = Some i ->
        length (highlighted after) = 1
        /\ exists l, after !! i = Some l /\ active l = true /\ data_path l = path).
Proof.
  intros Hp after. subst after. rewrite (updateActiveLink_shape path links Hp).
  cbn [fst snd]. split; [reflexivity|].
  pose proof (all_inactive links) as Hin.
  destruct (map_setActive_fields false links) as (M1 & M2 & _).
  assert (Hmem : forall i p l,
            findPath p links = Some i ->
            l ∈ alter (setActive true) i (List.map (setActive false) links) ->
            active l = true -> data_path l = p).
  { intros i p l Hi Hl Ha.
    rewrite <- (findPath_setActive p false) in Hi.
    apply findPath_Some in Hi as (x & Hx & Hxp).
    apply list_elem_of_lookup in Hl as [j Hj].
    destruct (decide (i = j)) as [->|Hne].
    - rewrite list_lookup_alter_eq, Hx in Hj. injection Hj as <-. exact Hxp.
    - rewrite list_lookup_alter_ne in Hj by exact Hne.
      apply list_elem_of_lookup_2 in Hj.
      rewrite Forall_forall in Hin. rewrite (Hin _ Hj) in Ha. discriminate. }
  destruct (findPath path links) as [i|] eqn:Hf.
  - destruct (alter_setActive_fields i (List.map (setActive false) links))
      as (A1 & A2 & _).
    split; [by rewrite A1|]. split; [by rewrite A2|].
    rewrite (highlighted_alter _ i Hin).
    split; [destruct (bool_decide _); lia|]. split.
    + intros l Hl Ha. left. by apply (Hmem i).
    + intros i' [= <-].
      pose proof Hf as Hf'. rewrite <- (findPath_setActive path false) in Hf'.
      apply findPath_Some in Hf' as (x & Hx & Hxp).
      rewrite bool_decide_eq_true_2 by (by apply lookup_lt_Some in Hx).
      split; [reflexivity|]. exists (setActive true x).
      rewrite list_lookup_alter_eq, Hx. repeat split. exact Hxp.
  - destruct (String.eqb path "/" || String.eqb path "/home") eqn:Hhome.
    + destruct (findPath "/" links) as [i|] eqn:Hf0.
      * destruct (alter_setActive_fields i (List.map (setActive false) links))
          as (A1 & A2 & _).
        split; [by rewrite A1|]. split; [by rewrite A2|].
        rewrite (highlighted_alter _ i Hin).
        split; [destruct (bool_decide _); lia|]. split; [|intros ? [=]].
        intros l Hl Ha. right. split; [|by apply (Hmem i)].
        apply orb_true_iff in Hhome as [H|H]; apply String.eqb_eq in H;
          [|exact H].
        subst path. rewrite Hf0 in Hf. discriminate.
      * split; [exact M1|]. split; [exact M2|]. rewrite (highlighted_none _ Hin).
        split; [cbn; lia|]. split; [|intros ? [=]].
        intros l Hl Ha. rewrite Forall_forall in Hin. rewrite (Hin _ Hl) in Ha.
        discriminate.
    + split; [exact M1|]. split; [exact M2|]. rewrite (highlighted_none _ Hin).
      split; [cbn; lia|]. split; [|intros ? [=]].
      intros l Hl Ha. rewrite Forall_forall in Hin. rewrite (Hin _ Hl) in Ha.
      discriminate.
Qed.

Lemma map_setActive_alter i (ls : list NavLink) :
  List.map (setActive false) (alter (setActive true) i (List.map (setActive false) ls))
    = List.map (setActive false) ls.
Proof.
  revert i. induction ls as [|a ls IH]; intros i; [reflexivity|].
  destruct i as [|i]; cbn.
  - f_equal. clear IH. induction ls as [|b ls IH]; [reflexivity|]. cbn. by rewrite IH.
  - f_equal. apply IH.
Qed.

Lemma map_setActive_idemp (ls : list NavLink) :
  List.map (setActive false) (List.map (setActive false) ls)
    = List.map (setActive false) ls.
Proof. induction ls as [|a ls IH]; [reflexivity|]. cbn. by rewrite IH. Qed.

(** X28.  [updateActiveLink] settles.  With a plain path, calling it again
    with the same path changes nothing; a path that no link has, other
    than ['/home'], leaves no link highlighted; ['/home'] highlights the
    first link whose path is ['/'] when no link has the path ['/home'].
    When the selector built from the path makes the lookup throw, the
    error is passed on after every link has lost its highlight. *)
Theorem updateActiveLink_settles path links :
  (plain path = true ->
     updateActiveLink oddSelector path (updateActiveLink oddSelector path links).2
       = updateActiveLink oddSelector path links)
  /\ (plain path = true -> findPath path links = None -> path <> "/home" ->
        highlighted (updateActiveLink oddSelector path links).2 = [])
  /\ (forall i, findPath "/home" links = None -> findPath "/" links = Some i ->
        exists l, (updateActiveLink oddSelector "/home" links).2 !! i = Some l
                  /\ active l = true /\ data_path l = "/")
  /\ (forall e, plain path = false ->
        oddSelector path (List.map (setActive false) links) = Throw e ->
        updateActiveLink oddSelector path links
          = (Throw e, List.map (setActive false) links)).
Proof.
  split; [|split; [|split]].
  - intros Hp. rewrite (updateActiveLink_shape path links Hp). cbn [snd].
    rewrite (updateActiveLink_shape path _ Hp). f_equal.
    assert (Hsame : forall p oi,
              findPath p match oi with
                         | Some i => alter (setActive true) i
                                       (List.map (setActive false) links)
                         | None => List.map (setActive false) links
                         end = findPath p links).
    { intros p oi.
      rewrite <- (findPath_setActive p false), <- (findPath_setActive p false links).
      destruct oi; [rewrite map_setActive_alter|rewrite map_setActive_idemp];
        reflexivity. }
    rewrite !Hsame.
    destruct (chosen path links) as [i|];
      [rewrite map_setActive_alter|rewrite map_setActive_idemp]; reflexivity.
  - intros Hp Hf Hh. rewrite (updateActiveLink_shape path links Hp), Hf. cbn [snd].
    pose proof (all_inactive links) as Hin.
    destruct (String.eqb path "/") eqn:H0.
    + apply String.eqb_eq in H0. subst path. rewrite Hf. cbn.
      by apply highlighted_none.
    + apply String.eqb_neq in Hh. rewrite Hh. cbn. by apply highlighted_none.
  - intros i Hh H0.
    rewrite (updateActiveLink_shape "/home" links eq_refl), Hh. cbn [String.eqb
      Ascii.eqb Bool.eqb orb snd]. rewrite H0.
    rewrite <- (findPath_setActive "/" false) in H0.
    apply findPath_Some in H0 as (x & Hx & Hxp).
    exists (setActive true x). rewrite list_lookup_alter_eq, Hx. repeat split. exact Hxp.
  - intros e Hp Hodd. unfold updateActiveLink, queryDataPath. rewrite Hp, Hodd.
    reflexivity.
Qed.

End WithBrowser.

Import Demo Samples.

Lemma updateActiveLink_highlights_witness :
  plain "/mfe1" = true
  /\ findPath "/mfe1" mountedLinks = Some 1
  /\ active <$> (updateActiveLink strictSelector "/mfe1" mountedLinks).2 = [false; true]
  /\ length (highlighted (updateActiveLink strictSelector "/mfe1" mountedLinks).2) = 1.
Proof.
  assert (H1 : plain "/mfe1" = true) by reflexivity.
  assert (H2 : findPath "/mfe1" mountedLinks = Some 1) by reflexivity.
  destruct (updateActiveLink_highlights strictSelector "/mfe1" mountedLinks H1)
    as (_ & _ & _ & _ & _ & K).
  destruct (K 1 H2) as [K1 _].
  split; [exact H1|]. split; [exact H2|]. split; [reflexivity|exact K1].
Defined.

Lemma updateActiveLink_settles_witness :
  plain "/about" = true
  /\ findPath "/about" mountedLinks = None
  /\ "/about" <> "/home"
  /\ highlighted (updateActiveLink strictSelector "/about" mountedLinks).2 = []
  /\ findPath "/home" mountedLinks = None
  /\ findPath "/" mountedLinks = Some 0
  /\ active <$> (updateActiveLink strictSelector "/home" mountedLinks).2 = [true; false]
  /\ plain ("/a" +:+ quoted "b") = false
  /\ (updateActiveLink strictSelector ("/a" +:+ quoted "b")
        (updateActiveLink strictSelector "/" mountedLinks).2).2 = mountedLinks.
Proof.
  assert (H1 : plain "/about" = true) by reflexivity.
  assert (H2 : findPath "/about" mountedLinks = None) by reflexivity.
  assert (H3 : "/about" <> "/home") by discriminate.
  assert (H4 : findPath "/home" mountedLinks = None) by reflexivity.
  assert (H5 : findPath "/" mountedLinks = Some 0) by reflexivity.
  assert (H6 : plain ("/a" +:+ quoted "b") = false) by reflexivity.
  destruct (updateActiveLink_settles strictSelector "/about" mountedLinks)
    as (_ & K1 & _ & _).
  destruct (updateActiveLink_settles strictSelector ("/a" +:+ quoted "b")
              (updateActiveLink strictSelector "/" mountedLinks).2)
    as (_ & _ & _ & K2).
  split; [exact H1|]. split; [exact H2|]. split; [exact H3|].
  split; [exact (K1 H1 H2 H3)|]. split; [exact H4|]. split; [exact H5|].
  split; [reflexivity|]. split; [exact H6|].
  rewrite (K2 _ H6 eq_refl). reflexivity.
Defined.

End NavigationMore.
